(** * ME.ai orchestrator: issue classification, sessions and routing

    A shallow embedding of the decision logic of the helpdesk orchestrator:
    the keyword classifier ([existing/response_generator.py]), the ontology
    classifier with its confidence score ([enhanced/neo4j_itsm_manager.py]),
    the session store ([existing/session_manager.py]), the per-session
    memory ([memory/session_memory.py]) and the two orchestrators
    ([me_agent_orchestrator.py], [agent/orchestrator.py]); beside them
    the request to the chat API, the look-ups of the DB service
    ([existing/db_service.py]), the troubleshooting tool of the hardware
    agent ([agent/hardware_agent.py]) and the enhanced orchestrator
    ([me_ai_integration.py]).

    Python [str] values are modelled as [string]s whose characters are the
    code points 0..255; Python [int]s as [Z]; Python [float]s as the kernel's
    binary64 floats; dictionaries as [gmap]s.  On these code points
    [str.lower] keeps the length of a string.  It does not beyond them,
    so the keyword classifier is modelled a second time on lists of code
    points ([PyUnicode], [ResponseGeneratorUnicode]); the two models
    agree on the strings of the first. *)

From Stdlib Require Import ZArith NArith Floats Uint63 Ascii String List Bool Lia.
From stdpp Require Import base gmap strings list.

Set Warnings "-inexact-float".

(** ** Python string primitives used by the program *)

Module PyStr.

Definition code (c : ascii) : N := N_of_ascii c.

(** [str.isspace] on one code point below 256: TAB..CR, FS..US, SPACE,
    NEL and NBSP. *)
Definition is_space (c : ascii) : bool :=
  let n := code c in
  (((9 <=? n) && (n <=? 13)) || ((28 <=? n) && (n <=? 32))
   || (n =? 133) || (n =? 160))%N.

(** [str.lower] on one code point below 256: A..Z and the Latin-1
    capitals (all of 0xC0..0xDE but the multiplication sign) move up
    by 32; every other code point is its own lower case. *)
Definition lower_char (c : ascii) : ascii :=
  let n := code c in
  if (((65 <=? n) && (n <=? 90))
      || ((192 <=? n) && (n <=? 222) && negb (n =? 215)))%N
  then ascii_of_N (n + 32) else c.

(** [s.lower()].  Every code point below 256 has one code point as its
    lower case, so the length is kept; [PyUnicode.lower] is the same
    function on code points for which this fails. *)
Fixpoint lower (s : string) : string :=
  match s with
  | EmptyString => EmptyString
  | String c s' => String (lower_char c) (lower s')
  end.

Fixpoint lstrip (s : string) : string :=
  match s with
  | EmptyString => EmptyString
  | String c s' => if is_space c then lstrip s' else s
  end.

Fixpoint rstrip (s : string) : string :=
  match s with
  | EmptyString => EmptyString
  | String c s' =>
      match rstrip s' with
      | EmptyString => if is_space c then EmptyString else String c EmptyString
      | r => String c r
      end
  end.

(** [s.strip()] *)
Definition strip (s : string) : string := rstrip (lstrip s).

(** [len(s)] *)
Definition len (s : string) : Z := Z.of_nat (String.length s).

(** [s.startswith(w)] *)
Fixpoint startswith (w s : string) : bool :=
  match w, s with
  | EmptyString, _ => true
  | String _ _, EmptyString => false
  | String a w', String b s' => Ascii.eqb a b && startswith w' s'
  end.

(** [w in s]: [w] occurs in [s] as a substring. *)
Fixpoint contains (w s : string) : bool :=
  startswith w s
  || match s with
     | EmptyString => false
     | String _ s' => contains w s'
     end.

(** [s in l] for a list of strings. *)
Definition mem (s : string) (l : list string) : bool :=
  existsb (String.eqb s) l.

Fixpoint take_word (s : string) : string :=
  match s with
  | EmptyString => EmptyString
  | String c s' => if is_space c then EmptyString else String c (take_word s')
  end.

(** [s.split()[0]]: the first whitespace-delimited word; [None] stands
    for the [IndexError] raised when [s] has no word. *)
Definition split_first (s : string) : option string :=
  match lstrip s with
  | EmptyString => None
  | t => Some (take_word t)
  end.

Definition nonempty (s : string) : bool :=
  match s with EmptyString => false | _ => true end.

End PyStr.

(** ** Python numbers used by the program *)

Module PyNum.

(** [float(n)] for a small non-negative [int]. *)
Definition float_of_int (n : Z) : float := PrimFloat.of_uint63 (Uint63.of_Z n).

(** [n * x] with [n] an [int] and [x] a [float]: the [int] is converted
    and the product is rounded to binary64. *)
Definition int_mul_float (n : Z) (x : float) : float :=
  PrimFloat.mul (float_of_int n) x.

(** [a / b] on two [int]s (true division). *)
Definition true_div (a b : Z) : float :=
  PrimFloat.div (float_of_int a) (float_of_int b).

(** [x > n], [n > x], [x >= n] with [x] a [float] and [n] an [int]. *)
Definition float_gt_int (x : float) (n : Z) : bool := PrimFloat.ltb (float_of_int n) x.
Definition int_gt_float (n : Z) (x : float) : bool := PrimFloat.ltb x (float_of_int n).
Definition float_ge_int (x : float) (n : Z) : bool := PrimFloat.leb (float_of_int n) x.

End PyNum.

(** ** existing/response_generator.py *)

Module ResponseGenerator.
Import PyStr PyNum.

Definition hardware_keywords : list string :=
  [ "device"; "computer"; "laptop"; "desktop"; "slow"; "broken";
    "screen"; "keyboard"; "mouse"; "printer"; "hardware"; "wifi";
    "network"; "internet"; "connection"; "battery"; "power"; "crash";
    "frozen"; "blue screen"; "bsod"; "restart"; "boot"; "monitor";
    "display"; "black screen"; "webcam"; "camera"; "microphone"; "audio";
    "sound"; "speaker"; "usb"; "drive"; "disk"; "storage" ].

Definition password_keywords : list string :=
  [ "password"; "login"; "forgot"; "reset"; "locked"; "account";
    "access"; "credentials"; "can't log in"; "authentication";
    "username"; "locked out"; "security"; "signin"; "sign in";
    "log in"; "cannot access"; "password expired"; "change password";
    "identity"; "verification"; "two-factor"; "2fa"; "mfa" ].

Definition software_keywords : list string :=
  [ "software"; "application"; "app"; "program"; "install";
    "update"; "upgrade"; "microsoft"; "office"; "excel"; "word";
    "outlook"; "email"; "browser"; "chrome"; "edge"; "firefox";
    "safari"; "teams"; "slack"; "zoom"; "license"; "activation";
    "windows"; "macos"; "os"; "operating system"; "error message" ].

Definition greeting_messages : list string :=
  [ "hi"; "hello"; "hey"; "hi there"; "hello there"; "greetings" ].

(** The three counting loops:
    [for word in keywords: if word.lower() in message_lower: count += 1]. *)
Definition count_matches (keywords : list string) (message_lower : string) : Z :=
  fold_left
    (fun count word =>
       if contains (lower word) message_lower then (count + 1)%Z else count)
    keywords 0%Z.

(** The guard of line 39. *)
Definition too_short_or_greeting (message : string) : bool :=
  (len (strip message) <? 10)%Z || mem (lower message) greeting_messages.

Definition hardware_count (message : string) : Z :=
  count_matches hardware_keywords (lower message).
Definition password_raw_count (message : string) : Z :=
  count_matches password_keywords (lower message).
Definition software_count (message : string) : Z :=
  count_matches software_keywords (lower message).

(** [password_count *= 1.2]; the literal is the binary64 value nearest to
    1.2, as in Python. *)
Definition password_count (message : string) : float :=
  int_mul_float (password_raw_count message) 1.2%float.

(** The final [if]/[elif] chain of [classify_issue] on the three scores. *)
Definition pick_category (hardware : Z) (password : float) (software : Z) : string :=
  if float_gt_int password hardware && float_gt_int password software then "Password"
  else if (hardware <? software)%Z && int_gt_float software password then "Software"
  else if (0 <? hardware)%Z then "Hardware"
  else "General".

Definition classify_issue (message : string) : string :=
  if too_short_or_greeting message then "General"
  else pick_category (hardware_count message) (password_count message)
                     (software_count message).

End ResponseGenerator.

(** ** enhanced/neo4j_itsm_manager.py: the classifier that reports a confidence *)

Module Neo4jITSMManager.
Import PyStr PyNum.

Definition hardware_keywords : list string :=
  [ "laptop"; "desktop"; "printer"; "device"; "hardware"; "keyboard";
    "mouse"; "monitor"; "screen"; "battery"; "power"; "usb"; "disk" ].

Definition software_keywords : list string :=
  [ "software"; "application"; "program"; "app"; "windows"; "office";
    "excel"; "word"; "outlook"; "browser"; "update"; "install";
    "license"; "version"; "freeze"; "crash" ].

Definition network_keywords : list string :=
  [ "network"; "wifi"; "internet"; "connection"; "lan"; "vpn";
    "ethernet"; "dns"; "ip"; "wireless"; "connect"; "access point" ].

Definition security_keywords : list string :=
  [ "password"; "login"; "security"; "authentication"; "access";
    "account"; "credentials"; "reset"; "locked"; "mfa"; "permission" ].

(** [[kw for kw in keywords if kw in issue_lower]] *)
Definition matching (keywords : list string) (issue_lower : string) : list string :=
  List.filter (fun kw => contains kw issue_lower) keywords.

(** [sum(1 for kw in keywords if kw in issue_lower)] *)
Definition count (keywords : list string) (issue_lower : string) : Z :=
  Z.of_nat (List.length (matching keywords issue_lower)).

Definition max3 (a b c : Z) : Z := Z.max (Z.max a b) c.
Definition max4 (a b c d : Z) : Z := Z.max (Z.max (Z.max a b) c) d.

Record Classification := {
  category : string;
  agent_category : string;
  primary_keywords : list string;
  confidence : float
}.

Definition hw_count (issue_description : string) : Z :=
  count hardware_keywords (lower issue_description).
Definition sw_count (issue_description : string) : Z :=
  count software_keywords (lower issue_description).
Definition net_count (issue_description : string) : Z :=
  count network_keywords (lower issue_description).
Definition sec_count (issue_description : string) : Z :=
  count security_keywords (lower issue_description).

(** [max(hw_count, sw_count, net_count, sec_count)] *)
Definition max_count (issue_description : string) : Z :=
  max4 (hw_count issue_description) (sw_count issue_description)
       (net_count issue_description) (sec_count issue_description).

Definition get_issue_classification (issue_description : string) : Classification :=
  let issue_lower := lower issue_description in
  let hw := count hardware_keywords issue_lower in
  let sw := count software_keywords issue_lower in
  let net := count network_keywords issue_lower in
  let sec := count security_keywords issue_lower in
  let '(category, primary_keywords) :=
    if (max3 hw sw net <? sec)%Z then
      ("Password", matching security_keywords issue_lower)
    else if (max3 sw net sec <? hw)%Z then
      ("Hardware", matching hardware_keywords issue_lower)
    else if (max3 hw net sec <? sw)%Z then
      ("Software", matching software_keywords issue_lower)
    else if (max3 hw sw sec <? net)%Z then
      ("Network", matching network_keywords issue_lower)
    else ("General", []) in
  let agent_category := if String.eqb category "Network" then "Hardware" else category in
  {| category := category;
     agent_category := agent_category;
     primary_keywords := primary_keywords;
     confidence := true_div (max4 hw sw net sec) 5 |}.

End Neo4jITSMManager.

(** ** existing/session_manager.py *)

Module SessionManager.

Record Message := { role : string; content : string }.

(** A JSON object of strings, as the DB service returns for an employee
    or a device. *)
Abbreviation Dict := (gmap string string).

(** The attributes of a [Session].  [greeted] and [language] are not set
    by [__init__]: [None] stands for an absent attribute ([hasattr] is
    false).  Timestamps are the text the clock returned. *)
Record Session := {
  session_id : string;
  customer_number : option string;
  customer_email : option string;
  employee_id : option string;
  agent_id : option string;
  employee_info : option Dict;
  devices : list Dict;
  conversation_id : string;
  messages : list Message;
  channel_status : gmap string bool;
  issue_type : option string;
  created_at : string;
  last_updated : string;
  call_data : Dict;
  asked_about_devices : bool;
  selected_device : option string;
  initial_greeting : option string;
  greeted : option bool;
  language : option string
}.

(** [Session.__init__]; [uuid] and [now] are what [uuid.uuid4()] and
    [datetime.now()] returned. *)
Definition new_session (sid uuid now : string) : Session :=
  {| session_id := sid;
     customer_number := None;
     customer_email := None;
     employee_id := None;
     agent_id := None;
     employee_info := None;
     devices := [];
     conversation_id := uuid;
     messages := [];
     channel_status := <["telephony" := false]> (<["chat" := false]> ∅);
     issue_type := None;
     created_at := now;
     last_updated := now;
     call_data := ∅;
     asked_about_devices := false;
     selected_device := None;
     initial_greeting := None;
     greeted := None;
     language := None |}.

(** Attribute assignments on a session object. *)

(** [session.customer_number = v] *)
Definition set_customer_number (v : option string) (s : Session) : Session :=
  {| session_id := session_id s;
     customer_number := v;
     customer_email := customer_email s;
     employee_id := employee_id s;
     agent_id := agent_id s;
     employee_info := employee_info s;
     devices := devices s;
     conversation_id := conversation_id s;
     messages := messages s;
     channel_status := channel_status s;
     issue_type := issue_type s;
     created_at := created_at s;
     last_updated := last_updated s;
     call_data := call_data s;
     asked_about_devices := asked_about_devices s;
     selected_device := selected_device s;
     initial_greeting := initial_greeting s;
     greeted := greeted s;
     language := language s |}.

(** [session.customer_email = v] *)
Definition set_customer_email (v : option string) (s : Session) : Session :=
  {| session_id := session_id s;
     customer_number := customer_number s;
     customer_email := v;
     employee_id := employee_id s;
     agent_id := agent_id s;
     employee_info := employee_info s;
     devices := devices s;
     conversation_id := conversation_id s;
     messages := messages s;
     channel_status := channel_status s;
     issue_type := issue_type s;
     created_at := created_at s;
     last_updated := last_updated s;
     call_data := call_data s;
     asked_about_devices := asked_about_devices s;
     selected_device := selected_device s;
     initial_greeting := initial_greeting s;
     greeted := greeted s;
     language := language s |}.

(** [session.employee_id = v] *)
Definition set_employee_id (v : option string) (s : Session) : Session :=
  {| session_id := session_id s;
     customer_number := customer_number s;
     customer_email := customer_email s;
     employee_id := v;
     agent_id := agent_id s;
     employee_info := employee_info s;
     devices := devices s;
     conversation_id := conversation_id s;
     messages := messages s;
     channel_status := channel_status s;
     issue_type := issue_type s;
     created_at := created_at s;
     last_updated := last_updated s;
     call_data := call_data s;
     asked_about_devices := asked_about_devices s;
     selected_device := selected_device s;
     initial_greeting := initial_greeting s;
     greeted := greeted s;
     language := language s |}.

(** [session.agent_id = v] *)
Definition set_agent_id (v : option string) (s : Session) : Session :=
  {| session_id := session_id s;
     customer_number := customer_number s;
     customer_email := customer_email s;
     employee_id := employee_id s;
     agent_id := v;
     employee_info := employee_info s;
     devices := devices s;
     conversation_id := conversation_id s;
     messages := messages s;
     channel_status := channel_status s;
     issue_type := issue_type s;
     created_at := created_at s;
     last_updated := last_updated s;
     call_data := call_data s;
     asked_about_devices := asked_about_devices s;
     selected_device := selected_device s;
     initial_greeting := initial_greeting s;
     greeted := greeted s;
     language := language s |}.

(** [session.employee_info = v] *)
Definition set_employee_info (v : option Dict) (s : Session) : Session :=
  {| session_id := session_id s;
     customer_number := customer_number s;
     customer_email := customer_email s;
     employee_id := employee_id s;
     agent_id := agent_id s;
     employee_info := v;
     devices := devices s;
     conversation_id := conversation_id s;
     messages := messages s;
     channel_status := channel_status s;
     issue_type := issue_type s;
     created_at := created_at s;
     last_updated := last_updated s;
     call_data := call_data s;
     asked_about_devices := asked_about_devices s;
     selected_device := selected_device s;
     initial_greeting := initial_greeting s;
     greeted := greeted s;
     language := language s |}.

(** [session.devices = v] *)
Definition set_devices (v : list Dict) (s : Session) : Session :=
  {| session_id := session_id s;
     customer_number := customer_number s;
     customer_email := customer_email s;
     employee_id := employee_id s;
     agent_id := agent_id s;
     employee_info := employee_info s;
     devices := v;
     conversation_id := conversation_id s;
     messages := messages s;
     channel_status := channel_status s;
     issue_type := issue_type s;
     created_at := created_at s;
     last_updated := last_updated s;
     call_data := call_data s;
     asked_about_devices := asked_about_devices s;
     selected_device := selected_device s;
     initial_greeting := initial_greeting s;
     greeted := greeted s;
     language := language s |}.

(** [session.messages = v] *)
Definition set_messages (v : list Message) (s : Session) : Session :=
  {| session_id := session_id s;
     customer_number := customer_number s;
     customer_email := customer_email s;
     employee_id := employee_id s;
     agent_id := agent_id s;
     employee_info := employee_info s;
     devices := devices s;
     conversation_id := conversation_id s;
     messages := v;
     channel_status := channel_status s;
     issue_type := issue_type s;
     created_at := created_at s;
     last_updated := last_updated s;
     call_data := call_data s;
     asked_about_devices := asked_about_devices s;
     selected_device := selected_device s;
     initial_greeting := initial_greeting s;
     greeted := greeted s;
     language := language s |}.

(** [session.issue_type = v] *)
Definition set_issue_type (v : option string) (s : Session) : Session :=
  {| session_id := session_id s;
     customer_number := customer_number s;
     customer_email := customer_email s;
     employee_id := employee_id s;
     agent_id := agent_id s;
     employee_info := employee_info s;
     devices := devices s;
     conversation_id := conversation_id s;
     messages := messages s;
     channel_status := channel_status s;
     issue_type := v;
     created_at := created_at s;
     last_updated := last_updated s;
     call_data := call_data s;
     asked_about_devices := asked_about_devices s;
     selected_device := selected_device s;
     initial_greeting := initial_greeting s;
     greeted := greeted s;
     language := language s |}.

(** [session.greeted = v] *)
Definition set_greeted (v : option bool) (s : Session) : Session :=
  {| session_id := session_id s;
     customer_number := customer_number s;
     customer_email := customer_email s;
     employee_id := employee_id s;
     agent_id := agent_id s;
     employee_info := employee_info s;
     devices := devices s;
     conversation_id := conversation_id s;
     messages := messages s;
     channel_status := channel_status s;
     issue_type := issue_type s;
     created_at := created_at s;
     last_updated := last_updated s;
     call_data := call_data s;
     asked_about_devices := asked_about_devices s;
     selected_device := selected_device s;
     initial_greeting := initial_greeting s;
     greeted := v;
     language := language s |}.

(** [setattr(session, 'language', v)] *)
Definition set_language (v : option string) (s : Session) : Session :=
  {| session_id := session_id s;
     customer_number := customer_number s;
     customer_email := customer_email s;
     employee_id := employee_id s;
     agent_id := agent_id s;
     employee_info := employee_info s;
     devices := devices s;
     conversation_id := conversation_id s;
     messages := messages s;
     channel_status := channel_status s;
     issue_type := issue_type s;
     created_at := created_at s;
     last_updated := last_updated s;
     call_data := call_data s;
     asked_about_devices := asked_about_devices s;
     selected_device := selected_device s;
     initial_greeting := initial_greeting s;
     greeted := greeted s;
     language := v |}.

(** [self.sessions] *)
Abbreviation Sessions := (gmap string Session).

(** [get_session]: the stored session, created first when the id is new. *)
Definition get_session (sid uuid now : string) (sessions : Sessions) : Session * Sessions :=
  match sessions !! sid with
  | Some s => (s, sessions)
  | None => let s := new_session sid uuid now in (s, <[sid := s]> sessions)
  end.

Definition save_session (s : Session) (sessions : Sessions) : Sessions :=
  <[session_id s := s]> sessions.

(** [end_session]: [if session_id in self.sessions: del self.sessions[session_id]] *)
Definition end_session (sid : string) (sessions : Sessions) : Sessions :=
  if bool_decide (is_Some (sessions !! sid)) then delete sid sessions else sessions.

End SessionManager.

(** ** memory/session_memory.py *)

Module SessionMemory.
Import SessionManager.

(** A message of the LangChain chat history: [type] is "human" or "ai". *)
Record ChatMessage := { msg_type : string; msg_content : string }.

(** [self.session_data] *)
Record SessionData := {
  sd_created_at : string;
  sd_last_updated : string;
  user_info : Dict;
  device_info : list Dict;
  issue_data : Dict;
  metadata : Dict
}.

(** A [SessionMemory] object.  [chat_history] is the message list of the
    in-memory LangChain buffer ([self.memory.chat_memory.messages]), the
    store every [SessionMemory] of the orchestrator is built with
    ([persistence=None]). *)
Record t := {
  mem_session_id : string;
  memory_type : string;
  window_size : Z;
  persistence : option string;
  session_data : SessionData;
  chat_history : list ChatMessage
}.

Definition init (sid memory_type : string) (window_size : Z)
    (persistence : option string) (now : string) : t :=
  {| mem_session_id := sid;
     memory_type := memory_type;
     window_size := window_size;
     persistence := persistence;
     session_data :=
       {| sd_created_at := now; sd_last_updated := now; user_info := ∅;
          device_info := []; issue_data := ∅; metadata := ∅ |};
     chat_history := [] |}.

Definition set_last_updated (now : string) (d : SessionData) : SessionData :=
  {| sd_created_at := sd_created_at d; sd_last_updated := now;
     user_info := user_info d; device_info := device_info d;
     issue_data := issue_data d; metadata := metadata d |}.

Definition with_history (h : list ChatMessage) (m : t) : t :=
  {| mem_session_id := mem_session_id m; memory_type := memory_type m;
     window_size := window_size m; persistence := persistence m;
     session_data := session_data m; chat_history := h |}.

Definition with_data (d : SessionData) (m : t) : t :=
  {| mem_session_id := mem_session_id m; memory_type := memory_type m;
     window_size := window_size m; persistence := persistence m;
     session_data := d; chat_history := chat_history m |}.

(** [clear]: [self.memory.clear()] and nothing else. *)
Definition clear (m : t) : t := with_history [] m.

(** [add_user_message]: append to the history, then stamp [last_updated]. *)
Definition add_user_message (message now : string) (m : t) : t :=
  with_data (set_last_updated now (session_data m))
    (with_history (chat_history m ++ [{| msg_type := "human"; msg_content := message |}]) m).

Definition add_ai_message (message now : string) (m : t) : t :=
  with_data (set_last_updated now (session_data m))
    (with_history (chat_history m ++ [{| msg_type := "ai"; msg_content := message |}]) m).

(** [save_context]: LangChain appends the input as a human message and the
    output as an AI message. *)
Definition save_context (input output now : string) (m : t) : t :=
  with_data (set_last_updated now (session_data m))
    (with_history
       (chat_history m ++ [{| msg_type := "human"; msg_content := input |};
                           {| msg_type := "ai"; msg_content := output |}]) m).

(** The value under ["device_info"]: a list replaces the stored list,
    anything else is appended to it. *)
Inductive DeviceArg := DeviceList (l : list Dict) | DeviceOne (d : Dict).

(** The argument of [add_system_context]; [None] stands for a missing key. *)
Record Context := {
  ctx_user_info : option Dict;
  ctx_device_info : option DeviceArg;
  ctx_issue_data : option Dict;
  ctx_metadata : option Dict
}.

(** [d.update(u)]: the keys of [u] win. *)
Definition dict_update (u : option Dict) (d : Dict) : Dict :=
  match u with Some u => u ∪ d | None => d end.

Definition add_system_context (c : Context) (now : string) (m : t) : t :=
  let d := session_data m in
  with_data
    {| sd_created_at := sd_created_at d;
       sd_last_updated := now;
       user_info := dict_update (ctx_user_info c) (user_info d);
       device_info :=
         match ctx_device_info c with
         | Some (DeviceList l) => l
         | Some (DeviceOne x) => device_info d ++ [x]
         | None => device_info d
         end;
       issue_data := dict_update (ctx_issue_data c) (issue_data d);
       metadata := dict_update (ctx_metadata c) (metadata d) |} m.

(** [load_memory_variables]: the whole history of a buffer memory, the last
    [2 * window_size] messages of a window memory. *)
Definition load_memory_variables (m : t) : list ChatMessage :=
  if String.eqb (memory_type m) "window"
  then
    let k := Z.to_nat (2 * window_size m) in
    if (0 <? window_size m)%Z
    then skipn (List.length (chat_history m) - k) (chat_history m)
    else []
  else chat_history m.

End SessionMemory.

(** ** Outcomes of calls that may raise *)

Module PyExc.

(** The outcome of a Python call: a value, or a raised exception (by the
    name of its class). *)
Inductive Res (A : Type) : Type :=
| Ok (a : A)
| Raise (e : string).
Arguments Ok {A} a.
Arguments Raise {A} e.

Definition is_ok {A} (r : Res A) : bool :=
  match r with Ok _ => true | Raise _ => false end.

(** Truth value of an optional string ([None] and [''] are false). *)
Definition truthy (o : option string) : bool :=
  match o with Some s => PyStr.nonempty s | None => false end.

(** Truth value of an optional dictionary ([None] and [{}] are false). *)
Definition truthy_dict (o : option (gmap string string)) : bool :=
  match o with Some d => negb (bool_decide (d = ∅)) | None => false end.

(** [d.get(k, default)] *)
Definition dict_get (d : gmap string string) (k default : string) : string :=
  match d !! k with Some v => v | None => default end.

End PyExc.

(** ** existing/response_generator.py: replies that need no model call *)

Module Replies.
Import PyStr PyExc SessionManager.

(** The salutation of [generate_fallback_response]; [name.split()[0]]
    raises on a name made of blanks.  The session may be [None]. *)
Definition fallback_greeting (session : option Session) : Res string :=
  let info := session ≫= employee_info in
  if truthy_dict info && truthy (info ≫= (.!! "name"))
  then
    match split_first (dict_get (default ∅ info) "name" "") with
    | Some first_name => Ok ("Hi " +:+ first_name +:+ ", ")
    | None => Raise "IndexError"
    end
  else Ok "Hello, ".

Definition any_in (words : list string) (message_lower : string) : bool :=
  existsb (fun word => contains word message_lower) words.

Definition fallback_body (message_lower : string) (issue_type : option string) : string :=
  if mem message_lower ["hi"; "hello"; "hey"; "hi there"; "hello there"; "greetings"] then
    "I'm ME.ai Assistant, your IT support specialist. How can I help you today?"
  else if bool_decide (issue_type = Some "Password") then
    if contains "reset" message_lower || contains "forgot" message_lower then
      "I understand you need to reset your password. I'd be happy to help with that. For security reasons, I'll need to verify your identity first. Could you please confirm your department and employee ID?"
    else if contains "locked" message_lower || contains "locked out" message_lower then
      "I see that your account is locked. This typically happens after multiple incorrect password attempts. Let me help you regain access. First, could you tell me which system or application you're trying to access?"
    else
      "I understand you're having an issue with authentication or accessing your account. To help you better, could you specify which system or application you're having trouble accessing?"
  else if bool_decide (issue_type = Some "Hardware") then
    if any_in ["slow"; "performance"; "freezing"; "frozen"] message_lower then
      "I'm sorry to hear your device is running slowly. This could be due to several factors such as low disk space, too many applications running, or outdated software. Could you tell me which operating system you're using, and approximately when you started noticing the issue?"
    else if any_in ["printer"; "print"; "scanning"] message_lower then
      "I understand you're having an issue with a printer. Let me help troubleshoot that. First, could you tell me the model of the printer, and whether it's connected via network or USB?"
    else if any_in ["wifi"; "internet"; "connection"; "network"] message_lower then
      "I see you're experiencing network connectivity issues. Let's try to resolve this. Are you having trouble connecting to the WiFi, or is your device connected but you can't access specific websites or services?"
    else
      "Thank you for reaching out about your hardware issue. To help me troubleshoot effectively, could you tell me which specific device you're having problems with, and what symptoms you're experiencing?"
  else if bool_decide (issue_type = Some "Software") then
    if any_in ["install"; "download"; "setup"] message_lower then
      "I understand you need help installing software. To assist you better, could you tell me which application you're trying to install, and what error or issue you're encountering during the installation process?"
    else if any_in ["update"; "upgrade"; "patch"] message_lower then
      "I see you're having issues with a software update. These can sometimes be tricky. Could you let me know which program needs updating, and what happens when you try to update it?"
    else if any_in ["office"; "excel"; "word"; "powerpoint"; "outlook"] message_lower then
      "I understand you're experiencing an issue with Microsoft Office. To help you more effectively, could you specify which Office application is giving you trouble, and describe what happens when the problem occurs?"
    else
      "I understand you're having a software issue. To help me troubleshoot effectively, could you tell me which specific application you're having problems with, and what error messages or unexpected behaviors you're seeing?"
  else
    "Thank you for reaching out to IT support. I'd like to help with your issue, but I need a bit more information. Could you provide more details about what you're experiencing so I can better assist you?".

(** [generate_fallback_response(user_message, session, issue_type, error_type)] *)
Definition generate_fallback_response (user_message : string) (session : option Session)
    (issue_type error_type : option string) : Res string :=
  match fallback_greeting session with
  | Raise e => Raise e
  | Ok greeting =>
      if bool_decide (error_type = Some "timeout") then
        Ok (greeting +:+ "I apologize for the delay. Our system is experiencing some momentary slowness. Could you please provide some additional details about your issue so I can assist you better once our systems are back to normal speed?")
      else Ok (greeting +:+ fallback_body (lower user_message) issue_type)
  end.

(** ["Good morning" if 5 <= hour < 12 else "Good afternoon" if 12 <= hour < 18 else "Good evening"] *)
Definition time_greeting (hour : Z) : string :=
  if ((5 <=? hour) && (hour <? 12))%Z then "Good morning"
  else if ((12 <=? hour) && (hour <? 18))%Z then "Good afternoon"
  else "Good evening".

(** [generate_initial_greeting(session)]; [hour] is [datetime.now().hour]. *)
Definition generate_initial_greeting (hour : Z) (session : Session) : Res string :=
  if truthy_dict (employee_info session) then
    let info := default ∅ (employee_info session) in
    match split_first (dict_get info "name" "") with
    | None => Raise "IndexError"
    | Some employee_name =>
        let department := dict_get info "department" "" in
        let greeting :=
          time_greeting hour +:+ ", " +:+ employee_name
          +:+ "! I'm ME.ai Assistant, your IT support specialist." in
        let greeting :=
          if nonempty department
          then greeting +:+ " I see you're from the " +:+ department +:+ " department."
          else greeting in
        Ok (greeting +:+ " How can I help you with your IT needs today?")
    end
  else
    Ok (time_greeting hour
        +:+ "! I'm ME.ai Assistant, your IT support specialist. How can I help you today?").

End Replies.

(** ** The collaborators and the state of the orchestrator *)

Module Runtime.
Import PyStr PyExc SessionManager.

(** What the outside world answers during one turn.  Every collaborator
    may return or raise, whatever it is given; the clock and the UUID
    source are read the same way. *)
Record Env := {
  now : string;
  hour : Z;
  uuid4 : string;
  find_employee_by_contact : string -> string -> Res (option Dict);
  get_employee_devices : Dict -> Res (list Dict);
  find_agent_by_specialization : string -> Res (option Dict);
  log_conversation_to_db :
    string -> option string -> option string -> string -> string -> string -> Res unit;
  (** [WorkflowChain.issue_chain.run(conversation=...)] *)
  issue_chain_run : string -> Res string;
  (** [AgentOrchestrator.classifier_chain.run(query=...)] *)
  classifier_chain_run : string -> Res string;
  (** building the greeting prompt and [MEConversationChain(self.llm)] *)
  greeting_chain_new : Res unit;
  (** [MEConversationChain.chain.run(input=...)] with the employee context *)
  greeting_chain_run : string -> Dict -> Res string;
  (** [agent_executor.run(input=...)] of the agent of the given type, built
      for the given employee *)
  agent_executor_run : string -> option Dict -> string -> Res string
}.

(** The objects the orchestrator owns: the sessions of its
    [SessionManager] and its [session_memories].  A session object is
    referred to by its key, so that an assignment to one of its
    attributes is seen by every holder of the object. *)
Record World := {
  sessions : Sessions;
  session_memories : gmap string SessionMemory.t
}.

(** Computations that read and write the objects and may raise; what was
    written before an exception stays written. *)
Definition M (A : Type) : Type := World -> Res A * World.

Definition ret {A} (a : A) : M A := fun w => (Ok a, w).

Definition raise {A} (e : string) : M A := fun w => (Raise e, w).

Definition bind {A B} (m : M A) (k : A -> M B) : M B :=
  fun w =>
    match m w with
    | (Ok a, w') => k a w'
    | (Raise e, w') => (Raise e, w')
    end.

(** [try: m  except Exception: handler] *)
Definition try_except {A} (m : M A) (handler : string -> M A) : M A :=
  fun w =>
    match m w with
    | (Ok a, w') => (Ok a, w')
    | (Raise e, w') => handler e w'
    end.

(** The outcome of a collaborator, or of a pure call that may raise. *)
Definition lift {A} (r : Res A) : M A := fun w => (r, w).

(** Reading the session object behind a reference. *)
Definition the_session (sid : string) : M Session :=
  fun w =>
    match sessions w !! sid with
    | Some s => (Ok s, w)
    | None => (Raise "AttributeError", w)
    end.

(** Assigning to an attribute of the session object behind a reference. *)
Definition assign (sid : string) (f : Session -> Session) : M unit :=
  fun w =>
    (Ok tt, {| sessions := alter f sid (sessions w);
               session_memories := session_memories w |}).

(** [self.session_manager.get_session(session_id)] *)
Definition manager_get_session (env : Env) (sid : string) : M unit :=
  fun w =>
    (Ok tt, {| sessions := snd (get_session sid (uuid4 env) (now env) (sessions w));
               session_memories := session_memories w |}).

(** [self.session_manager.save_session(session)] *)
Definition manager_save_session (sid : string) : M unit :=
  fun w =>
    match sessions w !! sid with
    | Some s => (Ok tt, {| sessions := save_session s (sessions w);
                           session_memories := session_memories w |})
    | None => (Raise "AttributeError", w)
    end.

(** [self._get_or_create_memory(session_id)] *)
Definition get_or_create_memory (env : Env) (sid : string) : M unit :=
  fun w =>
    match session_memories w !! sid with
    | Some _ => (Ok tt, w)
    | None =>
        (Ok tt, {| sessions := sessions w;
                   session_memories :=
                     <[sid := SessionMemory.init sid "buffer" 10 None (now env)]>
                       (session_memories w) |})
    end.

(** A method call on the memory object of a session. *)
Definition on_memory (sid : string) (f : SessionMemory.t -> SessionMemory.t) : M unit :=
  fun w =>
    (Ok tt, {| sessions := sessions w;
               session_memories := alter f sid (session_memories w) |}).

End Runtime.

Declare Scope py_scope.
Delimit Scope py_scope with py.
Notation "x <- m ; k" := (Runtime.bind m (fun x => k))
  (at level 20, m at level 100, k at level 200, only parsing) : py_scope.

(** ** chains/workflow.py and chains/conversation.py *)

Module Chains.
Import PyStr PyExc Runtime.

Fixpoint drop (n : nat) (s : string) : string :=
  match n, s with
  | O, _ => s
  | S n', String _ s' => drop n' s'
  | S _, EmptyString => EmptyString
  end.

(** The text of [s] before the first occurrence of [sep] (all of [s] when
    there is none): [s.split(sep)[0]]. *)
Fixpoint before (sep s : string) : string :=
  if startswith sep s then EmptyString
  else match s with
       | EmptyString => EmptyString
       | String c s' => String c (before sep s')
       end.

(** The text of [s] after the first occurrence of [sep]. *)
Fixpoint after (sep s : string) : option string :=
  if startswith sep s then Some (drop (String.length sep) s)
  else match s with
       | EmptyString => None
       | String _ s' => after sep s'
       end.

Definition newline : string := String (ascii_of_nat 10) EmptyString.

(** [result.split(key)[1].split("\n")[0].strip()] when [key in result],
    the given default otherwise. *)
Definition field_of (key default result : string) : string :=
  if contains key result then
    match after key result with
    | Some rest => strip (before newline (before key rest))
    | None => default
    end
  else default.

Record IssueClassification := {
  category : string;
  subcategory : string;
  priority : string;
  full_response : string
}.

(** [WorkflowChain.classify_issue_detailed] *)
Definition classify_issue_detailed (env : Env) (conversation : string) : IssueClassification :=
  match issue_chain_run env conversation with
  | Ok result =>
      {| category := field_of "CATEGORY:" "Unknown" result;
         subcategory := field_of "SUBCATEGORY:" "Unknown" result;
         priority := field_of "PRIORITY:" "Medium" result;
         full_response := result |}
  | Raise _ =>
      {| category := "Unknown"; subcategory := "Unknown"; priority := "Medium";
         full_response := "Error in classification" |}
  end.

(** [MEConversationChain.process]: the model's reply, or an apology when
    anything raised. *)
Definition conversation_process (env : Env) (user_input : string)
    (employee_info : gmap string string) : string :=
  match greeting_chain_run env user_input employee_info with
  | Ok response => response
  | Raise _ =>
      "I apologize, but I'm experiencing technical difficulties. Please try again or contact our IT team directly if your issue is urgent."
  end.

End Chains.

(** ** agent/base_agent.py *)

Module Agents.
Import PyStr PyExc SessionManager Runtime Replies.
Local Open Scope py_scope.

(** The session object behind an optional reference. *)
Definition the_optional_session (session : option string) : M (option Session) :=
  match session with
  | Some sid => s <- the_session sid ; ret (Some s)
  | None => ret None
  end.

(** [MeAIBaseAgent.process(user_input, session)] of the agent of type
    [agent_type]: the executor's answer, or the fallback reply when the
    executor raised. *)
Definition process (env : Env) (agent_type user_input : string)
    (session : option string) : M string :=
  s <- the_optional_session session ;
  let info := s ≫= employee_info in
  match agent_executor_run env agent_type
          (if truthy_dict info then info else None) user_input with
  | Ok response => ret response
  | Raise _ => lift (generate_fallback_response user_input s (Some agent_type) None)
  end.

End Agents.

(** ** me_agent_orchestrator.py *)

Module MEAgentOrchestrator.
Import PyStr PyExc SessionManager Runtime Replies Chains.
Local Open Scope py_scope.

(** The keys of [self.agents] and [self.default_agent]. *)
Definition agents : list string := ["Hardware"; "Software"; "Password"].
Definition default_agent : string := "Hardware".

(** [classify_issue_type]: the category the workflow chain reports, mapped
    to an agent type.  [classify_issue_detailed] catches what the model
    call raises, so the [except] branch of this method is never entered. *)
Definition classify_issue_type (env : Env) (query : string) : string :=
  let conversation := "User: " +:+ query in
  let category := category (classify_issue_detailed env conversation) in
  if contains "Hardware" category || contains "Device" category then "Hardware"
  else if contains "Software" category || contains "Application" category then "Software"
  else if contains "Password" category || contains "Access" category
          || contains "Account" category then "Password"
  else "General".

(** [not session.issue_type or session.issue_type == "General"] *)
Definition unclassified (session : Session) : bool :=
  negb (truthy (issue_type session)) || bool_decide (issue_type session = Some "General").

Definition issue_context (issue_type now : string) : SessionMemory.Context :=
  {| SessionMemory.ctx_user_info := None;
     SessionMemory.ctx_device_info := None;
     SessionMemory.ctx_issue_data :=
       Some (<["type" := issue_type]> (<["classified_at" := now]> ∅));
     SessionMemory.ctx_metadata := None |}.

Definition append_message (m : Message) (s : Session) : Session :=
  set_messages (messages s ++ [m]) s.

(** Lines 158-172 of [process_query]: classify while the session has no
    specific category, keep the stored category otherwise. *)
Definition classify_step (env : Env) (query sid : string) : M string :=
  session <- the_session sid ;
  if unclassified session then
    let issue_type := classify_issue_type env query in
    _ <- assign sid (set_issue_type (Some issue_type)) ;
    _ <- on_memory sid
           (SessionMemory.add_system_context (issue_context issue_type (now env))
              (now env)) ;
    ret issue_type
  else ret (default "" (issue_type session)).

(** Lines 174-212 of [process_query]: pick the agent, resolve the agent
    id, delegate, record and log the reply. *)
Definition delegate (env : Env) (query sid issue_type : string) : M string :=
  let agent := if mem issue_type agents then issue_type else default_agent in
  session <- the_session sid ;
  _ <- (if negb (truthy (agent_id session)) then
          agent_info <- lift (find_agent_by_specialization env issue_type) ;
          if truthy_dict agent_info
          then assign sid (set_agent_id (agent_info ≫= (.!! "agent_id")))
          else ret tt
        else ret tt) ;
  response <- Agents.process env agent query (Some sid) ;
  _ <- on_memory sid (SessionMemory.add_ai_message response (now env)) ;
  session <- the_session sid ;
  _ <- (if truthy (employee_id session) && truthy (agent_id session) then
          try_except
            (lift (log_conversation_to_db env (conversation_id session)
                     (employee_id session) (agent_id session) response
                     "AI response" "In Progress"))
            (fun _ => ret tt)
        else ret tt) ;
  ret response.

(** The [except] branch of [process_query]. *)
Definition fallback (query sid : string) : M string :=
  session <- the_session sid ;
  lift (generate_fallback_response query (Some session) None None).

Definition process_query (env : Env) (query sid : string) : M string :=
  try_except
    (_ <- get_or_create_memory env sid ;
     _ <- on_memory sid (SessionMemory.add_user_message query (now env)) ;
     issue_type <- classify_step env query sid ;
     delegate env query sid issue_type)
    (fun _ => fallback query sid).

Definition employee_context (employee : Dict) (devices : list Dict) : SessionMemory.Context :=
  {| SessionMemory.ctx_user_info := Some employee;
     SessionMemory.ctx_device_info := Some (SessionMemory.DeviceList devices);
     SessionMemory.ctx_issue_data := None;
     SessionMemory.ctx_metadata := None |}.

(** The first part of [get_initial_greeting]: look the employee up by
    e-mail, then by phone, and record what was found. *)
Definition identify_employee (env : Env) (sid : string) : M unit :=
  session <- the_session sid ;
  if negb (truthy (employee_id session))
     && (truthy (customer_email session) || truthy (customer_number session))
  then
    employee <-
      (if truthy (customer_email session)
       then lift (find_employee_by_contact env "email" (default "" (customer_email session)))
       else ret None) ;
    employee <-
      (if negb (truthy_dict employee) && truthy (customer_number session)
       then lift (find_employee_by_contact env "phone" (default "" (customer_number session)))
       else ret employee) ;
    if truthy_dict employee then
      let e := default ∅ employee in
      _ <- assign sid (set_employee_id (e !! "employee_id")) ;
      _ <- assign sid (set_employee_info employee) ;
      devices <- lift (get_employee_devices env e) ;
      _ <- assign sid (set_devices devices) ;
      _ <- get_or_create_memory env sid ;
      on_memory sid (SessionMemory.add_system_context (employee_context e devices) (now env))
    else ret tt
  else ret tt.

Definition default_greeting : string :=
  "Hello! I'm ME.ai Assistant, your IT support specialist. How can I help you today?".

Definition get_initial_greeting (env : Env) (sid : string) : M string :=
  try_except
    (_ <- identify_employee env sid ;
     session <- the_session sid ;
     if truthy_dict (employee_info session) then
       let info := default ∅ (employee_info session) in
       employee_name <-
         lift (match split_first (dict_get info "name" "") with
               | Some first => Ok first
               | None => Raise "IndexError"
               end) ;
       let department := dict_get info "department" "Unknown Department" in
       _ <- lift (greeting_chain_new env) ;
       ret (conversation_process env "Hello"
              (<["name" := employee_name]> (<["department" := department]> ∅)))
     else lift (generate_initial_greeting (hour env) session))
    (fun _ => ret default_greeting).

Definition greeting_words : list string :=
  ["hello"; "hi"; "hey"; "good morning"; "good afternoon"; "good evening"].

(** [any(greeting in message.lower() for greeting in [...])] *)
Definition is_greeting (message : string) : bool :=
  existsb (fun greeting => contains greeting (lower message)) greeting_words.

(** [not hasattr(session, 'greeted') or not session.greeted] *)
Definition not_greeted (session : Session) : bool :=
  match greeted session with
  | Some true => false
  | _ => true
  end.

(** The test that sends a turn down the greeting path. *)
Definition takes_greeting_path (session : Session) (message : string) : bool :=
  not_greeted session && is_greeting message.

Definition apology : string :=
  "I apologize, but I'm experiencing technical difficulties. Please try again later or contact our IT support team directly if your issue is urgent.".

(** The greeting path of [process_message]. *)
Definition greeting_turn (env : Env) (message sid : string) : M string :=
  greeting <- get_initial_greeting env sid ;
  _ <- assign sid (set_greeted (Some true)) ;
  _ <- assign sid (append_message {| role := "user"; content := message |}) ;
  _ <- assign sid (append_message {| role := "assistant"; content := greeting |}) ;
  _ <- manager_save_session sid ;
  ret greeting.

(** The agent path of [process_message]. *)
Definition agent_turn (env : Env) (message sid : string) : M string :=
  _ <- assign sid (append_message {| role := "user"; content := message |}) ;
  response <- process_query env message sid ;
  _ <- assign sid (append_message {| role := "assistant"; content := response |}) ;
  _ <- manager_save_session sid ;
  ret response.

(** Lines 295-308 of [process_message]: fetch or create the session and
    record the contact hints and the language. *)
Definition receive (env : Env) (sid : string)
    (user_email user_phone language : option string) : M unit :=
  _ <- manager_get_session env sid ;
  _ <- (if truthy user_email then assign sid (set_customer_email user_email) else ret tt) ;
  _ <- (if truthy user_phone then assign sid (set_customer_number user_phone) else ret tt) ;
  session <- the_session sid ;
  if truthy language && bool_decide (SessionManager.language session = None)
  then assign sid (set_language language)
  else ret tt.

Definition process_message (env : Env) (message sid : string)
    (user_email user_phone language : option string) : M string :=
  try_except
    (_ <- receive env sid user_email user_phone language ;
     session <- the_session sid ;
     if takes_greeting_path session message
     then greeting_turn env message sid
     else agent_turn env message sid)
    (fun _ => ret apology).

End MEAgentOrchestrator.

(** ** agent/orchestrator.py *)

Module AgentOrchestrator.
Import PyStr PyExc SessionManager Runtime Replies ResponseGenerator.
Local Open Scope py_scope.

Definition agents : list string := ["Hardware"; "Software"; "Password"].
Definition default_agent : string := "Hardware".

(** [classify_issue_type]: the keyword classifier first, the model-based
    classifier when it answers General. *)
Definition classify_issue_type (env : Env) (query : string) : string :=
  let issue_type := classify_issue query in
  if String.eqb issue_type "General" then
    match classifier_chain_run env query with
    | Ok response =>
        let response := strip response in
        if contains "Hardware" response then "Hardware"
        else if contains "Software" response then "Software"
        else if contains "Password" response then "Password"
        else "General"
    | Raise _ => "General"
    end
  else issue_type.

Definition process_query (env : Env) (query : string) (session : option string) : M string :=
  try_except
    (issue_type <-
       match session with
       | Some sid =>
           s <- the_session sid ;
           if negb (truthy (issue_type s)) then
             let issue_type := classify_issue_type env query in
             _ <- assign sid (set_issue_type (Some issue_type)) ;
             ret issue_type
           else ret (default "" (issue_type s))
       | None => ret (classify_issue_type env query)
       end ;
     let agent := if mem issue_type agents then issue_type else default_agent in
     Agents.process env agent query session)
    (fun _ =>
       s <- Agents.the_optional_session session ;
       lift (generate_fallback_response query s None None)).

End AgentOrchestrator.

(** ** agent/orchestrator.py: the greeting *)

Module AgentOrchestratorGreeting.
Import PyExc SessionManager Runtime Replies.
Local Open Scope py_scope.

(** [AgentOrchestrator.get_initial_greeting]: the generator's greeting,
    with nothing around it. *)
Definition get_initial_greeting (env : Env) (sid : string) : M string :=
  session <- the_session sid ;
  lift (generate_initial_greeting (hour env) session).

End AgentOrchestratorGreeting.

(** ** More Python string and list primitives *)

Module PyText.
Import PyStr.

(** [''.join(c for c in s if p(c))] *)
Fixpoint keep (p : ascii -> bool) (s : string) : string :=
  match s with
  | EmptyString => EmptyString
  | String c s' => if p c then String c (keep p s') else keep p s'
  end.

(** [s.split(sep)] for a separator of one character. *)
Fixpoint split_on (sep : ascii) (s : string) : list string :=
  match s with
  | EmptyString => [EmptyString]
  | String c s' =>
      if Ascii.eqb c sep then EmptyString :: split_on sep s'
      else match split_on sep s' with
           | part :: parts => String c part :: parts
           | [] => [String c EmptyString]
           end
  end.

(** [s.split()]: the words of [s], separated by white space. *)
Fixpoint split (s : string) : list string :=
  match s with
  | EmptyString => []
  | String c s' =>
      if is_space c then split s'
      else
        match s' with
        | EmptyString => [String c EmptyString]
        | String c' _ =>
            if is_space c' then String c EmptyString :: split s'
            else match split s' with
                 | word :: words => String c word :: words
                 | [] => [String c EmptyString]
                 end
        end
  end.

(** [l[-n:]] for [n > 0] *)
Definition lastn {A} (n : nat) (l : list A) : list A := skipn (List.length l - n) l.

End PyText.

(** ** existing/response_generator.py: the request to the chat API *)

Module AiResponse.
Import PyStr PyExc PyText SessionManager Replies.

(** What the chat API did with a request: it answered with a status code
    and a body, in which the reply text is found or not ([KeyError] or
    [IndexError] on [result['choices'][0]['message']['content']]); it
    timed out; the request failed otherwise
    ([requests.exceptions.RequestException]); or something else raised. *)
Inductive Body := Text (ai_message : string) | Malformed.
Inductive ApiOutcome :=
| Answered (status_code : Z) (body : Body)
| TimedOut
| RequestFailed
| Crashed.

(** [msg.get('role') in ['user', 'assistant']] *)
Definition from_user_or_assistant (msg : Message) : bool :=
  mem (role msg) ["user"; "assistant"].

(** [[msg for msg in session.messages[-10:] if ...][-6:]] *)
Definition history_messages (session : Session) : list Message :=
  lastn 6 (List.filter from_user_or_assistant (lastn 10 (messages session))).

(** The test of line 201: the message is not yet the last one of the
    session. *)
Definition not_in_session (user_message : string) (session : Session) : bool :=
  match last (messages session) with
  | None => true
  | Some m => negb (String.eqb (role m) "user") || negb (String.eqb (content m) user_message)
  end.

(** The [messages] of the request. *)
Definition request_messages (prompt user_message : string) (session : Session) : list Message :=
  {| role := "system"; content := prompt |}
  :: history_messages session
  ++ (if not_in_session user_message session
      then [{| role := "user"; content := user_message |}] else []).

Definition technical_difficulties : string :=
  "I apologize, but I'm experiencing technical difficulties. Please try again later or contact our IT support team directly at support@meai.com if your issue is urgent.".

(** [generate_ai_response(prompt, user_message, session, api_key, api_url)];
    [post] is what [requests.post] with the request does. *)
Definition generate_ai_response (prompt user_message : string) (session : Session)
    (post : list Message -> ApiOutcome) : string :=
  let fallback error_type :=
    match generate_fallback_response user_message (Some session) (issue_type session)
            error_type with
    | Ok reply => reply
    | Raise _ => technical_difficulties
    end in
  match post (request_messages prompt user_message session) with
  | Answered status_code body =>
      if (status_code =? 200)%Z then
        match body with
        | Text ai_message => ai_message
        | Malformed => fallback None
        end
      else fallback None
  | TimedOut => fallback (Some "timeout")
  | RequestFailed => fallback None
  | Crashed => technical_difficulties
  end.

End AiResponse.

(** ** existing/db_service.py *)

Module DbService.
Import PyStr PyExc PyText SessionManager.

(** [str.isdigit] on one code point below 256: the ten digits and the
    superscripts one, two and three. *)
Definition is_digit (c : ascii) : bool :=
  let n := code c in
  (((48 <=? n) && (n <=? 57)) || (n =? 178) || (n =? 179) || (n =? 185))%N.

(** [''.join(c for c in phone if c.isdigit() or c == '+')] *)
Definition normalize (phone : string) : string :=
  keep (fun c => is_digit c || Ascii.eqb c "+") phone.

(** [s.replace('+', '')] *)
Definition remove_plus (s : string) : string :=
  keep (fun c => negb (Ascii.eqb c "+")) s.

(** [s[-8:] if len(s) >= 8 else s] *)
Definition last_digits (s : string) : string :=
  if (8 <=? String.length s)%nat then Chains.drop (String.length s - 8) s else s.

(** What a GET request gave: an answer with its status code and decoded
    body, or an exception.  The bodies are lists of JSON objects whose
    values are strings. *)
Inductive Http (A : Type) : Type :=
| Response (status_code : Z) (json : A)
| Failed.
Arguments Response {A} status_code json.
Arguments Failed {A}.

(** [employee.get(key)], with [''] for a missing key where the value is
    used as a string. *)
Definition field (employee : Dict) (key : string) : string := default "" (employee !! key).

(** The test of the first loop over the employees, for a phone number. *)
Definition exact_phone (normalized_search : string) (alternative_search : option string)
    (employee : Dict) : bool :=
  truthy (employee !! "phone")
  && (let normalized_employee_phone := normalize (field employee "phone") in
      String.eqb normalized_employee_phone normalized_search
      || (truthy alternative_search
          && String.eqb (remove_plus normalized_employee_phone)
               (default "" alternative_search))).

(** The test of the second loop. *)
Definition partial_phone (normalized_search : string) (employee : Dict) : bool :=
  truthy (employee !! "phone")
  && (let normalized_employee_phone := normalize (field employee "phone") in
      contains normalized_search normalized_employee_phone
      || contains normalized_employee_phone normalized_search
      || String.eqb (last_digits normalized_employee_phone) (last_digits normalized_search)).

Definition find_by_phone (contact_value : string) (employees : list Dict) : option Dict :=
  let normalized_search := normalize contact_value in
  let alternative_search :=
    if startswith "+" normalized_search then Some (remove_plus normalized_search) else None in
  match List.find (exact_phone normalized_search alternative_search) employees with
  | Some employee => Some employee
  | None => List.find (partial_phone normalized_search) employees
  end.

Definition exact_email (contact_value : string) (employee : Dict) : bool :=
  truthy (employee !! "email")
  && String.eqb (lower contact_value) (lower (field employee "email")).

Definition partial_email (contact_value : string) (employee : Dict) : bool :=
  truthy (employee !! "email")
  && contains (lower contact_value) (lower (field employee "email")).

Definition find_by_email (contact_value : string) (employees : list Dict) : option Dict :=
  match List.find (exact_email contact_value) employees with
  | Some employee => Some employee
  | None => List.find (partial_email contact_value) employees
  end.

(** [find_employee_by_contact(contact_type, contact_value)]; [token] is
    what [get_db_service_token()] returned, [employees] the answer to
    GET /employees and [employee] the answer to GET /employees/<id>. *)
Definition find_employee_by_contact (token : option string)
    (employees : Http (list Dict)) (employee : Http Dict)
    (contact_type contact_value : string) : option Dict :=
  if negb (truthy token) then None
  else if String.eqb contact_type "phone" then
    match employees with
    | Response status_code json =>
        if (status_code =? 200)%Z then find_by_phone contact_value json else None
    | Failed => None
    end
  else if String.eqb contact_type "email" then
    match employees with
    | Response status_code json =>
        if (status_code =? 200)%Z then find_by_email contact_value json else None
    | Failed => None
    end
  else if String.eqb contact_type "id" then
    match employee with
    | Response status_code json => if (status_code =? 200)%Z then Some json else None
    | Failed => None
    end
  else None.

Definition active (agent : Dict) : bool :=
  bool_decide (agent !! "status" = Some "Active").

Definition specialized (specialization : string) (agent : Dict) : bool :=
  active agent && bool_decide (agent !! "specialization" = Some specialization).

(** [find_agent_by_specialization(specialization)]; [agents] is the
    answer to GET /agents. *)
Definition find_agent_by_specialization (token : option string)
    (agents : Http (list Dict)) (specialization : string) : option Dict :=
  if negb (truthy token) then None
  else
    match agents with
    | Response status_code json =>
        if negb (status_code =? 200)%Z then None
        else
          match List.find (specialized specialization) json with
          | Some agent => Some agent
          | None => List.find active json
          end
    | Failed => None
    end.

(** [get_employee_devices(employee_info)]; [devices] is the answer to
    GET /devices for the employee. *)
Definition get_employee_devices (token : option string) (devices : Http (list Dict))
    (employee_info : option Dict) : list Dict :=
  if negb (truthy token) then []
  else if truthy_dict employee_info && truthy (employee_info ≫= (.!! "employee_id")) then
    match devices with
    | Response status_code json => if (status_code =? 200)%Z then json else []
    | Failed => []
    end
  else [].

End DbService.

(** ** agent/hardware_agent.py: the troubleshooting tool *)

Module HardwareAgent.
Import PyStr PyText Chains.

(** A triple-quoted block of the source: a line break, the lines, each
    followed by a line break, and the indentation of the closing quotes. *)
Definition numbered_steps (lines : list string) : string :=
  newline +:+ fold_right (fun line text => line +:+ newline +:+ text) "                    " lines.

(** [d.get(key)] on a dictionary literal, in the order it was written. *)
Fixpoint lookup {A} (key : string) (d : list (string * A)) : option A :=
  match d with
  | [] => None
  | (k, v) :: d' => if String.eqb key k then Some v else lookup key d'
  end.

Definition troubleshooting_steps : list (string * list (string * string)) :=
  [ ("laptop",
    [
     ("won't power on",
      numbered_steps
        [ "1. Check power connection and cable";
          "2. Remove battery, hold power button for 30 seconds, reinsert battery";
          "3. Try a different power outlet";
          "4. Check for any physical damage to the power port";
          "5. If still not working, contact IT support for hardware assessment" ]);
     ("slow performance",
      numbered_steps
        [ "1. Restart the computer";
          "2. Check for available disk space (need at least 10% free)";
          "3. Close unnecessary applications running in the background";
          "4. Check for malware or viruses";
          "5. Verify your computer is not overheating" ]);
     ("blue screen",
      numbered_steps
        [ "1. Note any error codes displayed on the blue screen";
          "2. Restart the computer";
          "3. Check for recent software or driver updates";
          "4. Boot in Safe Mode to isolate issues";
          "5. Run hardware diagnostics from BIOS/UEFI" ]) ]);
    ("desktop",
    [
     ("won't power on",
      numbered_steps
        [ "1. Check power cable connections at both computer and wall outlet";
          "2. Test with a different power cable if available";
          "3. Check if the power supply switch is turned on";
          "4. Listen for any beep codes during startup";
          "5. Verify monitor is powered on and connected properly" ]);
     ("slow performance",
      numbered_steps
        [ "1. Restart the computer";
          "2. Check for available disk space";
          "3. Check CPU and memory usage in Task Manager";
          "4. Close unnecessary applications and background processes";
          "5. Scan for malware and viruses" ]);
     ("strange noises",
      numbered_steps
        [ "1. Identify source of noise (fan, hard drive, power supply)";
          "2. Check for dust buildup and clean if necessary";
          "3. Ensure all fans are functioning properly";
          "4. Check for loose components or cables";
          "5. For grinding noises from hard drives, backup data immediately" ]) ]);
    ("printer",
    [
     ("not printing",
      numbered_steps
        [ "1. Check physical connections (power, network/USB)";
          "2. Verify printer is online and ready (no error lights)";
          "3. Check for paper jams";
          "4. Restart the printer";
          "5. Clear print queue on computer";
          "6. Check if correct printer is selected" ]);
     ("poor print quality",
      numbered_steps
        [ "1. Run printer cleaning cycle";
          "2. Check toner/ink levels";
          "3. Verify paper type settings match paper being used";
          "4. Check for any obstructions in paper path";
          "5. Update printer drivers" ]);
     ("paper jam",
      numbered_steps
        [ "1. Power off the printer";
          "2. Open all access panels";
          "3. Gently remove jammed paper (pull in direction of normal paper path)";
          "4. Check for torn paper remaining inside";
          "5. Close all panels and restart printer" ]) ]) ].

Definition invalid_format : string :=
  "Invalid input format. Please provide device type and issue description separated by a semicolon.".

Definition general_steps : string :=
  ". Here are general troubleshooting steps:" +:+ newline +:+ "1. Restart the device"
  +:+ newline +:+ "2. Check all physical connections" +:+ newline
  +:+ "3. Update drivers/firmware" +:+ newline
  +:+ "4. Run built-in diagnostics if available" +:+ newline
  +:+ "5. Document any error messages".

(** [HardwareAgent._troubleshoot_hardware(input_str)] *)
Definition troubleshoot_hardware (input_str : string) : string :=
  match split_on ";" input_str with
  | [part0; part1] =>
      let device_type := lower (strip part0) in
      let issue := lower (strip part1) in
      match lookup device_type troubleshooting_steps with
      | Some device_issues =>
          match lookup issue device_issues with
          | Some steps =>
              "Troubleshooting steps for " +:+ device_type +:+ " - " +:+ issue +:+ ":"
              +:+ newline +:+ steps
          | None =>
              match List.find (fun '(known_issue, _) =>
                                 contains known_issue issue || contains issue known_issue)
                      device_issues with
              | Some (known_issue, steps) =>
                  "Troubleshooting steps for " +:+ device_type +:+ " - " +:+ known_issue
                  +:+ ":" +:+ newline +:+ steps
              | None =>
                  "No specific troubleshooting steps found for '" +:+ issue +:+ "' with "
                  +:+ device_type +:+ general_steps
              end
          end
      | None => "No troubleshooting information available for device type: " +:+ device_type
      end
  | _ => invalid_format
  end.

End HardwareAgent.

(** ** me_ai_integration.py *)

Module MEAIEnhancedOrchestrator.
Import PyStr PyExc PyText SessionManager Runtime Replies.
Import MEAgentOrchestrator.
Local Open Scope py_scope.

(** Membership in [string.punctuation]. *)
Definition is_punctuation (c : ascii) : bool :=
  let n := code c in
  (((33 <=? n) && (n <=? 47)) || ((58 <=? n) && (n <=? 64))
   || ((91 <=? n) && (n <=? 96)) || ((123 <=? n) && (n <=? 126)))%N.

(** [word.translate(str.maketrans('', '', string.punctuation))] *)
Definition remove_punctuation (word : string) : string :=
  keep (fun c => negb (is_punctuation c)) word.

Definition common_words : list string :=
  [ "the"; "a"; "an"; "and"; "or"; "but"; "in"; "on"; "at"; "to"; "for";
    "with"; "by"; "about"; "like"; "through"; "over"; "before"; "between";
    "after"; "since"; "without"; "under"; "within"; "along"; "following";
    "across"; "behind"; "beyond"; "plus"; "except"; "but"; "up"; "out";
    "around"; "down"; "off"; "above"; "near" ].

(** [[word for word in words if not (word in seen or seen.add(word))]] *)
Fixpoint unseen (seen : list string) (words : list string) : list string :=
  match words with
  | [] => []
  | word :: words' =>
      if mem word seen then unseen seen words'
      else word :: unseen (word :: seen) words'
  end.

(** [_extract_keywords(text)] *)
Definition extract_keywords (text : string) : list string :=
  let words :=
    List.map lower
      (List.filter (fun word => negb (mem (lower word) common_words)
                                && (2 <? String.length word)%nat)
         (split text)) in
  let words := List.map remove_punctuation words in
  firstn 10 (unseen [] words).

(** What the collaborators of the enhanced orchestrator answer during
    one call: the two profile look-ups, and the building of the enhanced
    prompt (the agent's base prompt, the ontology and knowledge-base
    queries), of which only the outcome matters since the prompt is not
    used afterwards. *)
Record Enhancements := {
  get_profile_by_email : string -> Res (option Dict);
  get_profile_by_phone : string -> Res (option Dict);
  enhance_prompt :
    string -> option Dict -> string -> list string -> option Dict -> string -> Res unit
}.

(** [_get_user_profile(session)] *)
Definition get_user_profile (x : Enhancements) (sid : string) : M (option Dict) :=
  session <- the_session sid ;
  user_profile <-
    (if truthy (customer_email session)
     then lift (get_profile_by_email x (default "" (customer_email session)))
     else ret None) ;
  if negb (truthy_dict user_profile) && truthy (customer_number session)
  then lift (get_profile_by_phone x (default "" (customer_number session)))
  else ret user_profile.

(** [get_initial_greeting(session)].  With a profile, the method calls
    [profile_manager.get_communication_preferences], which
    [SemanticProfileManager] does not define: the [AttributeError] sends
    it to the [except] branch. *)
Definition get_initial_greeting (x : Enhancements) (env : Env) (sid : string) : M string :=
  try_except
    (user_profile <- get_user_profile x sid ;
     if truthy_dict user_profile then raise "AttributeError"
     else MEAgentOrchestrator.get_initial_greeting env sid)
    (fun _ => MEAgentOrchestrator.get_initial_greeting env sid).

(** [process_query(query, session)] *)
Definition process_query (x : Enhancements) (env : Env) (query sid : string) : M string :=
  try_except
    (user_profile <- get_user_profile x sid ;
     let keywords := extract_keywords query in
     let issue_classification := Neo4jITSMManager.get_issue_classification query in
     let issue_type := Neo4jITSMManager.category issue_classification in
     let agent_type := Neo4jITSMManager.agent_category issue_classification in
     _ <- assign sid (set_issue_type (Some agent_type)) ;
     let agent := if mem agent_type agents then agent_type else default_agent in
     session <- the_session sid ;
     _ <- lift (enhance_prompt x agent (employee_info session) issue_type keywords
                  user_profile query) ;
     Agents.process env agent query (Some sid))
    (fun _ => MEAgentOrchestrator.process_query env query sid).

(** A computation run with a [SessionManager] of its own, created empty
    and dropped at the end; the memories are those of the base
    orchestrator. *)
Definition with_new_session_manager {A} (m : M A) : M A :=
  fun w =>
    let '(r, w') := m {| sessions := ∅; session_memories := session_memories w |} in
    (r, {| sessions := sessions w; session_memories := session_memories w' |}).

Definition greeting_turn (x : Enhancements) (env : Env) (message sid : string) : M string :=
  greeting <- get_initial_greeting x env sid ;
  _ <- assign sid (set_greeted (Some true)) ;
  _ <- assign sid (append_message {| role := "user"; content := message |}) ;
  _ <- assign sid (append_message {| role := "assistant"; content := greeting |}) ;
  _ <- manager_save_session sid ;
  ret greeting.

Definition agent_turn (x : Enhancements) (env : Env) (message sid : string) : M string :=
  _ <- assign sid (append_message {| role := "user"; content := message |}) ;
  response <- process_query x env message sid ;
  _ <- assign sid (append_message {| role := "assistant"; content := response |}) ;
  _ <- manager_save_session sid ;
  ret response.

(** [process_message(message, session_id, user_email, user_phone)]: the
    session comes from a [SessionManager] created in the call. *)
Definition process_message (x : Enhancements) (env : Env) (message sid : string)
    (user_email user_phone : option string) : M string :=
  try_except
    (with_new_session_manager
       (_ <- receive env sid user_email user_phone None ;
        session <- the_session sid ;
        if takes_greeting_path session message
        then greeting_turn x env message sid
        else agent_turn x env message sid))
    (fun _ => ret apology).

End MEAIEnhancedOrchestrator.

(** ** Python strings beyond Latin-1 *)

Module PyUnicode.

(** A Python [str] as the list of its code points.  The primitives below
    are those of [PyStr], on the code points of Basic Latin, Latin-1
    Supplement, Latin Extended-A and the Combining Diacritical Marks
    (below U+0180, and U+0300 to U+036F); [modelled] tells whether a
    string is made of them. *)
Definition ustr : Type := list N.

Definition modelled_code (n : N) : bool :=
  ((n <? 384) || ((768 <=? n) && (n <? 880)))%N.

Definition modelled (s : ustr) : bool := forallb modelled_code s.

(** [str.isspace] on one modelled code point. *)
Definition is_space (n : N) : bool :=
  (((9 <=? n) && (n <=? 13)) || ((28 <=? n) && (n <=? 32))
   || (n =? 133) || (n =? 160))%N.

(** [str.lower] on one modelled code point.  Below 256 it is
    [PyStr.lower_char].  The capitals of Latin Extended-A are followed
    by their small letter, but for U+0178 (the small letter is U+00FF)
    and for U+0130, the capital I with a dot above, whose lower case is
    two code points: [i] and the combining dot above U+0307.  The
    combining marks have no case. *)
Definition lower_code (n : N) : list N :=
  if (((65 <=? n) && (n <=? 90))
      || ((192 <=? n) && (n <=? 222) && negb (n =? 215)))%N then [(n + 32)%N]
  else if (n =? 304)%N then [105%N; 775%N]
  else if (n =? 376)%N then [255%N]
  else if ((((256 <=? n) && (n <=? 311)) || ((330 <=? n) && (n <=? 375))) && N.even n)%N
       then [(n + 1)%N]
  else if ((((313 <=? n) && (n <=? 328)) || ((377 <=? n) && (n <=? 382))) && N.odd n)%N
       then [(n + 1)%N]
  else [n].

(** [s.lower()] *)
Definition lower (s : ustr) : ustr := flat_map lower_code s.

Fixpoint lstrip (s : ustr) : ustr :=
  match s with
  | [] => []
  | c :: s' => if is_space c then lstrip s' else s
  end.

Fixpoint rstrip (s : ustr) : ustr :=
  match s with
  | [] => []
  | c :: s' =>
      match rstrip s' with
      | [] => if is_space c then [] else [c]
      | r => c :: r
      end
  end.

(** [s.strip()] *)
Definition strip (s : ustr) : ustr := rstrip (lstrip s).

(** [len(s)] *)
Definition len (s : ustr) : Z := Z.of_nat (List.length s).

Fixpoint startswith (w s : ustr) : bool :=
  match w, s with
  | [], _ => true
  | _ :: _, [] => false
  | a :: w', b :: s' => (a =? b)%N && startswith w' s'
  end.

(** [w in s] *)
Fixpoint contains (w s : ustr) : bool :=
  startswith w s
  || match s with
     | [] => false
     | _ :: s' => contains w s'
     end.

(** [a == b] *)
Fixpoint eqb (a b : ustr) : bool :=
  match a, b with
  | [], [] => true
  | x :: a', y :: b' => (x =? y)%N && eqb a' b'
  | _, _ => false
  end.

(** [s in l] for a list of strings. *)
Definition mem (s : ustr) (l : list ustr) : bool := existsb (eqb s) l.

(** The code points of a string literal of the program. *)
Definition of_string (s : string) : ustr := List.map PyStr.code (list_ascii_of_string s).

End PyUnicode.

(** ** existing/response_generator.py on strings beyond Latin-1 *)

Module ResponseGeneratorUnicode.
Import PyUnicode PyNum.

(** The three counting loops, the guard of line 39 and the function,
    as in [ResponseGenerator]; the keyword lists, the greeting messages
    and the final [if]/[elif] chain are those of that module. *)
Definition count_matches (keywords : list string) (message_lower : ustr) : Z :=
  fold_left
    (fun count word =>
       if contains (lower (of_string word)) message_lower then (count + 1)%Z else count)
    keywords 0%Z.

Definition too_short_or_greeting (message : ustr) : bool :=
  (len (strip message) <? 10)%Z
  || mem (lower message) (List.map of_string ResponseGenerator.greeting_messages).

(** [classify_issue(message)] for a message of modelled code points;
    [None] for any other message. *)
Definition classify_issue (message : ustr) : option string :=
  if modelled message then
    Some (if too_short_or_greeting message then "General"
          else
            let message_lower := lower message in
            ResponseGenerator.pick_category
              (count_matches ResponseGenerator.hardware_keywords message_lower)
              (int_mul_float
                 (count_matches ResponseGenerator.password_keywords message_lower)
                 1.2%float)
              (count_matches ResponseGenerator.software_keywords message_lower))
  else None.

End ResponseGeneratorUnicode.

(** * The vocabulary of the properties *)

(** ** Finite ranges of scores, for checks by evaluation *)

Module Checks.
Import PyNum.
Local Open Scope Z_scope.

Definition upto (n : Z) : list Z := seqZ 0 (n + 1).

Definition all_pairs (n m : Z) (f : Z -> Z -> bool) : bool :=
  forallb (fun a => forallb (f a) (upto m)) (upto n).

(** No keyword list of the program has more than 40 entries. *)
Definition score_range : Z := 40.

Definition ratio_checks (n : Z) : bool :=
  PrimFloat.leb 0%float (true_div n 5)
  && Bool.eqb (PrimFloat.leb (true_div n 5) 1%float) (n <=? 5)
  && Bool.eqb (PrimFloat.eqb (true_div n 5) 0%float) (n =? 0)
  && PrimFloat.leb (true_div n 5) 3.2%float.

End Checks.

(** ** Judgements on computations *)

Module Judgements.
Import PyExc SessionManager Runtime.

(** Every session is stored under its own id. *)
Definition wf (sessions : gmap string Session) : Prop :=
  forall k s, sessions !! k = Some s -> session_id s = k.

(** What a computation returns, when it returns. *)
Definition returns {A} (m : M A) (R : A -> Prop) : Prop :=
  forall w a, fst (m w) = Ok a -> R a.

(** A computation that never raises. *)
Definition total {A} (m : M A) : Prop :=
  forall w, is_ok (fst (m w)) = true.

(** [holds sid Q w]: the store is well formed and the entry of [sid]
    (absent or present) satisfies [Q].  [preserves sid Q m]: running [m]
    from a state where this holds ends, normally or by an exception, in a
    state where it holds. *)
Definition holds (sid : string) (Q : option Session -> Prop) (w : World) : Prop :=
  wf (sessions w) /\ Q (sessions w !! sid).

Definition preserves (sid : string) (Q : option Session -> Prop) {A} (m : M A) : Prop :=
  forall w, holds sid Q w -> holds sid Q (snd (m w)).

End Judgements.

(** ** Sample collaborators and stores *)

Module Scenarios.
Import PyExc SessionManager Runtime.

(** Every collaborator is down: each call raises. *)
Definition env_all_down : Env :=
  {| now := "2025-04-17T09:00:00"; hour := 9; uuid4 := "c0ffee";
     find_employee_by_contact := fun _ _ => Raise "ConnectionError";
     get_employee_devices := fun _ => Raise "ConnectionError";
     find_agent_by_specialization := fun _ => Raise "ConnectionError";
     log_conversation_to_db := fun _ _ _ _ _ _ => Raise "ConnectionError";
     issue_chain_run := fun _ => Raise "TimeoutError";
     classifier_chain_run := fun _ => Raise "TimeoutError";
     greeting_chain_new := Raise "TimeoutError";
     greeting_chain_run := fun _ _ => Raise "TimeoutError";
     agent_executor_run := fun _ _ _ => Raise "TimeoutError" |}.

(** Every collaborator answers; the model classifies everything as a
    password issue and replies with [reply]. *)
Definition env_up (reply : string) : Env :=
  {| now := "2025-04-17T09:00:00"; hour := 9; uuid4 := "c0ffee";
     find_employee_by_contact := fun _ _ => Ok None;
     get_employee_devices := fun _ => Ok [];
     find_agent_by_specialization := fun _ => Ok None;
     log_conversation_to_db := fun _ _ _ _ _ _ => Ok tt;
     issue_chain_run := fun _ => Ok "CATEGORY: Password/Access";
     classifier_chain_run := fun _ => Ok "Password";
     greeting_chain_new := Ok tt;
     greeting_chain_run := fun _ _ => Ok reply;
     agent_executor_run := fun _ _ _ => Ok reply |}.

Definition empty_world : World := {| sessions := ∅; session_memories := ∅ |}.

(** A store with one session, already classified as a hardware issue. *)
Definition hardware_session : Session :=
  set_issue_type (Some "Hardware") (new_session "s1" "c0ffee" "2025-04-17T08:00:00").

Definition hardware_world : World :=
  {| sessions := <["s1" := hardware_session]> ∅; session_memories := ∅ |}.

End Scenarios.

(** ** Public calls and their traces *)

Module Calls.
Import PyExc SessionManager Runtime.

(** A call on one of the two orchestrators, with the collaborators'
    answers during that call. *)
Inductive Call :=
| ProcessMessage (env : Env) (message sid : string)
    (user_email user_phone language : option string)
| ProcessQuery (env : Env) (query sid : string)
| GetInitialGreeting (env : Env) (sid : string)
| AgentProcessQuery (env : Env) (query : string) (session : option string).

Definition run_call (c : Call) : M string :=
  match c with
  | ProcessMessage env message sid user_email user_phone language =>
      MEAgentOrchestrator.process_message env message sid user_email user_phone language
  | ProcessQuery env query sid => MEAgentOrchestrator.process_query env query sid
  | GetInitialGreeting env sid => MEAgentOrchestrator.get_initial_greeting env sid
  | AgentProcessQuery env query session => AgentOrchestrator.process_query env query session
  end.

(** The objects after a sequence of calls. *)
Definition run_calls (calls : list Call) (w : World) : World :=
  fold_left (fun w c => snd (run_call c w)) calls w.

End Calls.

(** ** Properties of sessions and turns *)

Module Properties.
Import PyStr PyExc SessionManager Runtime Scenarios.
Import MEAgentOrchestrator.

(** The three specific categories. *)
Definition specific (t : string) : Prop :=
  t = "Hardware" \/ t = "Software" \/ t = "Password".

(** The session is present and its [issue_type] is [t]. *)
Definition classified_as (t : string) (o : option Session) : Prop :=
  exists s, o = Some s /\ issue_type s = Some t.

(** The session is present and has been greeted. *)
Definition is_greeted (o : option Session) : Prop :=
  exists s, o = Some s /\ greeted s = Some true.

(** The session is absent, or present and not yet greeted. *)
Definition not_yet_greeted (o : option Session) : Prop :=
  match o with
  | Some s => not_greeted s = true
  | None => True
  end.

(** One turn of [process_message]. *)
Record Turn := {
  t_env : Env;
  t_message : string;
  t_sid : string;
  t_email : option string;
  t_phone : option string;
  t_language : option string
}.

Definition turn (t : Turn) : M string :=
  process_message (t_env t) (t_message t) (t_sid t) (t_email t) (t_phone t) (t_language t).

Definition step (t : Turn) (w : World) : World := snd (turn t w).

Definition run (ts : list Turn) (w : World) : World := fold_left (fun w t => step t w) ts w.

(** Whether a turn started in [w] goes down the greeting path: the test of
    line 311 on the session as it is stored (a new session has no
    [greeted] attribute). *)
Definition greets (t : Turn) (w : World) : bool :=
  match sessions w !! t_sid t with
  | Some s => takes_greeting_path s (t_message t)
  | None => is_greeting (t_message t)
  end.

(** [process_message] with the branch of line 311 resolved either way. *)
Definition via_greeting_path (t : Turn) : M string :=
  try_except
    (bind (receive (t_env t) (t_sid t) (t_email t) (t_phone t) (t_language t))
          (fun _ => greeting_turn (t_env t) (t_message t) (t_sid t)))
    (fun _ => ret apology).

Definition via_agent_path (t : Turn) : M string :=
  try_except
    (bind (receive (t_env t) (t_sid t) (t_email t) (t_phone t) (t_language t))
          (fun _ => agent_turn (t_env t) (t_message t) (t_sid t)))
    (fun _ => ret apology).

(** How many turns of a trace take the greeting path for session [sid]. *)
Fixpoint greeting_count (sid : string) (ts : list Turn) (w : World) : nat :=
  match ts with
  | [] => 0
  | t :: ts' =>
      (if String.eqb (t_sid t) sid && greets t w then 1 else 0)
      + greeting_count sid ts' (step t w)
  end.

(** Two greetings in a row on a new session, with every collaborator down. *)
Definition hello : Turn :=
  {| t_env := env_all_down; t_message := "Hello"; t_sid := "s1";
     t_email := None; t_phone := None; t_language := None |}.
Definition hi_again : Turn :=
  {| t_env := env_all_down; t_message := "hi, are you there?"; t_sid := "s1";
     t_email := None; t_phone := None; t_language := None |}.

Definition nonempty_text (s : string) : Prop := s <> "".

(** The successful answers of the two model calls that produce replies
    are never empty. *)
Definition model_replies_nonempty (env : Env) : Prop :=
  (forall agent_type info text reply,
      agent_executor_run env agent_type info text = Ok reply -> reply <> "")
  /\ (forall text info reply,
         greeting_chain_run env text info = Ok reply -> reply <> "").

End Properties.

(** ** The assignments a call makes to a session *)

Module Updates.
Import PyStr PyExc SessionManager Runtime.
Import MEAgentOrchestrator.

(** The assignments [process_query] and [get_initial_greeting] can make
    to a session they read as [s], each under the test that guards it in
    the source. *)
Inductive query_assigns (s : Session) : (Session -> Session) -> Prop :=
| assigns_employee_id v :
    truthy (employee_id s) = false -> query_assigns s (set_employee_id v)
| assigns_employee_info v :
    truthy (employee_id s) = false -> query_assigns s (set_employee_info v)
| assigns_devices v :
    truthy (employee_id s) = false -> query_assigns s (set_devices v)
| assigns_agent_id v :
    truthy (agent_id s) = false -> query_assigns s (set_agent_id v)
| assigns_issue_type v :
    unclassified s = true -> query_assigns s (set_issue_type (Some v)).

(** The assignments the first lines of [process_message] can make to a
    session they read as [s]: the contact hints and the language. *)
Inductive receive_assigns (s : Session) : (Session -> Session) -> Prop :=
| assigns_customer_email v : receive_assigns s (set_customer_email v)
| assigns_customer_number v : receive_assigns s (set_customer_number v)
| assigns_language v : language s = None -> receive_assigns s (set_language v).

(** The assignments by which [process_message] records a turn. *)
Inductive record_assigns (s : Session) : (Session -> Session) -> Prop :=
| assigns_greeted : not_greeted s = true -> record_assigns s (set_greeted (Some true))
| assigns_message m : record_assigns s (append_message m).

(** A property of the entry of a session that no assignment of one of
    these kinds takes away. *)
Definition stable_under (assigns : Session -> (Session -> Session) -> Prop)
    (Q : option Session -> Prop) : Prop :=
  forall s f, Q (Some s) -> assigns s f -> forall s0, Q (Some s0) -> Q (Some (f s0)).

End Updates.

(** ** Judgements on the memories *)

Module MemoryJudgements.
Import PyExc SessionManager Runtime.

(** The chat history of a session's memory: empty while the memory has
    not been created. *)
Definition history_of (o : option SessionMemory.t) : list SessionMemory.ChatMessage :=
  match o with
  | Some m => SessionMemory.chat_history m
  | None => []
  end.

(** [mholds sid P w]: the memory of [sid] (absent or present) satisfies
    [P]; [mpreserves sid P m]: running [m] keeps it so. *)
Definition mholds (sid : string) (P : option SessionMemory.t -> Prop) (w : World) : Prop :=
  P (session_memories w !! sid).

Definition mpreserves (sid : string) (P : option SessionMemory.t -> Prop) {A} (m : M A) : Prop :=
  forall w, mholds sid P w -> mholds sid P (snd (m w)).

End MemoryJudgements.

(** ** What a turn does to a session *)

Module Turns.
Import PyStr PyExc SessionManager Runtime Judgements MemoryJudgements Calls.
Import MEAgentOrchestrator.

(** The session a call for [sid] starts from: the stored one, or the one
    [get_session] creates. *)
Definition session_at (env : Env) (sid : string) (w : World) : Session :=
  default (new_session sid (uuid4 env) (now env)) (sessions w !! sid).

(** The contact hints and the language of lines 299-308, on the session
    itself. *)
Definition with_hints (user_email user_phone language : option string)
    (s : Session) : Session :=
  let s := if truthy user_email then set_customer_email user_email s else s in
  let s := if truthy user_phone then set_customer_number user_phone s else s in
  if truthy language && bool_decide (SessionManager.language s = None)
  then set_language language s else s.

Definition user_message (text : string) : Message := {| role := "user"; content := text |}.
Definition assistant_message (text : string) : Message :=
  {| role := "assistant"; content := text |}.

Definition human (text : string) : SessionMemory.ChatMessage :=
  {| SessionMemory.msg_type := "human"; SessionMemory.msg_content := text |}.
Definition ai (text : string) : SessionMemory.ChatMessage :=
  {| SessionMemory.msg_type := "ai"; SessionMemory.msg_content := text |}.

(** The session is stored and its history is [l]. *)
Definition history_is (l : list Message) (o : option Session) : Prop :=
  exists s, o = Some s /\ messages s = l.

(** The store is well formed and holds the session [s] and the memory
    [m] under [sid]. *)
Definition stored (sid : string) (s : Session) (m : SessionMemory.t) (w : World) : Prop :=
  wf (sessions w) /\ sessions w !! sid = Some s /\ session_memories w !! sid = Some m.

(** What later calls keep of a session [s]. *)
Definition settled (s s' : Session) : Prop :=
  session_id s' = session_id s
  /\ conversation_id s' = conversation_id s
  /\ created_at s' = created_at s
  /\ last_updated s' = last_updated s
  /\ (truthy (employee_id s) = true ->
      employee_id s' = employee_id s /\ employee_info s' = employee_info s
      /\ devices s' = devices s)
  /\ (truthy (agent_id s) = true -> agent_id s' = agent_id s)
  /\ (language s <> None -> language s' = language s).

(** The session is stored with these contact hints and this language. *)
Definition contact_is (e n l : option string) (o : option Session) : Prop :=
  exists s, o = Some s /\ customer_email s = e /\ customer_number s = n /\ language s = l.

(** The session a call is made for. *)
Definition call_session (c : Call) : option string :=
  match c with
  | ProcessMessage _ _ sid _ _ _ => Some sid
  | ProcessQuery _ _ sid => Some sid
  | GetInitialGreeting _ sid => Some sid
  | AgentProcessQuery _ _ session => session
  end.

(** The two look-ups of [get_initial_greeting] for a session: by e-mail
    when the session has one, then by phone when that found nobody and
    the session has a number. *)
Definition look_up (env : Env) (session : Session) : Res (option Dict) :=
  match (if truthy (customer_email session)
         then find_employee_by_contact env "email" (default "" (customer_email session))
         else Ok None) with
  | Ok employee =>
      if negb (truthy_dict employee) && truthy (customer_number session)
      then find_employee_by_contact env "phone" (default "" (customer_number session))
      else Ok employee
  | Raise e => Raise e
  end.

End Turns.

(** ** Texts: answers of the model, names, tool inputs *)

Module Texts.
Import PyStr PyExc SessionManager Chains.

(** An answer of the classification model in the format its prompt asks
    for. *)
Definition formatted (category subcategory priority reasoning : string) : string :=
  "CATEGORY: " +:+ category +:+ newline
  +:+ "SUBCATEGORY: " +:+ subcategory +:+ newline
  +:+ "PRIORITY: " +:+ priority +:+ newline
  +:+ "REASONING: " +:+ reasoning.

(** A field value on one line that contains none of the two labels the
    parser could mistake for the next field. *)
Definition one_line (v : string) : bool :=
  negb (contains newline v) && negb (contains "CATEGORY:" v)
  && negb (contains "PRIORITY:" v).

(** Whether a character occurs in a string, and how many times. *)
Fixpoint occurs (b : ascii) (s : string) : bool :=
  match s with
  | EmptyString => false
  | String c s' => Ascii.eqb b c || occurs b s'
  end.

Fixpoint occurrences (c : ascii) (s : string) : nat :=
  match s with
  | EmptyString => 0
  | String x s' => (if Ascii.eqb x c then 1 else 0) + occurrences c s'
  end.

(** A string with no word in it: empty, or made of white space. *)
Fixpoint blank (s : string) : bool :=
  match s with
  | EmptyString => true
  | String c s' => is_space c && blank s'
  end.

(** [employee_info.get('name', '')], with [''] when there is no
    session or no record either. *)
Definition employee_name (o : option Session) : string :=
  dict_get (default ∅ (o ≫= employee_info)) "name" "".

(** [name.split()[0]] for a name that has a word. *)
Definition first_name (name : string) : string := take_word (lstrip name).

(** The four categories an orchestrator works with. *)
Definition categories : list string := ["Hardware"; "Software"; "Password"; "General"].

End Texts.

(** ** More sample collaborators and stores *)

Module Samples.
Import PyExc SessionManager Runtime Scenarios Calls Properties Texts.

(** The classification model answers in the format of its prompt. *)
Definition env_formatted : Env :=
  {| now := "2025-04-17T09:00:00"; hour := 9; uuid4 := "c0ffee";
     find_employee_by_contact := fun _ _ => Ok None;
     get_employee_devices := fun _ => Ok [];
     find_agent_by_specialization := fun _ => Ok None;
     log_conversation_to_db := fun _ _ _ _ _ _ => Ok tt;
     issue_chain_run :=
       fun _ => Ok (formatted "Hardware" "Laptop battery" "High" "The battery does not charge.");
     classifier_chain_run := fun _ => Ok "Hardware";
     greeting_chain_new := Ok tt;
     greeting_chain_run := fun _ _ => Ok "Hello!";
     agent_executor_run := fun _ _ _ => Ok "Let me help." |}.

Definition ada : Dict :=
  <["employee_id" := "E42"]> (<["name" := "Ada Lovelace"]> (<["department" := "Research"]> ∅)).

Definition ada_laptop : Dict := <["device_name" := "Laptop 7"]> ∅.

(** The employee look-up by e-mail finds Ada, who has one laptop. *)
Definition env_ada : Env :=
  {| now := "2025-04-17T09:00:00"; hour := 9; uuid4 := "c0ffee";
     find_employee_by_contact :=
       fun kind _ => if String.eqb kind "email" then Ok (Some ada) else Ok None;
     get_employee_devices := fun _ => Ok [ada_laptop];
     find_agent_by_specialization := fun _ => Ok None;
     log_conversation_to_db := fun _ _ _ _ _ _ => Ok tt;
     issue_chain_run := fun _ => Ok "CATEGORY: Hardware";
     classifier_chain_run := fun _ => Ok "Hardware";
     greeting_chain_new := Ok tt;
     greeting_chain_run := fun _ _ => Ok "Hello Ada!";
     agent_executor_run := fun _ _ _ => Ok "Let me help." |}.

(** A session that came with an e-mail address and is not identified
    yet. *)
Definition mail_session : Session :=
  set_customer_email (Some "ada@example.com") (new_session "s1" "c0ffee" "2025-04-17T08:00:00").

Definition mail_world : World :=
  {| sessions := <["s1" := mail_session]> ∅; session_memories := ∅ |}.

(** A session identified as an employee whose record has no name. *)
Definition nameless_session : Session :=
  set_employee_info (Some (<["department" := "Research"]> ∅))
    (set_employee_id (Some "E42") (new_session "s1" "c0ffee" "2025-04-17T08:00:00")).

Definition nameless_world : World :=
  {| sessions := <["s1" := nameless_session]> ∅; session_memories := ∅ |}.

(** No profile is found, and the prompt is built without failure. *)
Definition no_profiles : MEAIEnhancedOrchestrator.Enhancements :=
  {| MEAIEnhancedOrchestrator.get_profile_by_email := fun _ => Ok None;
     MEAIEnhancedOrchestrator.get_profile_by_phone := fun _ => Ok None;
     MEAIEnhancedOrchestrator.enhance_prompt := fun _ _ _ _ _ _ => Ok tt |}.

(** A turn about a broken laptop, with an e-mail address, when every
    collaborator answers. *)
Definition laptop_turn : Turn :=
  {| t_env := env_up "Let me help."; t_message := "my laptop is broken"; t_sid := "s1";
     t_email := Some "ada@example.com"; t_phone := None; t_language := Some "english" |}.

(** Calls for the session "s1" and calls for the session "s2". *)
Definition calls_for_s1 : list Call :=
  [ ProcessMessage (env_up "Let me help.") "Hello" "s1" (Some "ada@example.com") None None;
    ProcessMessage (env_up "Let me help.") "my laptop is broken" "s1" None None None;
    GetInitialGreeting env_all_down "s1";
    AgentProcessQuery (env_up "Let me help.") "it is still broken" (Some "s1") ].

Definition calls_for_s2 : list Call :=
  [ ProcessMessage (env_up "Let me help.") "Hello" "s2" None None None;
    ProcessQuery (env_up "Let me help.") "I forgot my password" "s2";
    AgentProcessQuery env_all_down "my screen is broken" None ].

(** The DB service answers, the model does not. *)
Definition env_model_down : Env :=
  {| now := "2025-04-17T09:00:00"; hour := 9; uuid4 := "c0ffee";
     find_employee_by_contact := fun _ _ => Ok None;
     get_employee_devices := fun _ => Ok [];
     find_agent_by_specialization := fun _ => Ok None;
     log_conversation_to_db := fun _ _ _ _ _ _ => Ok tt;
     issue_chain_run := fun _ => Raise "TimeoutError";
     classifier_chain_run := fun _ => Raise "TimeoutError";
     greeting_chain_new := Raise "TimeoutError";
     greeting_chain_run := fun _ _ => Raise "TimeoutError";
     agent_executor_run := fun _ _ _ => Raise "TimeoutError" |}.

(** The turn about a broken laptop when the model is down, and when
    every collaborator is. *)
Definition model_down_turn : Turn :=
  {| t_env := env_model_down; t_message := "my laptop is broken"; t_sid := "s1";
     t_email := None; t_phone := None; t_language := None |}.

Definition outage_turn : Turn :=
  {| t_env := env_all_down; t_message := "my laptop is broken"; t_sid := "s1";
     t_email := None; t_phone := None; t_language := None |}.

End Samples.

(** ** The first hit of a loop *)

Module Searches.

(** [x] is the first element of [l] that passes the test [p]. *)
Definition first_such {A} (p : A -> bool) (l : list A) (x : A) : Prop :=
  exists before after,
    l = before ++ x :: after /\ p x = true /\ Forall (fun y => p y = false) before.

(** The result of two loops over [l], each returning at its first hit:
    the first element that passes [p], or when none does the first that
    passes [q]. *)
Definition first_of_two {A} (p q : A -> bool) (l : list A) (x : A) : Prop :=
  first_such p l x
  \/ (Forall (fun y => p y = false) l /\ first_such q l x).

End Searches.

(** ** The agent's part of a turn *)

Module AgentPath.
Import PyStr PyExc SessionManager Runtime Replies.
Import MEAgentOrchestrator.

(** The category [process_query] works with (lines 158-172): the one it
    stores for a session without a specific category, the stored one
    otherwise. *)
Definition issue_type_for (env : Env) (query : string) (s : Session) : string :=
  if unclassified s then classify_issue_type env query else default "" (issue_type s).

(** What [process_query] gets from the agent of [issue_type] (lines
    174-192): nothing when the agent look-up, made for a session without
    agent id, raises; the executor's answer; the agent's own fallback
    text when the executor raises, which raises in its turn on a name
    made of blanks. *)
Definition agent_reply_as (env : Env) (query issue_type : string) (s : Session) : Res string :=
  let agent := if mem issue_type agents then issue_type else default_agent in
  match (if negb (truthy (agent_id s))
         then find_agent_by_specialization env issue_type else Ok None) with
  | Raise e => Raise e
  | Ok _ =>
      match agent_executor_run env agent
              (if truthy_dict (employee_info s) then employee_info s else None) query with
      | Ok response => Ok response
      | Raise _ => generate_fallback_response query (Some s) (Some agent) None
      end
  end.

Definition agent_reply (env : Env) (query : string) (s : Session) : Res string :=
  agent_reply_as env query (issue_type_for env query s) s.

(** The reply of a turn whose agent gave none: the fallback text of
    [process_query], or the apology of [process_message] when that
    raises too. *)
Definition reply_without_agent (query : string) (s : Session) : string :=
  match generate_fallback_response query (Some s) None None with
  | Ok text => text
  | Raise _ => apology
  end.

End AgentPath.

(** ** Sample strings, employees and agents *)

Module UnicodeSamples.
Import PyUnicode.

(** "İ laptops": the capital I with a dot above, a space and a word. *)
Definition dotted_laptops : ustr := 304%N :: of_string " laptops".

(** "İstanbul laptop" *)
Definition istanbul_laptop : ustr := 304%N :: of_string "stanbul laptop".

End UnicodeSamples.

Module DirectorySamples.
Import SessionManager DbService.

(** Three employees: one with a phone number, one whose phone field has
    no digit, one with an e-mail address only. *)
Definition with_number : Dict := <["name" := "Ada"]> (<["phone" := "555"]> ∅).
Definition with_extension : Dict := <["name" := "Bob"]> (<["phone" := "ext"]> ∅).
Definition with_address : Dict := <["name" := "Cy"]> (<["email" := "cy@example.com"]> ∅).

Definition directory : list Dict := [with_number; with_extension; with_address].

(** Three agents: one inactive, two active with other specializations. *)
Definition retired : Dict :=
  <["agent_id" := "A1"]> (<["status" := "Inactive"]> (<["specialization" := "Password"]> ∅)).
Definition network_agent : Dict :=
  <["agent_id" := "A2"]> (<["status" := "Active"]> (<["specialization" := "Network"]> ∅)).
Definition software_agent : Dict :=
  <["agent_id" := "A3"]> (<["status" := "Active"]> (<["specialization" := "Software"]> ∅)).

Definition staff : list Dict := [retired; network_agent; software_agent].

End DirectorySamples.

(** * Facts *)

(** ** Facts about the string primitives *)

Module PyStrFacts.
Import PyStr.

Ltac by_cases_on_char c :=
  destruct c as [[] [] [] [] [] [] [] []]; vm_compute; reflexivity.

Lemma lower_char_idem c : lower_char (lower_char c) = lower_char c.
Proof. by_cases_on_char c. Qed.

Lemma is_space_lower_char c : is_space (lower_char c) = is_space c.
Proof. by_cases_on_char c. Qed.

Lemma lower_idem s : lower (lower s) = lower s.
Proof.
  induction s as [|c s IH]; simpl; [reflexivity|].
  now rewrite lower_char_idem, IH.
Qed.

Lemma length_lower s : String.length (lower s) = String.length s.
Proof. induction s as [|c s IH]; simpl; congruence. Qed.

Lemma lstrip_lower s : lstrip (lower s) = lower (lstrip s).
Proof.
  induction s as [|c s IH]; simpl; [reflexivity|].
  rewrite is_space_lower_char. destruct (is_space c); [exact IH|reflexivity].
Qed.

Lemma rstrip_lower s : rstrip (lower s) = lower (rstrip s).
Proof.
  induction s as [|c s IH]; simpl; [reflexivity|].
  rewrite IH, is_space_lower_char.
  destruct (rstrip s); simpl; [destruct (is_space c)|]; reflexivity.
Qed.

Lemma strip_lower s : strip (lower s) = lower (strip s).
Proof. unfold strip. now rewrite lstrip_lower, rstrip_lower. Qed.

Lemma len_strip_lower s : len (strip (lower s)) = len (strip s).
Proof. unfold len. now rewrite strip_lower, length_lower. Qed.

Lemma len_nonneg s : (0 <= len s)%Z.
Proof. unfold len. lia. Qed.

End PyStrFacts.

(** ** Facts about the numbers the classifier can produce

  The keyword lists are finite, so the scores range over a finite set;
  on that set the binary64 comparisons of the program agree with exact
  arithmetic on the raw counts ([p * 1.2] against [h] is [6 p] against
  [5 h]).  The agreement is checked by running the float operations on
  every pair of the range. *)

Module PyNumFacts.
Import PyNum Checks.
Local Open Scope Z_scope.

Lemma in_upto n z : 0 <= z <= n -> In z (upto n).
Proof.
  intros Hz. unfold upto. apply list_elem_of_In, elem_of_seqZ. lia.
Qed.

Lemma all_pairs_spec n m f :
  all_pairs n m f = true ->
  forall a b, 0 <= a <= n -> 0 <= b <= m -> f a b = true.
Proof.
  unfold all_pairs. rewrite forallb_forall. intros H a b Ha Hb.
  specialize (H a (in_upto n a Ha)). rewrite forallb_forall in H.
  exact (H b (in_upto m b Hb)).
Qed.

Lemma weighted_gt_exact p n :
  0 <= p <= score_range -> 0 <= n <= score_range ->
  float_gt_int (int_mul_float p 1.2%float) n = (5 * n <? 6 * p).
Proof.
  intros Hp Hn. apply eqb_prop.
  revert p n Hp Hn. apply all_pairs_spec. vm_compute. reflexivity.
Qed.

Lemma gt_weighted_exact p n :
  0 <= p <= score_range -> 0 <= n <= score_range ->
  int_gt_float n (int_mul_float p 1.2%float) = (6 * p <? 5 * n).
Proof.
  intros Hp Hn. apply eqb_prop.
  revert p n Hp Hn. apply all_pairs_spec. vm_compute. reflexivity.
Qed.

Lemma weighted_ge_exact p n :
  0 <= p <= score_range -> 0 <= n <= score_range ->
  float_ge_int (int_mul_float p 1.2%float) n = (5 * n <=? 6 * p).
Proof.
  intros Hp Hn. apply eqb_prop.
  revert p n Hp Hn. apply all_pairs_spec. vm_compute. reflexivity.
Qed.

End PyNumFacts.

(** ** The keyword classifier ([classify_issue]) *)

Module ClassifierFacts.
Import PyStr PyNum ResponseGenerator Checks PyStrFacts PyNumFacts.
Local Open Scope Z_scope.

Lemma count_matches_acc keywords message_lower acc :
  acc <=
  fold_left
    (fun count word =>
       if contains (lower word) message_lower then count + 1 else count)
    keywords acc
  <= acc + Z.of_nat (List.length keywords).
Proof.
  revert acc. induction keywords as [|w ws IH]; intros acc; simpl; [lia|].
  destruct (contains (lower w) message_lower).
  - specialize (IH (acc + 1)). lia.
  - specialize (IH acc). lia.
Qed.

Lemma count_matches_bounds keywords message_lower :
  0 <= count_matches keywords message_lower <= Z.of_nat (List.length keywords).
Proof. unfold count_matches. apply (count_matches_acc keywords message_lower 0). Qed.

Lemma hardware_count_bounds m : 0 <= hardware_count m <= 36.
Proof. apply (count_matches_bounds hardware_keywords). Qed.

Lemma password_raw_count_bounds m : 0 <= password_raw_count m <= 24.
Proof. apply (count_matches_bounds password_keywords). Qed.

Lemma software_count_bounds m : 0 <= software_count m <= 28.
Proof. apply (count_matches_bounds software_keywords). Qed.

(** The [if]/[elif] chain on binary64 scores decides as exact arithmetic
    on the raw counts does. *)
Lemma pick_category_exact h p s :
  0 <= h <= score_range -> 0 <= p <= score_range -> 0 <= s <= score_range ->
  pick_category h (int_mul_float p 1.2%float) s =
  if (5 * h <? 6 * p) && (5 * s <? 6 * p) then "Password"
  else if (h <? s) && (6 * p <? 5 * s) then "Software"
  else if 0 <? h then "Hardware"
  else "General".
Proof.
  intros Hh Hp Hs. unfold pick_category.
  now rewrite !weighted_gt_exact, gt_weighted_exact by assumption.
Qed.

Lemma classify_issue_exact m :
  too_short_or_greeting m = false ->
  classify_issue m =
  let h := hardware_count m in
  let p := password_raw_count m in
  let s := software_count m in
  if (5 * h <? 6 * p) && (5 * s <? 6 * p) then "Password"
  else if (h <? s) && (6 * p <? 5 * s) then "Software"
  else if 0 <? h then "Hardware"
  else "General".
Proof.
  intros Hg. unfold classify_issue, password_count. rewrite Hg.
  pose proof (hardware_count_bounds m). pose proof (password_raw_count_bounds m).
  pose proof (software_count_bounds m).
  apply pick_category_exact; unfold score_range; lia.
Qed.

(** The guard reads the message only through its lower-cased form and the
    length of its stripped form, and lower-casing changes neither. *)
Lemma guard_lower m : too_short_or_greeting (lower m) = too_short_or_greeting m.
Proof.
  unfold too_short_or_greeting. now rewrite len_strip_lower, lower_idem.
Qed.

Ltac split_category :=
  repeat match goal with
         | |- context [if ?b then _ else _] => destruct b eqn:?
         end.

(** C3 (as amended): past the guard, Password is returned exactly when its
    weighted count (raw count times 1.2) is strictly greater than both the
    Hardware and the Software count; on the raw counts that is
    [6 p > 5 h] and [6 p > 5 s], so a positive raw count that is at least
    both others always wins. *)
Theorem password_wins_iff_strictly_greater m :
  too_short_or_greeting m = false ->
  let h := hardware_count m in
  let p := password_raw_count m in
  let s := software_count m in
  (classify_issue m = "Password" <->
   float_gt_int (password_count m) h = true /\ float_gt_int (password_count m) s = true)
  /\ (classify_issue m = "Password" <-> 5 * h < 6 * p /\ 5 * s < 6 * p)
  /\ (0 < p -> h <= p -> s <= p -> classify_issue m = "Password").
Proof.
  intros Hg h p s.
  pose proof (hardware_count_bounds m) as Hh.
  pose proof (password_raw_count_bounds m) as Hp.
  pose proof (software_count_bounds m) as Hs.
  assert (Hexact : classify_issue m = "Password" <-> 5 * h < 6 * p /\ 5 * s < 6 * p).
  { rewrite (classify_issue_exact m Hg). cbv zeta. fold h p s.
    split.
    - split_category; try discriminate; lia.
    - intros [H1 H2].
      apply Z.ltb_lt in H1, H2. now rewrite H1, H2. }
  split; [|split]; [| exact Hexact |].
  - rewrite Hexact. unfold password_count. fold p.
    rewrite !weighted_gt_exact by (unfold score_range; lia).
    rewrite !Z.ltb_lt. reflexivity.
  - intros H0 H1 H2. apply Hexact. lia.
Qed.

(** A message past the guard on which the theorem above applies: four
    password keywords, no hardware keyword, one software keyword. *)
Lemma password_wins_witness :
  let m := "my password is locked and I forgot my login" in
  too_short_or_greeting m = false /\ classify_issue m = "Password".
Proof.
  cbv zeta. split; [vm_compute; reflexivity|].
  apply (password_wins_iff_strictly_greater "my password is locked and I forgot my login");
    vm_compute; first [reflexivity | intros; discriminate].
Defined.

(** C3 (as stated) fails: on a weighted tie Password does not win.  A
    message with no keyword has all three scores at zero and is General;
    five password keywords against six hardware keywords tie at 6.0
    against 6 and the message is Hardware. *)
Lemma password_tie_not_password :
  (let m := "zzzzzzzzzz" in
   too_short_or_greeting m = false
   /\ float_ge_int (password_count m) (hardware_count m) = true
   /\ float_ge_int (password_count m) (software_count m) = true
   /\ classify_issue m = "General"
   /\ classify_issue m <> "Password")
  /\
  (let m := "password login forgot reset account laptop keyboard mouse printer monitor webcam" in
   too_short_or_greeting m = false
   /\ password_raw_count m = 5 /\ hardware_count m = 6 /\ software_count m = 1
   /\ float_ge_int (password_count m) (hardware_count m) = true
   /\ float_ge_int (password_count m) (software_count m) = true
   /\ classify_issue m = "Hardware"
   /\ classify_issue m <> "Password").
Proof.
  split; cbv zeta; repeat split; try (vm_compute; reflexivity);
    vm_compute; discriminate.
Qed.

(** C4 (as amended): past the guard, Password and Software are returned
    only with a strictly greatest weighted count; Hardware is returned
    whenever neither of them is strictly greatest and some hardware
    keyword matched (so also on a tie, or with fewer matches than the
    others); General is returned when no hardware keyword matched and
    the weighted Password count equals the Software count, which
    includes the case of no match at all. *)
Theorem classify_issue_characterisation m :
  too_short_or_greeting m = false ->
  let h := hardware_count m in
  let p := password_raw_count m in
  let s := software_count m in
  (float_gt_int (password_count m) h = (5 * h <? 6 * p)
   /\ float_gt_int (password_count m) s = (5 * s <? 6 * p)
   /\ int_gt_float s (password_count m) = (6 * p <? 5 * s))
  /\ (classify_issue m = "Password" <-> 5 * h < 6 * p /\ 5 * s < 6 * p)
  /\ (classify_issue m = "Software" <-> h < s /\ 6 * p < 5 * s)
  /\ (classify_issue m = "Hardware" <->
      0 < h /\ ~ (5 * h < 6 * p /\ 5 * s < 6 * p) /\ ~ (h < s /\ 6 * p < 5 * s))
  /\ (classify_issue m = "General" <-> h = 0 /\ 6 * p = 5 * s)
  /\ (h = 0 -> p = 0 -> s = 0 -> classify_issue m = "General").
Proof.
  intros Hg h p s.
  pose proof (hardware_count_bounds m) as Hh.
  pose proof (password_raw_count_bounds m) as Hp.
  pose proof (software_count_bounds m) as Hs.
  fold h in Hh. fold p in Hp. fold s in Hs.
  split.
  { unfold password_count. fold p.
    rewrite !weighted_gt_exact, gt_weighted_exact by (unfold score_range; lia).
    auto. }
  rewrite (classify_issue_exact m Hg). cbv zeta. fold h p s.
  destruct (5 * h <? 6 * p) eqn:E1; destruct (5 * s <? 6 * p) eqn:E2;
    destruct (h <? s) eqn:E3; destruct (6 * p <? 5 * s) eqn:E4;
    destruct (0 <? h) eqn:E5; simpl;
    rewrite ?Z.ltb_lt, ?Z.ltb_ge in *;
    repeat split; intros; try discriminate; try lia; try reflexivity;
    try (intros [? ?]; lia).
Qed.

(** A message past the guard on which the theorem above applies. *)
Lemma classify_issue_characterisation_witness :
  let m := "My laptop won't power on" in
  too_short_or_greeting m = false /\ classify_issue m = "Hardware".
Proof.
  cbv zeta.
  assert (Hg : too_short_or_greeting "My laptop won't power on" = false)
    by (vm_compute; reflexivity).
  split; [exact Hg|].
  destruct (classify_issue_characterisation "My laptop won't power on" Hg)
    as (_ & _ & _ & Hhw & _).
  apply Hhw.
  replace (hardware_count "My laptop won't power on") with 2
    by (vm_compute; reflexivity).
  replace (password_raw_count "My laptop won't power on") with 0
    by (vm_compute; reflexivity).
  replace (software_count "My laptop won't power on") with 0
    by (vm_compute; reflexivity).
  lia.
Defined.

(** C4 (as stated) fails.  One hardware and one software keyword tie, and
    the message is Hardware; five password keywords against six software
    keywords tie at 6.0 against 6 with no hardware keyword, and the
    message is General although counts are not zero; with one more
    hardware keyword that message is Hardware although Hardware has the
    smallest count. *)
Lemma hardware_returned_on_tie :
  (let m := "computer software" in
   too_short_or_greeting m = false
   /\ hardware_count m = 1 /\ software_count m = 1 /\ password_raw_count m = 0
   /\ classify_issue m = "Hardware")
  /\
  (let m := "password login forgot reset account excel outlook chrome firefox zoom" in
   too_short_or_greeting m = false
   /\ hardware_count m = 0 /\ software_count m = 6 /\ password_raw_count m = 5
   /\ classify_issue m = "General")
  /\
  (let m := "password login forgot reset account excel outlook chrome firefox zoom usb" in
   too_short_or_greeting m = false
   /\ hardware_count m = 1 /\ software_count m = 6 /\ password_raw_count m = 5
   /\ classify_issue m = "Hardware").
Proof.
  cbv zeta. repeat split; vm_compute; reflexivity.
Qed.

Lemma classify_issue_lower m : classify_issue (lower m) = classify_issue m.
Proof.
  unfold classify_issue, hardware_count, password_count, password_raw_count,
    software_count.
  now rewrite guard_lower, lower_idem.
Qed.

(** Two messages that differ only in letter case get the same category. *)
Lemma classify_issue_same_letters m1 m2 :
  lower m1 = lower m2 -> classify_issue m1 = classify_issue m2.
Proof.
  intros H.
  rewrite <- (classify_issue_lower m1), <- (classify_issue_lower m2).
  now rewrite H.
Qed.

(** The two classifications the specification gives as examples.
    "my password is locked and I forgot my login" has four password
    keywords (weighted 4.8), no hardware keyword and one software keyword
    ("word" inside "password"), and is Password; "My laptop won't power
    on" has two hardware keywords and no other, and is Hardware. *)
Theorem classify_issue_examples :
  (let m := "my password is locked and I forgot my login" in
   hardware_count m = 0 /\ password_raw_count m = 4 /\ software_count m = 1
   /\ password_count m = 4.8%float
   /\ classify_issue m = "Password")
  /\
  (let m := "My laptop won't power on" in
   hardware_count m = 2 /\ password_raw_count m = 0 /\ software_count m = 0
   /\ classify_issue m = "Hardware").
Proof. cbv zeta. repeat split; vm_compute; reflexivity. Qed.

End ClassifierFacts.

(** ** The guard of [classify_issue] and the ontology classifier *)

Module GuardFacts.
Import PyStr PyNum ResponseGenerator Checks PyStrFacts PyNumFacts.
Local Open Scope Z_scope.

Lemma mem_In s l : mem s l = true <-> In s l.
Proof.
  unfold mem. rewrite existsb_exists. split.
  - intros (x & Hx & He). apply String.eqb_eq in He. now subst.
  - intros H. exists s. split; [exact H|apply String.eqb_refl].
Qed.



(** The guard is that of [classify_issue] only: the classifier that
    reports a confidence has none.  "wifi down" is nine characters long;
    [classify_issue] stops at the guard, the ontology classifier scores
    it, finds one network keyword, and reports Network with confidence
    0.2. *)
Lemma confidence_classifier_has_no_guard :
  let m := "wifi down" in
  len (strip m) = 9
  /\ classify_issue m = "General"
  /\ Neo4jITSMManager.category (Neo4jITSMManager.get_issue_classification m) = "Network"
  /\ Neo4jITSMManager.agent_category (Neo4jITSMManager.get_issue_classification m) = "Hardware"
  /\ Neo4jITSMManager.confidence (Neo4jITSMManager.get_issue_classification m) = 0.2%float
  /\ Neo4jITSMManager.confidence (Neo4jITSMManager.get_issue_classification m) <> 0%float.
Proof.
  cbv zeta. repeat split; try (vm_compute; reflexivity).
  vm_compute. intros H. discriminate H.
Qed.

End GuardFacts.

(** ** The confidence of the ontology classifier *)

Module ConfidenceFacts.
Import PyStr PyNum Checks PyNumFacts Neo4jITSMManager.
Local Open Scope Z_scope.

Lemma matching_length keywords issue_lower :
  (List.length (matching keywords issue_lower) <= List.length keywords)%nat.
Proof.
  unfold matching. induction keywords as [|k ks IH]; simpl; [lia|].
  destruct (contains k issue_lower); simpl; lia.
Qed.

Lemma count_bounds keywords issue_lower :
  0 <= count keywords issue_lower <= Z.of_nat (List.length keywords).
Proof.
  unfold count. pose proof (matching_length keywords issue_lower). lia.
Qed.

Lemma max_count_bounds text : 0 <= max_count text <= 16.
Proof.
  unfold max_count, max4, hw_count, sw_count, net_count, sec_count.
  pose proof (count_bounds hardware_keywords (lower text)) as H1.
  pose proof (count_bounds software_keywords (lower text)) as H2.
  pose proof (count_bounds network_keywords (lower text)) as H3.
  pose proof (count_bounds security_keywords (lower text)) as H4.
  simpl List.length in *. lia.
Qed.

Lemma confidence_eq text :
  confidence (get_issue_classification text) = true_div (max_count text) 5.
Proof.
  unfold get_issue_classification, max_count, hw_count, sw_count, net_count, sec_count.
  repeat match goal with
         | |- context [if ?b then _ else _] => destruct b
         end; reflexivity.
Qed.

Lemma ratio_checks_ok n : 0 <= n <= 16 -> ratio_checks n = true.
Proof.
  intros Hn.
  assert (H : forallb ratio_checks (upto 16) = true) by (vm_compute; reflexivity).
  rewrite forallb_forall in H. apply H, in_upto, Hn.
Qed.

(** C6 (as amended): the reported confidence is the binary64 quotient
    [max(counts) / 5], with no clamping.  It is never negative, it is 0
    exactly when no keyword matched, it stays at or below 1 exactly when
    at most five keywords of every category matched, and it can reach
    16/5 = 3.2 (the longest keyword list has sixteen entries). *)
Theorem confidence_is_unclamped_ratio text :
  let c := confidence (get_issue_classification text) in
  c = true_div (max_count text) 5
  /\ 0 <= max_count text <= 16
  /\ PrimFloat.leb 0%float c = true
  /\ PrimFloat.leb c 1%float = (max_count text <=? 5)
  /\ PrimFloat.eqb c 0%float = (max_count text =? 0)
  /\ PrimFloat.leb c 3.2%float = true.
Proof.
  cbv zeta. rewrite confidence_eq.
  pose proof (max_count_bounds text) as Hb.
  pose proof (ratio_checks_ok _ Hb) as Hr.
  unfold ratio_checks in Hr.
  repeat (apply andb_true_iff in Hr; destruct Hr as [Hr ?]).
  repeat split; try lia; try assumption; now apply eqb_prop.
Qed.

(** C6 (as stated) fails: six hardware keywords give a confidence of
    6/5 = 1.2, above 1; all sixteen software keywords give 16/5 = 3.2. *)
Lemma confidence_exceeds_one :
  (let text := "laptop desktop printer device hardware keyboard" in
   let c := confidence (get_issue_classification text) in
   max_count text = 6
   /\ c = 1.2%float
   /\ PrimFloat.leb c 1%float = false
   /\ PrimFloat.ltb 1%float c = true)
  /\
  (let text := "software application program windows office excel word outlook browser update install license version freeze crash" in
   let c := confidence (get_issue_classification text) in
   max_count text = 16
   /\ c = 3.2%float
   /\ PrimFloat.leb c 1%float = false).
Proof. cbv zeta. repeat split; vm_compute; reflexivity. Qed.

(** X3: the ontology classifier answers one of five categories, and the
    agent category is Hardware for a Network issue and the category
    itself otherwise. *)
Theorem network_maps_to_hardware_agent text :
  let c := get_issue_classification text in
  In (category c) ["Password"; "Hardware"; "Software"; "Network"; "General"]
  /\ agent_category c = (if String.eqb (category c) "Network" then "Hardware" else category c)
  /\ In (agent_category c) ["Password"; "Hardware"; "Software"; "General"].
Proof.
  cbv zeta. unfold get_issue_classification.
  repeat match goal with
         | |- context [if (?a <? ?b)%Z then _ else _] => destruct (a <? b)%Z
         end; simpl; intuition.
Qed.

End ConfidenceFacts.

(** ** The session store *)

Module SessionManagerFacts.
Import SessionManager.

Lemma end_session_delete sid (sessions : gmap string Session) :
  end_session sid sessions = delete sid sessions.
Proof.
  unfold end_session. case_bool_decide as H; [reflexivity|].
  symmetry. apply delete_id. now apply eq_None_not_Some.
Qed.

(** C9: [end_session] always returns; when the id is not in the store the
    store is unchanged; otherwise the entry of that id is gone and every
    other entry is as it was. *)
Theorem end_session_precise sid (sessions : gmap string Session) :
  (sessions !! sid = None -> end_session sid sessions = sessions)
  /\ end_session sid sessions !! sid = None
  /\ (forall other, other <> sid -> end_session sid sessions !! other = sessions !! other)
  /\ (is_Some (sessions !! sid) ->
      dom (end_session sid sessions) = dom sessions ∖ {[sid]}).
Proof.
  rewrite end_session_delete. repeat split.
  - intros H. now apply delete_id.
  - apply lookup_delete_eq.
  - intros other H. now apply lookup_delete_ne.
  - intros _. apply dom_delete_L.
Qed.

(** A store with two sessions: ending one removes it and keeps the other;
    ending an unknown id changes nothing. *)
Lemma end_session_precise_witness :
  let s1 := new_session "s1" "u1" "09:00" in
  let s2 := new_session "s2" "u2" "09:01" in
  let sessions : gmap string Session := <["s1" := s1]> (<["s2" := s2]> ∅) in
  sessions !! "s3" = None
  /\ end_session "s3" sessions = sessions
  /\ end_session "s1" sessions !! "s1" = None
  /\ end_session "s1" sessions !! "s2" = Some s2.
Proof.
  cbv zeta.
  set (sessions := <["s1" := new_session "s1" "u1" "09:00"]>
                     (<["s2" := new_session "s2" "u2" "09:01"]> ∅) : gmap string Session).
  assert (H3 : sessions !! "s3" = None) by (vm_compute; reflexivity).
  destruct (end_session_precise "s3" sessions) as (Hnoop & _).
  destruct (end_session_precise "s1" sessions) as (_ & Hgone & Hother & _).
  split; [exact H3|]. split; [exact (Hnoop H3)|]. split; [exact Hgone|].
  rewrite Hother by discriminate. vm_compute. reflexivity.
Defined.

(** X4: [get_session] returns the stored session and leaves the store as
    it is when the id is known, so a second call right after a first
    returns the same session; after [end_session] the id is new again
    and [get_session] builds a session from scratch. *)
Theorem get_session_same_until_ended sid uuid1 now1 uuid2 now2
    (sessions : gmap string Session) :
  get_session sid uuid2 now2 (snd (get_session sid uuid1 now1 sessions))
  = get_session sid uuid1 now1 sessions
  /\ fst (get_session sid uuid2 now2 (end_session sid sessions))
     = new_session sid uuid2 now2.
Proof.
  split.
  - unfold get_session. destruct (sessions !! sid) as [s|] eqn:E; simpl.
    + now rewrite E.
    + now rewrite lookup_insert_eq.
  - unfold get_session. now rewrite end_session_delete, lookup_delete_eq.
Qed.

End SessionManagerFacts.

(** ** The session memory *)

Module SessionMemoryFacts.
Import SessionMemory.

(** C8: [clear] empties the history and leaves the whole of
    [session_data] as it was: the creation time, the user, device and
    issue data and the free-form metadata, and also [last_updated], which
    [clear] does not stamp. *)
Theorem clear_frame m :
  chat_history (clear m) = []
  /\ sd_created_at (session_data (clear m)) = sd_created_at (session_data m)
  /\ user_info (session_data (clear m)) = user_info (session_data m)
  /\ device_info (session_data (clear m)) = device_info (session_data m)
  /\ issue_data (session_data (clear m)) = issue_data (session_data m)
  /\ metadata (session_data (clear m)) = metadata (session_data m)
  /\ sd_last_updated (session_data (clear m)) = sd_last_updated (session_data m).
Proof. repeat split. Qed.

(** The other mutators stamp [last_updated] with the time of the call. *)
Lemma mutators_stamp_last_updated m text reply c now :
  sd_last_updated (session_data (add_user_message text now m)) = now
  /\ sd_last_updated (session_data (add_ai_message text now m)) = now
  /\ sd_last_updated (session_data (save_context text reply now m)) = now
  /\ sd_last_updated (session_data (add_system_context c now m)) = now.
Proof. repeat split. Qed.

(** A memory created at "09:00", written at "09:05" and cleared later
    still says it was last updated at "09:05". *)
Lemma clear_keeps_stale_last_updated :
  let m := add_user_message "my laptop is broken" "09:05"
             (init "s1" "buffer" 10 None "09:00") in
  chat_history (clear m) = []
  /\ sd_last_updated (session_data (clear m)) = "09:05".
Proof. split; reflexivity. Qed.

End SessionMemoryFacts.

(** ** Reasoning about computations on the orchestrator's objects *)

Module RuntimeFacts.
Import PyStr PyExc SessionManager Runtime Judgements.

Lemma wf_empty : wf ∅.
Proof. intros k s H. rewrite lookup_empty in H. discriminate. Qed.

Lemma wf_alter f sid sessions :
  (forall s, session_id (f s) = session_id s) ->
  wf sessions -> wf (alter f sid sessions).
Proof.
  intros Hf Hwf k s. rewrite lookup_alter. case_decide as E.
  - subst k. destruct (sessions !! sid) as [s0|] eqn:E0; simpl; [|discriminate].
    intros [= <-]. rewrite Hf. now apply Hwf.
  - apply Hwf.
Qed.

Lemma wf_insert sid s sessions :
  session_id s = sid -> wf sessions -> wf (<[sid := s]> sessions).
Proof.
  intros Hs Hwf k s'. rewrite lookup_insert. case_decide as E.
  - subst k. now intros [= <-].
  - apply Hwf.
Qed.

Lemma returns_ret {A} (a : A) (R : A -> Prop) : R a -> returns (ret a) R.
Proof. intros H w a' [= <-]. exact H. Qed.

Lemma returns_raise {A} e (R : A -> Prop) : returns (raise e) R.
Proof. intros w a [=]. Qed.

Lemma returns_lift {A} (r : Res A) (R : A -> Prop) :
  (forall a, r = Ok a -> R a) -> returns (lift r) R.
Proof. intros H w a E. apply H. exact E. Qed.

Lemma returns_bind {A B} (m : M A) (k : A -> M B) (R : B -> Prop) :
  (forall a, returns (k a) R) -> returns (bind m k) R.
Proof.
  intros Hk w b. unfold bind. destruct (m w) as [[a|e] w']; simpl.
  - apply Hk.
  - intros [=].
Qed.

Lemma returns_try_except {A} (m : M A) (h : string -> M A) (R : A -> Prop) :
  returns m R -> (forall e, returns (h e) R) -> returns (try_except m h) R.
Proof.
  intros Hm Hh w a. unfold try_except.
  specialize (Hm w). destruct (m w) as [[a'|e] w']; simpl in *.
  - intros [= <-]. now apply Hm.
  - apply Hh.
Qed.

Lemma total_try_except {A} (m : M A) (h : string -> M A) :
  (forall e, total (h e)) -> total (try_except m h).
Proof.
  intros Hh w. unfold try_except. destruct (m w) as [[a|e] w']; simpl.
  - reflexivity.
  - apply Hh.
Qed.

Lemma total_ret {A} (a : A) : total (ret a).
Proof. intros w. reflexivity. Qed.

Lemma total_returns {A} (m : M A) (R : A -> Prop) w :
  total m -> returns m R -> exists a, fst (m w) = Ok a /\ R a.
Proof.
  intros Ht Hr. specialize (Ht w). specialize (Hr w).
  destruct (fst (m w)) as [a|e]; [|discriminate].
  exists a. split; [reflexivity|]. now apply Hr.
Qed.

Section Invariant.
Context (sid : string) (Q : option Session -> Prop).

Local Abbreviation holds := (Judgements.holds sid Q).
Local Abbreviation preserves := (Judgements.preserves sid Q).

Lemma preserves_ret {A} (a : A) : preserves (ret a).
Proof. intros w H. exact H. Qed.

Lemma preserves_raise {A} e : preserves (@raise A e).
Proof. intros w H. exact H. Qed.

Lemma preserves_lift {A} (r : Res A) : preserves (lift r).
Proof. intros w H. exact H. Qed.

Lemma preserves_bind {A B} (m : M A) (k : A -> M B) :
  preserves m -> (forall a, preserves (k a)) -> preserves (bind m k).
Proof.
  intros Hm Hk w Hw. unfold bind. specialize (Hm w Hw).
  destruct (m w) as [[a|e] w']; simpl in *; [now apply Hk | exact Hm].
Qed.

Lemma preserves_try_except {A} (m : M A) (h : string -> M A) :
  preserves m -> (forall e, preserves (h e)) -> preserves (try_except m h).
Proof.
  intros Hm Hh w Hw. unfold try_except. specialize (Hm w Hw).
  destruct (m w) as [[a|e] w']; simpl in *; [exact Hm | now apply Hh].
Qed.

(** Reading the session behind [sid']: when it is the session of the
    invariant, what is read satisfies [Q]. *)
Lemma preserves_the_session {B} sid' (k : Session -> M B) :
  (forall s, (sid' = sid -> Q (Some s)) -> preserves (k s)) ->
  preserves (bind (the_session sid') k).
Proof.
  intros Hk w Hw. unfold bind, the_session.
  destruct (sessions w !! sid') as [s|] eqn:E; simpl; [|exact Hw].
  apply Hk; [|exact Hw]. intros ->. destruct Hw as [_ HQ]. now rewrite E in HQ.
Qed.

Lemma preserves_assign sid' f :
  (forall s, session_id (f s) = session_id s) ->
  (sid' = sid -> forall s, Q (Some s) -> Q (Some (f s))) ->
  preserves (assign sid' f).
Proof.
  intros Hid Hf w [Hwf HQ]. split; simpl.
  - now apply wf_alter.
  - rewrite lookup_alter. case_decide as E; [|exact HQ].
    subst sid'. destruct (sessions w !! sid) as [s|] eqn:E0; simpl; [|exact HQ].
    now apply Hf.
Qed.

Lemma preserves_on_memory sid' f : preserves (on_memory sid' f).
Proof. intros w H. exact H. Qed.

Lemma preserves_get_or_create_memory env sid' : preserves (get_or_create_memory env sid').
Proof.
  intros w H. unfold get_or_create_memory.
  destruct (session_memories w !! sid'); exact H.
Qed.

Lemma preserves_manager_get_session env sid' :
  (sid' = sid -> Q None -> Q (Some (new_session sid (uuid4 env) (now env)))) ->
  preserves (manager_get_session env sid').
Proof.
  intros Hnew w [Hwf HQ]. unfold manager_get_session, get_session.
  destruct (sessions w !! sid') as [s|] eqn:E; simpl; [now split|].
  split; simpl.
  - apply wf_insert; [reflexivity|exact Hwf].
  - rewrite lookup_insert. case_decide as E'; [|exact HQ].
    subst sid'. rewrite E in HQ. now apply Hnew.
Qed.

Lemma preserves_manager_save_session sid' : preserves (manager_save_session sid').
Proof.
  intros w [Hwf HQ]. unfold manager_save_session.
  destruct (sessions w !! sid') as [s|] eqn:E; simpl; [|now split].
  unfold save_session. rewrite (Hwf _ _ E), (insert_id _ _ _ E). now split.
Qed.

End Invariant.

End RuntimeFacts.

(** ** Invariants of the orchestrators *)

Module OrchestratorFacts.
Import PyStr PyExc SessionManager Runtime Replies Chains Judgements RuntimeFacts.
Import MEAgentOrchestrator.

Create HintDb pres_db.

Ltac pres_step :=
  first
    [ solve [auto 3 with pres_db]
    | apply preserves_ret
    | apply preserves_lift
    | apply preserves_raise
    | apply preserves_on_memory
    | apply preserves_get_or_create_memory
    | apply preserves_manager_save_session
    | apply preserves_the_session; intros ? ?
    | apply preserves_bind; [|intros ?]
    | apply preserves_try_except; [|intros ?]
    | match goal with
      | |- preserves _ _ (if ?b then _ else _) => destruct b eqn:?
      | |- preserves _ _ (match ?x with _ => _ end) => destruct x eqn:?
      end
    | apply preserves_assign; [intros; reflexivity|]
    | progress cbv zeta ].

Ltac pres := repeat pres_step.

Section Turn.
Context (sid sid' : string) (Q : option Session -> Prop).

(** [Q] reads no attribute of the session but [issue_type] and [greeted]
    (needed only when [sid'] is the session of the invariant). *)
Hypothesis Q_ext :
  sid' = sid ->
  forall s1 s2, issue_type s1 = issue_type s2 -> greeted s1 = greeted s2 ->
                Q (Some s1) -> Q (Some s2).

Ltac stable :=
  let E := fresh in let s := fresh in let H := fresh in
  intros E s H; apply (Q_ext E s); [reflexivity|reflexivity|exact H].

Lemma preserves_agent_process env agent_type q (o : option string) :
  (o = None \/ o = Some sid') ->
  preserves sid Q (Agents.process env agent_type q o).
Proof.
  intros [-> | ->]; unfold Agents.process, Agents.the_optional_session; pres.
Qed.
Local Hint Resolve preserves_agent_process : pres_db.

Lemma preserves_delegate env q it : preserves sid Q (delegate env q sid' it).
Proof. unfold delegate. pres; stable. Qed.
Local Hint Resolve preserves_delegate : pres_db.

Lemma preserves_fallback q : preserves sid Q (fallback q sid').
Proof. unfold fallback. pres. Qed.
Local Hint Resolve preserves_fallback : pres_db.

Lemma preserves_identify_employee env : preserves sid Q (identify_employee env sid').
Proof. unfold identify_employee. pres; stable. Qed.
Local Hint Resolve preserves_identify_employee : pres_db.

Lemma preserves_get_initial_greeting env : preserves sid Q (get_initial_greeting env sid').
Proof. unfold get_initial_greeting. pres. Qed.
Local Hint Resolve preserves_get_initial_greeting : pres_db.

Section Classify.
(** While the session of the invariant is unclassified, [Q] allows its
    category to be set. *)
Hypothesis Q_issue :
  sid' = sid ->
  forall s, Q (Some s) -> unclassified s = true ->
  forall c s0, Q (Some s0) -> Q (Some (set_issue_type (Some c) s0)).

Lemma preserves_classify_step env q : preserves sid Q (classify_step env q sid').
Proof.
  unfold classify_step. pres.
  intros E s0 Hs0.
  match goal with
  | Hs : sid' = sid -> Q (Some ?s), Hu : unclassified ?s = true |- _ =>
      exact (Q_issue E s (Hs E) Hu _ s0 Hs0)
  end.
Qed.
Local Hint Resolve preserves_classify_step : pres_db.

Lemma preserves_process_query env q : preserves sid Q (process_query env q sid').
Proof. unfold process_query. pres. Qed.
Local Hint Resolve preserves_process_query : pres_db.

Section Message.
Context (env : Env) (message : string).

(** When the session of the invariant would take the greeting path, [Q]
    allows [greeted] to be set; and [Q] allows the session to be created. *)
Hypothesis Q_greeted :
  sid' = sid ->
  forall s, Q (Some s) -> takes_greeting_path s message = true ->
  forall s0, Q (Some s0) -> Q (Some (set_greeted (Some true) s0)).
Hypothesis Q_new :
  sid' = sid -> Q None -> Q (Some (new_session sid (uuid4 env) (now env))).

Lemma preserves_receive email phone language :
  preserves sid Q (receive env sid' email phone language).
Proof.
  unfold receive. pres; try stable.
  apply preserves_manager_get_session. exact Q_new.
Qed.
Local Hint Resolve preserves_receive : pres_db.

Lemma preserves_agent_turn : preserves sid Q (agent_turn env message sid').
Proof. unfold agent_turn. pres; stable. Qed.
Local Hint Resolve preserves_agent_turn : pres_db.

Lemma preserves_greeting_turn :
  (sid' = sid -> forall s0, Q (Some s0) -> Q (Some (set_greeted (Some true) s0))) ->
  preserves sid Q (greeting_turn env message sid').
Proof. intros Hg. unfold greeting_turn. pres; try stable. Qed.

Lemma preserves_process_message email phone language :
  preserves sid Q (process_message env message sid' email phone language).
Proof.
  unfold process_message. pres; try stable.
  intros E s0 Hs0.
  match goal with
  | Hs : sid' = sid -> Q (Some ?s), Hu : takes_greeting_path ?s message = true |- _ =>
      exact (Q_greeted E s (Hs E) Hu s0 Hs0)
  end.
Qed.

End Message.
End Classify.

Section AgentOrchestratorQuery.
(** While the session of the invariant has no category at all, [Q] allows
    its category to be set. *)
Hypothesis Q_unset :
  sid' = sid ->
  forall s, Q (Some s) -> truthy (issue_type s) = false ->
  forall c s0, Q (Some s0) -> Q (Some (set_issue_type (Some c) s0)).

Lemma preserves_agent_orchestrator_query env q (o : option string) :
  (o = None \/ o = Some sid') ->
  preserves sid Q (AgentOrchestrator.process_query env q o).
Proof.
  intros Ho. unfold AgentOrchestrator.process_query.
  destruct Ho as [-> | ->]; unfold Agents.the_optional_session; pres.
  intros E s0 Hs0.
  match goal with
  | Hs : sid' = sid -> Q (Some ?s), Hu : negb (truthy (issue_type ?s)) = true |- _ =>
      apply negb_true_iff in Hu; exact (Q_unset E s (Hs E) Hu _ s0 Hs0)
  end.
Qed.

End AgentOrchestratorQuery.
End Turn.

End OrchestratorFacts.

(** ** Sticky classification *)

Module StickyFacts.
Import PyStr PyExc SessionManager Runtime Judgements RuntimeFacts OrchestratorFacts Calls.
Import Properties.
Import MEAgentOrchestrator.

Lemma specific_classified t s :
  specific t -> issue_type s = Some t ->
  unclassified s = false /\ truthy (issue_type s) = true.
Proof.
  intros [-> | [-> | ->]] H; unfold unclassified; rewrite H; split; reflexivity.
Qed.

Lemma classified_as_ext t s1 s2 :
  issue_type s1 = issue_type s2 -> classified_as t (Some s1) -> classified_as t (Some s2).
Proof.
  intros E (s & [= <-] & H). exists s2. split; [reflexivity|]. now rewrite <- E.
Qed.

Lemma classified_not_unclassified t s :
  specific t -> classified_as t (Some s) -> unclassified s = false.
Proof.
  intros Ht (s0 & [= <-] & H). now destruct (specific_classified t s Ht H).
Qed.

Lemma classified_truthy t s :
  specific t -> classified_as t (Some s) -> truthy (issue_type s) = true.
Proof.
  intros Ht (s0 & [= <-] & H). now destruct (specific_classified t s Ht H).
Qed.

Lemma classified_none t : ~ classified_as t None.
Proof. intros (s & [=] & _). Qed.

(** One call keeps a specific category, whichever session it is for. *)
Lemma call_keeps_category sid t c :
  specific t -> preserves sid (classified_as t) (run_call c).
Proof.
  intros Ht.
  assert (Hext : forall sid', sid' = sid -> forall s1 s2,
             issue_type s1 = issue_type s2 -> greeted s1 = greeted s2 ->
             classified_as t (Some s1) -> classified_as t (Some s2))
    by (intros; eauto using classified_as_ext).
  assert (Hissue : forall sid', sid' = sid -> forall s,
             classified_as t (Some s) -> unclassified s = true ->
             forall c0 s0, classified_as t (Some s0) ->
                           classified_as t (Some (set_issue_type (Some c0) s0))).
  { intros sid' _ s Hs Hu. rewrite (classified_not_unclassified t s Ht Hs) in Hu.
    discriminate. }
  assert (Hunset : forall sid', sid' = sid -> forall s,
             classified_as t (Some s) -> truthy (issue_type s) = false ->
             forall c0 s0, classified_as t (Some s0) ->
                           classified_as t (Some (set_issue_type (Some c0) s0))).
  { intros sid' _ s Hs Hu. rewrite (classified_truthy t s Ht Hs) in Hu.
    discriminate. }
  destruct c as [env message sid' email phone language | env query sid'
                | env sid' | env query session]; simpl.
  - apply preserves_process_message; [apply Hext | apply Hissue | |].
    + intros _ s _ _ s0 Hs0. revert Hs0. now apply classified_as_ext.
    + intros _ Hn. now apply classified_none in Hn.
  - apply preserves_process_query; [apply Hext | apply Hissue].
  - apply preserves_get_initial_greeting. apply Hext.
  - destruct session as [sid'|].
    + apply (preserves_agent_orchestrator_query sid sid');
        [apply Hunset | now right].
    + apply (preserves_agent_orchestrator_query sid sid);
        [apply Hunset | now left].
Qed.

Lemma calls_keep_category sid t calls w :
  specific t -> holds sid (classified_as t) w ->
  holds sid (classified_as t) (run_calls calls w).
Proof.
  intros Ht. revert w. induction calls as [|c cs IH]; intros w Hw; simpl; [exact Hw|].
  apply IH. now apply call_keeps_category.
Qed.

(** What [process_query] of the main orchestrator does on a session
    without a specific category: the session gets the category of this
    turn's classification, and the rest of the turn runs from there. *)
Lemma process_query_unclassified env query sid w s :
  sessions w !! sid = Some s -> unclassified s = true ->
  exists w',
    sessions w' = alter (set_issue_type (Some (classify_issue_type env query))) sid (sessions w)
    /\ process_query env query sid w =
       try_except (delegate env query sid (classify_issue_type env query))
                  (fun _ => fallback query sid) w'.
Proof.
  intros Hs Hu.
  unfold process_query, try_except, bind, get_or_create_memory, on_memory,
    classify_step, bind, the_session, assign, ret.
  destruct (session_memories w !! sid); simpl; rewrite Hs, Hu; simpl;
    eexists; (split; [|reflexivity]); reflexivity.
Qed.



(** The same password-like message on a session still classified as
    General: this turn's classification (Password) is stored. *)
Lemma general_is_reclassified :
  let general_session :=
    set_issue_type (Some "General") (new_session "s2" "c0ffee" "2025-04-17T08:00:00") in
  let w := {| sessions := <["s2" := general_session]> ∅; session_memories := ∅ |} in
  issue_type <$>
    (sessions (snd (process_query (Scenarios.env_up "Let me help.")
                      "I forgot my password" "s2" w)) !! "s2")
  = Some (Some "Password").
Proof. vm_compute. reflexivity. Qed.

(** X1: [process_query] of the agent orchestrator classifies only a
    session with no category at all (line 116): any category already
    stored, General included, is kept by the call. *)
Theorem agent_orchestrator_keeps_category sid t env query w :
  wf (sessions w) -> t <> "" ->
  classified_as t (sessions w !! sid) ->
  classified_as t
    (sessions (snd (AgentOrchestrator.process_query env query (Some sid) w)) !! sid).
Proof.
  intros Hwf Ht Hc.
  apply (preserves_agent_orchestrator_query sid sid (classified_as t)); [|now right|now split].
  intros _ s (s0 & [= <-] & Hs) Hu. rewrite Hs in Hu. simpl in Hu.
  destruct t; [congruence|discriminate].
Qed.

(** A session stored as General stays General through a hardware message
    that the keyword classifier alone would classify as Hardware. *)
Lemma agent_orchestrator_keeps_category_witness :
  let general_session :=
    set_issue_type (Some "General") (new_session "s2" "c0ffee" "2025-04-17T08:00:00") in
  let w := {| sessions := <["s2" := general_session]> ∅; session_memories := ∅ |} in
  ResponseGenerator.classify_issue "my laptop screen is broken" = "Hardware"
  /\ classified_as "General"
       (sessions (snd (AgentOrchestrator.process_query (Scenarios.env_up "Let me help.")
                         "my laptop screen is broken" (Some "s2") w)) !! "s2").
Proof.
  cbv zeta. split; [vm_compute; reflexivity|].
  apply agent_orchestrator_keeps_category.
  - apply wf_insert; [reflexivity|apply wf_empty].
  - discriminate.
  - eexists. split; [apply lookup_insert_eq|reflexivity].
Defined.

End StickyFacts.

(** ** The greeting short-circuit *)

Module GreetingFacts.
Import PyStr PyExc SessionManager Runtime Judgements RuntimeFacts OrchestratorFacts.
Import Properties.
Import MEAgentOrchestrator.

(** [receive] never raises; afterwards the session exists, with the
    [greeted] attribute it had before (none for a new session). *)
Lemma receive_spec env sid email phone language w :
  exists w1 s1,
    receive env sid email phone language w = (Ok tt, w1)
    /\ sessions w1 !! sid = Some s1
    /\ greeted s1 = (sessions w !! sid) ≫= greeted.
Proof.
  unfold receive, bind, manager_get_session, get_session.
  destruct (sessions w !! sid) as [s|] eqn:E; simpl;
    destruct (truthy email); destruct (truthy phone); simpl;
    unfold the_session; simpl;
    rewrite ?lookup_alter_eq, ?lookup_insert_eq, ?E; simpl;
    match goal with
    | |- context [if ?b then _ else _] => destruct b
    end; simpl;
    eexists _, _; (split; [reflexivity|]); simpl;
    rewrite ?lookup_alter_eq, ?lookup_insert_eq, ?E; simpl;
    (split; reflexivity).
Qed.

(** The branch taken by [process_message] is the one [greets] tells. *)
Lemma process_message_path t w :
  turn t w = if greets t w then via_greeting_path t w else via_agent_path t w.
Proof.
  destruct t as [env message sid email phone language].
  unfold turn, greets, via_greeting_path, via_agent_path, process_message. simpl.
  destruct (receive_spec env sid email phone language w) as (w1 & s1 & Hr & Hl & Hg).
  unfold try_except, bind. rewrite Hr. unfold the_session. rewrite Hl.
  assert (Hp : takes_greeting_path s1 message =
               match sessions w !! sid with
               | Some s => takes_greeting_path s message
               | None => is_greeting message
               end).
  { unfold takes_greeting_path, not_greeted. rewrite Hg.
    destruct (sessions w !! sid); reflexivity. }
  rewrite <- Hp. destruct (takes_greeting_path s1 message); reflexivity.
Qed.

Lemma is_greeted_ext s1 s2 :
  greeted s1 = greeted s2 -> is_greeted (Some s1) -> is_greeted (Some s2).
Proof.
  intros E (s & [= <-] & H). exists s2. split; [reflexivity|]. now rewrite <- E.
Qed.

Lemma is_greeted_not_greeted s : is_greeted (Some s) -> not_greeted s = false.
Proof. intros (s0 & [= <-] & H). unfold not_greeted. now rewrite H. Qed.

(** No turn, for any session, takes [greeted] back. *)
Lemma turn_keeps_greeted sid t : preserves sid is_greeted (turn t).
Proof.
  destruct t as [env message sid' email phone language]. unfold turn. simpl.
  apply preserves_process_message.
  - intros _ s1 s2 _ E. now apply is_greeted_ext.
  - intros _ s _ _ c s0. now apply is_greeted_ext.
  - intros _ s _ _ s0 _. eexists. split; reflexivity.
  - intros _ (s & [=] & _).
Qed.

(** A turn that cannot take the greeting path leaves a session that was
    not greeted as it is. *)
Lemma turn_keeps_not_greeted sid t :
  (t_sid t = sid -> is_greeting (t_message t) = false) ->
  preserves sid not_yet_greeted (turn t).
Proof.
  destruct t as [env message sid' email phone language]. unfold turn. simpl.
  intros Hm. apply preserves_process_message.
  - intros _ s1 s2 _ E. unfold not_yet_greeted, not_greeted. now rewrite E.
  - intros _ s _ _ c s0 H. exact H.
  - intros E s _ Hp. unfold takes_greeting_path in Hp. rewrite (Hm E) in Hp.
    now rewrite andb_false_r in Hp.
  - intros _ _. reflexivity.
Qed.

(** Every turn keeps the store well formed. *)
Lemma turn_keeps_wf t w : wf (sessions w) -> wf (sessions (step t w)).
Proof.
  intros Hwf.
  assert (H : holds (t_sid t) (fun _ => True) (step t w)).
  { destruct t as [env message sid' email phone language]. unfold step, turn. simpl.
    apply preserves_process_message; try (intros; exact I). now split. }
  exact (proj1 H).
Qed.

Lemma run_keeps_wf ts w : wf (sessions w) -> wf (sessions (run ts w)).
Proof.
  revert w. induction ts as [|t ts IH]; intros w Hwf; simpl; [exact Hwf|].
  apply IH. now apply turn_keeps_wf.
Qed.

Lemma get_initial_greeting_total env sid : total (get_initial_greeting env sid).
Proof. apply total_try_except. intros e. apply total_ret. Qed.

(** The greeting path marks the session as greeted, whatever happens
    around it. *)
Lemma greeting_turn_sets_greeted env message sid w :
  wf (sessions w) -> is_Some (sessions w !! sid) ->
  holds sid is_greeted (snd (greeting_turn env message sid w)).
Proof.
  intros Hwf Hs.
  assert (H2 : holds sid (fun o => is_Some o) (snd (get_initial_greeting env sid w))).
  { apply preserves_get_initial_greeting; [|now split].
    intros _ s1 s2 _ _ _. eexists. reflexivity. }
  pose proof (get_initial_greeting_total env sid w) as Ht.
  unfold greeting_turn. unfold bind at 1.
  destruct (get_initial_greeting env sid w) as [[g|e] w2]; [|discriminate Ht].
  simpl in H2. destruct H2 as [Hwf2 [s2 Hs2]].
  unfold bind at 1. unfold assign at 1.
  match goal with
  | |- holds ?i ?Q (snd (?m ?w3)) =>
      assert (Hm : preserves i Q m); [|apply Hm]
  end.
  - pres; intros _ s0 H; revert H; now apply is_greeted_ext.
  - split; simpl.
    + now apply wf_alter.
    + rewrite lookup_alter_eq, Hs2. simpl. eexists. split; reflexivity.
Qed.

(** A turn that takes the greeting path leaves its session greeted. *)
Lemma greeting_path_sets_greeted t w :
  wf (sessions w) -> greets t w = true ->
  is_greeted (sessions (step t w) !! t_sid t).
Proof.
  intros Hwf Hg. unfold step. rewrite process_message_path, Hg.
  destruct t as [env message sid email phone language].
  unfold via_greeting_path, try_except, bind. simpl.
  destruct (receive_spec env sid email phone language w) as (w1 & s1 & Hr & Hl & _).
  assert (Hwf1 : wf (sessions w1)).
  { assert (H : holds sid (fun _ => True) (snd (receive env sid email phone language w))).
    { apply preserves_receive; try (intros; exact I). now split. }
    rewrite Hr in H. exact (proj1 H). }
  rewrite Hr.
  pose proof (greeting_turn_sets_greeted env message sid w1 Hwf1
                (ex_intro _ s1 Hl)) as [_ H].
  destruct (greeting_turn env message sid w1) as [[g|e] w2]; exact H.
Qed.

Lemma greeted_does_not_greet t w :
  is_greeted (sessions w !! t_sid t) -> greets t w = false.
Proof.
  intros (s & Hs & Hg). unfold greets, takes_greeting_path, not_greeted.
  now rewrite Hs, Hg.
Qed.

Lemma greeting_count_greeted sid ts w :
  wf (sessions w) -> is_greeted (sessions w !! sid) -> greeting_count sid ts w = 0.
Proof.
  revert w. induction ts as [|t ts IH]; intros w Hwf Hg; simpl; [reflexivity|].
  assert (Hstep : holds sid is_greeted (step t w))
    by (apply turn_keeps_greeted; now split).
  rewrite (IH _ (proj1 Hstep) (proj2 Hstep)).
  destruct (String.eqb (t_sid t) sid) eqn:E; simpl; [|reflexivity].
  apply String.eqb_eq in E. subst sid.
  now rewrite (greeted_does_not_greet t w Hg).
Qed.

Lemma greeting_count_le_1 sid ts w :
  wf (sessions w) -> greeting_count sid ts w <= 1.
Proof.
  revert w. induction ts as [|t ts IH]; intros w Hwf; simpl; [lia|].
  destruct (String.eqb (t_sid t) sid && greets t w) eqn:E.
  - apply andb_true_iff in E. destruct E as [E Hg].
    apply String.eqb_eq in E. subst sid.
    rewrite greeting_count_greeted; [lia| |].
    + now apply turn_keeps_wf.
    + now apply greeting_path_sets_greeted.
  - specialize (IH (step t w) (turn_keeps_wf t w Hwf)). lia.
Qed.

Lemma run_keeps_not_greeted sid ts w :
  (forall t, In t ts -> t_sid t = sid -> is_greeting (t_message t) = false) ->
  holds sid not_yet_greeted w -> holds sid not_yet_greeted (run ts w).
Proof.
  revert w. induction ts as [|t ts IH]; intros w Hts Hw; simpl; [exact Hw|].
  apply IH.
  - intros t' Hin. apply Hts. now right.
  - apply turn_keeps_not_greeted; [|exact Hw]. apply Hts. now left.
Qed.

Lemma run_keeps_greeted sid ts w :
  holds sid is_greeted w -> holds sid is_greeted (run ts w).
Proof.
  revert w. induction ts as [|t ts IH]; intros w Hw; simpl; [exact Hw|].
  apply IH. now apply turn_keeps_greeted.
Qed.

Lemma not_yet_greeted_greets t w :
  not_yet_greeted (sessions w !! t_sid t) -> greets t w = is_greeting (t_message t).
Proof.
  unfold greets, not_yet_greeted, takes_greeting_path.
  destruct (sessions w !! t_sid t); [intros ->|]; reflexivity.
Qed.

(** C7: the greeting path is taken at most once per session.  From a
    well-formed store: (1) each turn runs the greeting path or the agent
    path, as the test on [greeted] and the greeting words tells; (2) the
    first turn of a session whose text contains a greeting word, after
    any number of turns that contain none, takes the greeting path and
    leaves [greeted] true; (3) once [greeted] is true the session's
    turns take the agent path, greeting-like or not, and [greeted] stays
    true through every later turn of any session; (4) over a whole trace
    the greeting path is taken at most once for the session. *)
Theorem greeting_fires_at_most_once sid w :
  wf (sessions w) ->
  (forall t, turn t w = if greets t w then via_greeting_path t w else via_agent_path t w)
  /\ (forall ts t,
        not_yet_greeted (sessions w !! sid) ->
        (forall t', In t' ts -> t_sid t' = sid -> is_greeting (t_message t') = false) ->
        t_sid t = sid -> is_greeting (t_message t) = true ->
        greets t (run ts w) = true
        /\ is_greeted (sessions (step t (run ts w)) !! sid))
  /\ (forall ts t,
        is_greeted (sessions w !! sid) ->
        is_greeted (sessions (run ts w) !! sid)
        /\ (t_sid t = sid -> greets t (run ts w) = false))
  /\ (forall ts, greeting_count sid ts w <= 1).
Proof.
  intros Hwf. split; [|split; [|split]].
  - intros t. apply process_message_path.
  - intros ts t Hn Hts Ht Hm.
    pose proof (run_keeps_not_greeted sid ts w Hts (conj Hwf Hn)) as [Hwf' Hn'].
    assert (Hg : greets t (run ts w) = true).
    { rewrite not_yet_greeted_greets; [exact Hm|]. now rewrite Ht. }
    split; [exact Hg|].
    rewrite <- Ht. now apply greeting_path_sets_greeted.
  - intros ts t Hg.
    pose proof (run_keeps_greeted sid ts w (conj Hwf Hg)) as [_ Hg'].
    split; [exact Hg'|].
    intros Ht. apply greeted_does_not_greet. now rewrite Ht.
  - intros ts. now apply greeting_count_le_1.
Qed.

Lemma greeting_fires_at_most_once_witness :
  wf (sessions Scenarios.empty_world)
  /\ greeting_count "s1" [hello; hi_again] Scenarios.empty_world <= 1.
Proof.
  split; [apply wf_empty|].
  apply (greeting_fires_at_most_once "s1" Scenarios.empty_world wf_empty).
Defined.

(** On that trace the first turn is answered by the greeting and the
    second, although it contains "hi", by the fallback reply of the agent
    path; the greeting path is taken exactly once. *)
Lemma two_greetings_in_a_row :
  greets hello Scenarios.empty_world = true
  /\ fst (turn hello Scenarios.empty_world)
     = Ok "Good morning! I'm ME.ai Assistant, your IT support specialist. How can I help you today?"
  /\ greeted <$> (sessions (step hello Scenarios.empty_world) !! "s1") = Some (Some true)
  /\ greets hi_again (step hello Scenarios.empty_world) = false
  /\ fst (turn hi_again (step hello Scenarios.empty_world))
     = Ok "Hello, Thank you for reaching out to IT support. I'd like to help with your issue, but I need a bit more information. Could you provide more details about what you're experiencing so I can better assist you?"
  /\ greeted <$> (sessions (run [hello; hi_again] Scenarios.empty_world) !! "s1")
     = Some (Some true)
  /\ greeting_count "s1" [hello; hi_again] Scenarios.empty_world = 1.
Proof. repeat split; vm_compute; reflexivity. Qed.

End GreetingFacts.

(** ** The public entry points return text *)

Module BoundaryFacts.
Import PyStr PyExc SessionManager Runtime Replies Chains Judgements RuntimeFacts Scenarios.
Import Properties.
Import MEAgentOrchestrator.

Lemma append_nonempty s1 s2 : s1 <> "" -> s1 +:+ s2 <> "".
Proof. destruct s1; [congruence|]. intros _. discriminate. Qed.

Lemma fallback_greeting_nonempty o g : fallback_greeting o = Ok g -> g <> "".
Proof.
  unfold fallback_greeting.
  destruct (truthy_dict (o ≫= employee_info) && truthy ((o ≫= employee_info) ≫= (.!! "name"))).
  - destruct (split_first _); intros [= <-]. discriminate.
  - intros [= <-]. discriminate.
Qed.

Lemma generate_fallback_response_nonempty m o it et r :
  generate_fallback_response m o it et = Ok r -> r <> "".
Proof.
  unfold generate_fallback_response.
  destruct (fallback_greeting o) as [g|e] eqn:E; [|discriminate].
  apply fallback_greeting_nonempty in E.
  destruct (bool_decide (et = Some "timeout")); intros [= <-];
    now apply append_nonempty.
Qed.

Lemma time_greeting_nonempty h : time_greeting h <> "".
Proof.
  unfold time_greeting.
  destruct ((5 <=? h)%Z && (h <? 12)%Z); [discriminate|].
  destruct ((12 <=? h)%Z && (h <? 18)%Z); discriminate.
Qed.

Lemma generate_initial_greeting_nonempty h s r :
  generate_initial_greeting h s = Ok r -> r <> "".
Proof.
  unfold generate_initial_greeting.
  destruct (truthy_dict (employee_info s)).
  - destruct (split_first _); [|discriminate].
    destruct (nonempty _); intros [= <-];
      repeat (apply append_nonempty); apply time_greeting_nonempty.
  - intros [= <-]. apply append_nonempty, time_greeting_nonempty.
Qed.

Lemma returns_bind_with {A B} (m : M A) (k : A -> M B) (R1 : A -> Prop) (R : B -> Prop) :
  returns m R1 -> (forall a, R1 a -> returns (k a) R) -> returns (bind m k) R.
Proof.
  intros Hm Hk w b. unfold bind. specialize (Hm w).
  destruct (m w) as [[a|e] w']; simpl in *.
  - apply Hk. now apply Hm.
  - intros [=].
Qed.

Ltac rets :=
  repeat first
    [ apply returns_ret
    | apply returns_raise
    | apply returns_bind; intros ?
    | apply returns_try_except; [|intros ?]
    | match goal with
      | |- returns (if ?b then _ else _) _ => destruct b eqn:?
      | |- returns (match ?x with _ => _ end) _ => destruct x eqn:?
      end
    | progress cbv zeta ].

Section Replies.
Context (env : Env).
Hypothesis Henv : model_replies_nonempty env.

Lemma conversation_process_nonempty text info :
  conversation_process env text info <> "".
Proof.
  unfold conversation_process.
  destruct (greeting_chain_run env text info) eqn:E; [|discriminate].
  now apply (proj2 Henv) in E.
Qed.

Lemma returns_agent_process agent_type q o :
  returns (Agents.process env agent_type q o) nonempty_text.
Proof.
  unfold Agents.process. apply returns_bind. intros s. cbv zeta.
  destruct (agent_executor_run env agent_type _ q) eqn:E.
  - apply returns_ret. now apply (proj1 Henv) in E.
  - apply returns_lift. intros r. apply generate_fallback_response_nonempty.
Qed.

Lemma returns_delegate q sid it : returns (delegate env q sid it) nonempty_text.
Proof.
  unfold delegate. cbv zeta.
  apply returns_bind. intros session. apply returns_bind. intros _.
  apply (returns_bind_with _ _ nonempty_text); [apply returns_agent_process|].
  intros response Hr. rets. exact Hr.
Qed.

Lemma returns_fallback q sid : returns (fallback q sid) nonempty_text.
Proof.
  unfold fallback. apply returns_bind. intros session.
  apply returns_lift. intros r. apply generate_fallback_response_nonempty.
Qed.

Lemma returns_process_query q sid : returns (process_query env q sid) nonempty_text.
Proof.
  unfold process_query. apply returns_try_except.
  - do 3 (apply returns_bind; intros ?). apply returns_delegate.
  - intros e. apply returns_fallback.
Qed.

Lemma returns_get_initial_greeting sid :
  returns (get_initial_greeting env sid) nonempty_text.
Proof.
  unfold get_initial_greeting. apply returns_try_except.
  - apply returns_bind. intros _. apply returns_bind. intros session.
    destruct (truthy_dict (employee_info session)).
    + cbv zeta. rets. apply conversation_process_nonempty.
    + apply returns_lift. intros r. apply generate_initial_greeting_nonempty.
  - intros e. apply returns_ret. discriminate.
Qed.

Lemma returns_process_message message sid email phone language :
  returns (process_message env message sid email phone language) nonempty_text.
Proof.
  unfold process_message. apply returns_try_except.
  - apply returns_bind. intros _. apply returns_bind. intros session.
    destruct (takes_greeting_path session message).
    + unfold greeting_turn.
      apply (returns_bind_with _ _ nonempty_text); [apply returns_get_initial_greeting|].
      intros g Hg. rets. exact Hg.
    + unfold agent_turn. apply returns_bind. intros _.
      apply (returns_bind_with _ _ nonempty_text); [apply returns_process_query|].
      intros r Hr. rets. exact Hr.
  - intros e. apply returns_ret. discriminate.
Qed.

End Replies.

Lemma process_message_total env message sid email phone language :
  total (process_message env message sid email phone language).
Proof. apply total_try_except. intros e. apply total_ret. Qed.

Lemma get_initial_greeting_never_raises env sid : total (get_initial_greeting env sid).
Proof. apply total_try_except. intros e. apply total_ret. Qed.

(** C2 (as amended): [process_message] and [get_initial_greeting] return
    a string and never let an exception out, for every message, session,
    identity hints and stored state and whatever the collaborators do
    (answer or raise).  The string is not empty provided the model
    calls, when they answer, answer with a non-empty text: every other
    reply is one of the program's fixed fallback texts. *)
Theorem entry_points_return_text env message sid email phone language w :
  (exists reply,
      fst (process_message env message sid email phone language w) = Ok reply
      /\ (model_replies_nonempty env -> reply <> ""))
  /\ (exists greeting,
         fst (get_initial_greeting env sid w) = Ok greeting
         /\ (model_replies_nonempty env -> greeting <> "")).
Proof.
  split.
  - pose proof (process_message_total env message sid email phone language w) as Ht.
    destruct (fst (process_message env message sid email phone language w)) as [r|e] eqn:E;
      [|discriminate Ht].
    exists r. split; [reflexivity|]. intros Henv.
    exact (returns_process_message env Henv message sid email phone language w r E).
  - pose proof (get_initial_greeting_never_raises env sid w) as Ht.
    destruct (fst (get_initial_greeting env sid w)) as [g|e] eqn:E; [|discriminate Ht].
    exists g. split; [reflexivity|]. intros Henv.
    exact (returns_get_initial_greeting env Henv sid w g E).
Qed.

Lemma env_up_replies reply : reply <> "" -> model_replies_nonempty (env_up reply).
Proof. intros H. split; intros; simpl in *; congruence. Qed.

(** With every collaborator up and a model that answers "Let me help.",
    a first message about a broken laptop gets a reply that is not empty. *)
Lemma entry_points_return_text_witness :
  model_replies_nonempty (env_up "Let me help.")
  /\ exists reply,
       fst (process_message (env_up "Let me help.") "my laptop is broken" "s1"
              None None None empty_world) = Ok reply
       /\ reply <> "".
Proof.
  assert (Henv : model_replies_nonempty (env_up "Let me help."))
    by (apply env_up_replies; discriminate).
  split; [exact Henv|].
  destruct (entry_points_return_text (env_up "Let me help.") "my laptop is broken" "s1"
              None None None empty_world) as [(reply & Hr & Hn) _].
  exists reply. split; [exact Hr|]. exact (Hn Henv).
Defined.

(** With every collaborator down the replies are the program's own texts:
    the time-of-day greeting for a greeting, the generic fallback reply
    for a problem report. *)
Lemma replies_when_all_down :
  fst (process_message env_all_down "Hello" "s1" None None None empty_world)
  = Ok "Good morning! I'm ME.ai Assistant, your IT support specialist. How can I help you today?"
  /\ fst (process_message env_all_down "my laptop is broken" "s1" None None None empty_world)
     = Ok "Hello, Thank you for reaching out to IT support. I'd like to help with your issue, but I need a bit more information. Could you provide more details about what you're experiencing so I can better assist you?".
Proof. repeat split; vm_compute; reflexivity. Qed.

(** C2 (as stated) fails: nothing replaces an empty answer of the model.
    When the agent's model call returns the empty string, so does
    [process_message]. *)
Lemma empty_model_reply_is_returned :
  fst (process_message (env_up "") "my laptop is broken" "s1" None None None empty_world)
  = Ok "".
Proof. vm_compute. reflexivity. Qed.

End BoundaryFacts.

(** ** Properties of a session that calls keep *)


Module StableFacts.
Import PyStr PyExc SessionManager Runtime Replies Chains Judgements RuntimeFacts.
Import OrchestratorFacts Calls Updates.
Import MEAgentOrchestrator.

Section Stable.
Context (sid sid' : string) (Q : option Session -> Prop).

Hypothesis Q_query : sid' = sid -> stable_under query_assigns Q.

Ltac guard_of H :=
  first
    [ exact H
    | apply negb_true_iff in H; exact H
    | apply bool_decide_eq_true in H; exact H
    | let H1 := fresh in let H2 := fresh in
      apply andb_true_iff in H; destruct H as [H1 H2];
      first [guard_of H1 | guard_of H2] ].

Ltac by_assigns Hyp :=
  let E := fresh in let s0 := fresh in let Hq := fresh in
  intros E s0 Hq;
  first
    [ apply (Hyp E s0 _ Hq); [|exact Hq]; solve [constructor]
    | match goal with
      | Hs : sid' = sid -> Q (Some ?s) |- _ =>
          apply (Hyp E s _ (Hs E)); [|exact Hq]; constructor;
          solve [ match goal with
                  | H : _ = true |- _ => guard_of H
                  end ]
      end ].

Lemma stable_agent_process env agent_type q (o : option string) :
  (o = None \/ o = Some sid') ->
  preserves sid Q (Agents.process env agent_type q o).
Proof.
  intros [-> | ->]; unfold Agents.process, Agents.the_optional_session; pres.
Qed.
Local Hint Resolve stable_agent_process : pres_db.

Lemma stable_delegate env q it : preserves sid Q (delegate env q sid' it).
Proof. unfold delegate. pres. by_assigns Q_query. Qed.
Local Hint Resolve stable_delegate : pres_db.

Lemma stable_fallback q : preserves sid Q (fallback q sid').
Proof. unfold fallback. pres. Qed.
Local Hint Resolve stable_fallback : pres_db.

Lemma stable_identify_employee env : preserves sid Q (identify_employee env sid').
Proof. unfold identify_employee. pres; by_assigns Q_query. Qed.
Local Hint Resolve stable_identify_employee : pres_db.

Lemma stable_get_initial_greeting env : preserves sid Q (get_initial_greeting env sid').
Proof. unfold get_initial_greeting. pres. Qed.
Local Hint Resolve stable_get_initial_greeting : pres_db.

Lemma stable_classify_step env q : preserves sid Q (classify_step env q sid').
Proof. unfold classify_step. pres. by_assigns Q_query. Qed.
Local Hint Resolve stable_classify_step : pres_db.

Lemma stable_process_query env q : preserves sid Q (process_query env q sid').
Proof. unfold process_query. pres. Qed.
Local Hint Resolve stable_process_query : pres_db.

Lemma stable_agent_orchestrator_query env q (o : option string) :
  (o = None \/ o = Some sid') ->
  preserves sid Q (AgentOrchestrator.process_query env q o).
Proof.
  intros Ho. unfold AgentOrchestrator.process_query.
  destruct Ho as [-> | ->]; unfold Agents.the_optional_session; pres.
  intros E s0 Hq0.
  match goal with
  | Hs : sid' = sid -> Q (Some ?s), Hu : negb (truthy (issue_type ?s)) = true |- _ =>
      apply (Q_query E s _ (Hs E)); [|exact Hq0]; constructor;
      unfold unclassified; now rewrite Hu
  end.
Qed.

Section Record.
Hypothesis Q_record : sid' = sid -> stable_under record_assigns Q.

Lemma stable_agent_turn env message : preserves sid Q (agent_turn env message sid').
Proof. unfold agent_turn. pres; by_assigns Q_record. Qed.
Local Hint Resolve stable_agent_turn : pres_db.

Lemma stable_greeting_turn env message :
  (sid' = sid -> forall s0, Q (Some s0) -> Q (Some (set_greeted (Some true) s0))) ->
  preserves sid Q (greeting_turn env message sid').
Proof. intros Hg. unfold greeting_turn. pres; try by_assigns Q_record. Qed.

Section Message.
Hypothesis Q_receive : sid' = sid -> stable_under receive_assigns Q.
Hypothesis Q_new :
  sid' = sid -> forall uuid now, Q None -> Q (Some (new_session sid uuid now)).

Lemma stable_receive env email phone language :
  preserves sid Q (receive env sid' email phone language).
Proof.
  unfold receive. pres; try by_assigns Q_receive.
  apply preserves_manager_get_session. intros E. apply (Q_new E).
Qed.
Local Hint Resolve stable_receive : pres_db.

Lemma stable_process_message env message email phone language :
  preserves sid Q (process_message env message sid' email phone language).
Proof. unfold process_message. pres; by_assigns Q_record. Qed.

End Message.
End Record.
End Stable.

(** One call of either orchestrator keeps every property of a session
    that its assignments keep. *)
Lemma stable_run_call sid (Q : option Session -> Prop) c :
  stable_under query_assigns Q -> stable_under record_assigns Q ->
  stable_under receive_assigns Q ->
  (forall uuid now, Q None -> Q (Some (new_session sid uuid now))) ->
  preserves sid Q (run_call c).
Proof.
  intros Hq Hr Hh Hn.
  destruct c as [env message sid' email phone language | env query sid'
                | env sid' | env query session]; simpl.
  - apply stable_process_message; auto.
  - apply stable_process_query; auto.
  - apply stable_get_initial_greeting; auto.
  - destruct session as [sid'|].
    + apply (stable_agent_orchestrator_query sid sid'); auto.
    + apply (stable_agent_orchestrator_query sid sid); auto.
Qed.

Lemma stable_run_calls sid (Q : option Session -> Prop) calls w :
  stable_under query_assigns Q -> stable_under record_assigns Q ->
  stable_under receive_assigns Q ->
  (forall uuid now, Q None -> Q (Some (new_session sid uuid now))) ->
  holds sid Q w -> holds sid Q (run_calls calls w).
Proof.
  intros Hq Hr Hh Hn. revert w.
  induction calls as [|c cs IH]; intros w Hw; simpl; [exact Hw|].
  apply IH. now apply stable_run_call.
Qed.

End StableFacts.

(** ** Properties of a memory that calls keep *)


Module MemoryFacts.
Import PyStr PyExc SessionManager Runtime Replies Chains Judgements RuntimeFacts.
Import MemoryJudgements Calls.
Import MEAgentOrchestrator.

Section Invariant.
Context (sid : string) (P : option SessionMemory.t -> Prop).

Local Abbreviation mpreserves := (MemoryJudgements.mpreserves sid P).

Lemma mpreserves_ret {A} (a : A) : mpreserves (ret a).
Proof. intros w H. exact H. Qed.

Lemma mpreserves_raise {A} e : mpreserves (@raise A e).
Proof. intros w H. exact H. Qed.

Lemma mpreserves_lift {A} (r : Res A) : mpreserves (lift r).
Proof. intros w H. exact H. Qed.

Lemma mpreserves_bind {A B} (m : M A) (k : A -> M B) :
  mpreserves m -> (forall a, mpreserves (k a)) -> mpreserves (bind m k).
Proof.
  intros Hm Hk w Hw. unfold bind. specialize (Hm w Hw).
  destruct (m w) as [[a|e] w']; simpl in *; [now apply Hk | exact Hm].
Qed.

Lemma mpreserves_try_except {A} (m : M A) (h : string -> M A) :
  mpreserves m -> (forall e, mpreserves (h e)) -> mpreserves (try_except m h).
Proof.
  intros Hm Hh w Hw. unfold try_except. specialize (Hm w Hw).
  destruct (m w) as [[a|e] w']; simpl in *; [exact Hm | now apply Hh].
Qed.

Lemma mpreserves_the_session sid' : mpreserves (the_session sid').
Proof. intros w H. unfold the_session. now destruct (sessions w !! sid'). Qed.

Lemma mpreserves_assign sid' f : mpreserves (assign sid' f).
Proof. intros w H. exact H. Qed.

Lemma mpreserves_manager_get_session env sid' : mpreserves (manager_get_session env sid').
Proof. intros w H. exact H. Qed.

Lemma mpreserves_manager_save_session sid' : mpreserves (manager_save_session sid').
Proof. intros w H. unfold manager_save_session. now destruct (sessions w !! sid'). Qed.

Lemma mpreserves_get_or_create_memory env sid' :
  (sid' = sid -> P None -> P (Some (SessionMemory.init sid "buffer" 10 None (now env)))) ->
  mpreserves (get_or_create_memory env sid').
Proof.
  intros Hn w H. unfold get_or_create_memory, mholds in *.
  destruct (session_memories w !! sid') eqn:E; simpl; [exact H|].
  rewrite lookup_insert. case_decide as E'; [|exact H].
  subst sid'. rewrite E in H. now apply Hn.
Qed.

Lemma mpreserves_on_memory sid' f :
  (sid' = sid -> forall m, P (Some m) -> P (Some (f m))) ->
  mpreserves (on_memory sid' f).
Proof.
  intros Hf w H. unfold on_memory, mholds in *. simpl.
  rewrite lookup_alter. case_decide as E; [|exact H].
  subst sid'. destruct (session_memories w !! sid) as [m|]; simpl; [|exact H].
  now apply Hf.
Qed.

End Invariant.

Create HintDb mpres_db.

Ltac mpres_step :=
  first
    [ solve [auto 3 with mpres_db]
    | apply mpreserves_ret
    | apply mpreserves_lift
    | apply mpreserves_raise
    | apply mpreserves_the_session
    | apply mpreserves_assign
    | apply mpreserves_manager_get_session
    | apply mpreserves_manager_save_session
    | apply mpreserves_bind; [|intros ?]
    | apply mpreserves_try_except; [|intros ?]
    | match goal with
      | |- MemoryJudgements.mpreserves _ _ (if ?b then _ else _) => destruct b eqn:?
      | |- MemoryJudgements.mpreserves _ _ (match ?x with _ => _ end) => destruct x eqn:?
      end
    | apply mpreserves_get_or_create_memory
    | apply mpreserves_on_memory
    | progress cbv zeta ].

Ltac mpres := repeat mpres_step.

Section Stable.
Context (sid sid' : string) (P : option SessionMemory.t -> Prop).

Lemma mstable_agent_process env agent_type q (o : option string) :
  mpreserves sid P (Agents.process env agent_type q o).
Proof.
  destruct o; unfold Agents.process, Agents.the_optional_session; mpres.
Qed.
Local Hint Resolve mstable_agent_process : mpres_db.

Lemma mstable_fallback q : mpreserves sid P (fallback q sid').
Proof. unfold fallback. mpres. Qed.
Local Hint Resolve mstable_fallback : mpres_db.

Lemma mstable_receive env email phone language :
  mpreserves sid P (receive env sid' email phone language).
Proof. unfold receive. mpres. Qed.
Local Hint Resolve mstable_receive : mpres_db.

Lemma mstable_agent_orchestrator_query env q (o : option string) :
  mpreserves sid P (AgentOrchestrator.process_query env q o).
Proof.
  unfold AgentOrchestrator.process_query.
  destruct o; unfold Agents.the_optional_session; mpres.
Qed.

(** The memory is created by [_get_or_create_memory] and given context
    by [add_system_context]. *)
Hypothesis P_new :
  sid' = sid -> forall now, P None -> P (Some (SessionMemory.init sid "buffer" 10 None now)).
Hypothesis P_context :
  sid' = sid ->
  forall c now m, P (Some m) -> P (Some (SessionMemory.add_system_context c now m)).

Lemma mstable_identify_employee env : mpreserves sid P (identify_employee env sid').
Proof. unfold identify_employee. mpres; auto. Qed.
Local Hint Resolve mstable_identify_employee : mpres_db.

Lemma mstable_get_initial_greeting env : mpreserves sid P (get_initial_greeting env sid').
Proof. unfold get_initial_greeting. mpres. Qed.
Local Hint Resolve mstable_get_initial_greeting : mpres_db.

Lemma mstable_greeting_turn env message : mpreserves sid P (greeting_turn env message sid').
Proof. unfold greeting_turn. mpres. Qed.
Local Hint Resolve mstable_greeting_turn : mpres_db.

Lemma mstable_classify_step env q : mpreserves sid P (classify_step env q sid').
Proof. unfold classify_step. mpres; auto. Qed.
Local Hint Resolve mstable_classify_step : mpres_db.

Section Messages.
(** Messages are added by [add_user_message] and [add_ai_message]. *)
Hypothesis P_user :
  sid' = sid ->
  forall q now m, P (Some m) -> P (Some (SessionMemory.add_user_message q now m)).
Hypothesis P_ai :
  sid' = sid ->
  forall r now m, P (Some m) -> P (Some (SessionMemory.add_ai_message r now m)).

Lemma mstable_delegate env q it : mpreserves sid P (delegate env q sid' it).
Proof. unfold delegate. mpres; auto. Qed.
Local Hint Resolve mstable_delegate : mpres_db.

Lemma mstable_process_query env q : mpreserves sid P (process_query env q sid').
Proof. unfold process_query. mpres; auto. Qed.
Local Hint Resolve mstable_process_query : mpres_db.

Lemma mstable_agent_turn env message : mpreserves sid P (agent_turn env message sid').
Proof. unfold agent_turn. mpres. Qed.
Local Hint Resolve mstable_agent_turn : mpres_db.

Lemma mstable_process_message env message email phone language :
  mpreserves sid P (process_message env message sid' email phone language).
Proof. unfold process_message. mpres. Qed.

End Messages.
End Stable.

Lemma mstable_run_call sid (P : option SessionMemory.t -> Prop) c :
  (forall now, P None -> P (Some (SessionMemory.init sid "buffer" 10 None now))) ->
  (forall c now m, P (Some m) -> P (Some (SessionMemory.add_system_context c now m))) ->
  (forall q now m, P (Some m) -> P (Some (SessionMemory.add_user_message q now m))) ->
  (forall r now m, P (Some m) -> P (Some (SessionMemory.add_ai_message r now m))) ->
  mpreserves sid P (run_call c).
Proof.
  intros Hn Hc Hu Ha.
  destruct c as [env message sid' email phone language | env query sid'
                | env sid' | env query session]; simpl.
  - apply mstable_process_message; auto.
  - apply mstable_process_query; auto.
  - apply mstable_get_initial_greeting; auto.
  - apply mstable_agent_orchestrator_query.
Qed.

End MemoryFacts.

(** ** What calls do to the two histories *)


Module TurnFacts.
Import PyStr PyExc SessionManager Runtime Replies Chains Judgements RuntimeFacts.
Import OrchestratorFacts Calls Updates StableFacts MemoryJudgements MemoryFacts Turns.
Import Scenarios Samples.
Import Properties GreetingFacts.
Import MEAgentOrchestrator.

Lemma receive_effect env sid email phone language w :
  wf (sessions w) ->
  exists w1,
    receive env sid email phone language w = (Ok tt, w1)
    /\ wf (sessions w1)
    /\ sessions w1 !! sid = Some (with_hints email phone language (session_at env sid w))
    /\ session_memories w1 = session_memories w.
Proof.
  intros Hwf.
  assert (Hwf1 : wf (sessions (snd (receive env sid email phone language w)))).
  { assert (H : holds sid (fun _ => True) (snd (receive env sid email phone language w))).
    { apply preserves_receive; try (intros; exact I). now split. }
    exact (proj1 H). }
  revert Hwf1.
  unfold receive, bind, manager_get_session, get_session, session_at, with_hints.
  destruct (sessions w !! sid) as [s|] eqn:E; simpl;
    destruct (truthy email); destruct (truthy phone); simpl;
    unfold the_session; simpl;
    rewrite ?lookup_alter_eq, ?lookup_insert_eq, ?E; simpl;
    match goal with
    | |- context [if ?b then _ else _] => destruct b
    end; simpl; intros Hwf1;
    eexists; (split; [reflexivity|]); simpl;
    rewrite ?lookup_alter_eq, ?lookup_insert_eq, ?E; simpl;
    (split; [exact Hwf1|]); split; reflexivity.
Qed.

Lemma mstable_run_calls sid (P : option SessionMemory.t -> Prop) calls w :
  (forall now, P None -> P (Some (SessionMemory.init sid "buffer" 10 None now))) ->
  (forall c now m, P (Some m) -> P (Some (SessionMemory.add_system_context c now m))) ->
  (forall q now m, P (Some m) -> P (Some (SessionMemory.add_user_message q now m))) ->
  (forall r now m, P (Some m) -> P (Some (SessionMemory.add_ai_message r now m))) ->
  mholds sid P w -> mholds sid P (run_calls calls w).
Proof.
  intros Hn Hc Hu Ha. revert w.
  induction calls as [|c cs IH]; intros w Hw; simpl; [exact Hw|].
  apply IH. now apply mstable_run_call.
Qed.

(** X2: The two histories only grow: whatever calls are made, for whatever
    session, the messages a session had are the first messages it has
    afterwards, and so for the chat history of its memory. *)
Theorem histories_are_append_only sid calls w :
  wf (sessions w) ->
  (forall s, sessions w !! sid = Some s ->
     exists s', sessions (run_calls calls w) !! sid = Some s'
                /\ messages s `prefix_of` messages s')
  /\ history_of (session_memories w !! sid)
       `prefix_of` history_of (session_memories (run_calls calls w) !! sid).
Proof.
  intros Hwf. split.
  - intros s Hs.
    pose (Q := fun o : option Session =>
                 exists s', o = Some s' /\ messages s `prefix_of` messages s').
    assert (H : holds sid Q (run_calls calls w)).
    { apply stable_run_calls.
      - intros s1 f _ Hf s0 (s2 & [= <-] & Hp).
        destruct Hf; (eexists; split; [reflexivity|exact Hp]).
      - intros s1 f _ Hf s0 (s2 & [= <-] & Hp).
        destruct Hf; (eexists; split; [reflexivity|]); try exact Hp.
        simpl. now apply prefix_app_r.
      - intros s1 f _ Hf s0 (s2 & [= <-] & Hp).
        destruct Hf; (eexists; split; [reflexivity|exact Hp]).
      - intros uuid now (s' & [=] & _).
      - split; [exact Hwf|]. exists s. split; [exact Hs|reflexivity]. }
    destruct H as [_ (s' & Hs' & Hp)]. now exists s'.
  - set (h := history_of (session_memories w !! sid)).
    apply (mstable_run_calls sid (fun o => h `prefix_of` history_of o)).
    + intros now H. exact H.
    + intros c now m H. exact H.
    + intros q now m H. simpl. now apply prefix_app_r.
    + intros r now m H. simpl. now apply prefix_app_r.
    + unfold mholds. reflexivity.
Qed.

(** Four calls for the session s1, on a store that holds it. *)
Lemma histories_are_append_only_witness :
  wf (sessions hardware_world)
  /\ (forall s, sessions hardware_world !! "s1" = Some s ->
        exists s', sessions (run_calls calls_for_s1 hardware_world) !! "s1" = Some s'
                   /\ messages s `prefix_of` messages s')
  /\ history_of (session_memories hardware_world !! "s1")
       `prefix_of` history_of (session_memories (run_calls calls_for_s1 hardware_world) !! "s1").
Proof.
  assert (H : wf (sessions hardware_world)) by (apply wf_insert; [reflexivity|apply wf_empty]).
  split; [exact H|]. apply (histories_are_append_only "s1" calls_for_s1 hardware_world H).
Defined.

Lemma history_is_query l : stable_under query_assigns (history_is l).
Proof.
  intros s f _ Hf s0 (s1 & [= <-] & H).
  destruct Hf; (eexists; split; [reflexivity|exact H]).
Qed.

Lemma bind_ok {A B} (m : M A) (k : A -> M B) w a w' :
  m w = (Ok a, w') -> bind m k w = k a w'.
Proof. intros E. unfold bind. now rewrite E. Qed.

Lemma bind_raise {A B} (m : M A) (k : A -> M B) w e w' :
  m w = (Raise e, w') -> bind m k w = (Raise e, w').
Proof. intros E. unfold bind. now rewrite E. Qed.

Lemma assign_stored sid f w s :
  (forall s, session_id (f s) = session_id s) ->
  wf (sessions w) -> sessions w !! sid = Some s ->
  exists w', assign sid f w = (Ok tt, w')
             /\ wf (sessions w') /\ sessions w' !! sid = Some (f s)
             /\ session_memories w' = session_memories w.
Proof.
  intros Hf Hwf Hs. eexists. split; [reflexivity|]. simpl.
  split; [now apply wf_alter|]. split; [|reflexivity].
  now rewrite lookup_alter_eq, Hs.
Qed.

Lemma save_stored sid w s :
  wf (sessions w) -> sessions w !! sid = Some s ->
  manager_save_session sid w = (Ok tt, w).
Proof.
  intros Hwf Hs. unfold manager_save_session, save_session. rewrite Hs.
  rewrite (Hwf _ _ Hs), (insert_id _ _ _ Hs). now destruct w.
Qed.


(** The greeting path: the greeting is returned, and the message and the
    greeting are appended to the history. *)
Lemma greeting_turn_records env message sid w s :
  wf (sessions w) -> sessions w !! sid = Some s ->
  exists greeting w' s',
    greeting_turn env message sid w = (Ok greeting, w')
    /\ wf (sessions w') /\ sessions w' !! sid = Some s'
    /\ messages s' = messages s ++ [user_message message; assistant_message greeting].
Proof.
  intros Hwf Hs.
  assert (H2 : holds sid (history_is (messages s)) (snd (get_initial_greeting env sid w))).
  { apply stable_get_initial_greeting.
    - intros _. apply history_is_query.
    - split; [exact Hwf|]. exists s. now split. }
  pose proof (get_initial_greeting_total env sid w) as Ht.
  destruct (get_initial_greeting env sid w) as [[g|e] w2] eqn:E2; [|discriminate Ht].
  simpl in H2. destruct H2 as [Hwf2 (s2 & Hs2 & Hm2)].
  destruct (assign_stored sid (set_greeted (Some true)) w2 s2) as (w3 & E3 & Hwf3 & Hs3 & _);
    [reflexivity|exact Hwf2|exact Hs2|].
  set (s3 := set_greeted (Some true) s2) in *.
  destruct (assign_stored sid (append_message (user_message message)) w3 s3)
    as (w4 & E4 & Hwf4 & Hs4 & _); [reflexivity|exact Hwf3|exact Hs3|].
  set (s4 := append_message (user_message message) s3) in *.
  destruct (assign_stored sid (append_message (assistant_message g)) w4 s4)
    as (w5 & E5 & Hwf5 & Hs5 & _); [reflexivity|exact Hwf4|exact Hs4|].
  exists g, w5. eexists. split; [|split; [exact Hwf5|split; [exact Hs5|]]].
  - unfold greeting_turn.
    rewrite (bind_ok _ _ _ _ _ E2), (bind_ok _ _ _ _ _ E3), (bind_ok _ _ _ _ _ E4),
      (bind_ok _ _ _ _ _ E5), (bind_ok _ _ _ _ _ (save_stored sid w5 _ Hwf5 Hs5)).
    reflexivity.
  - simpl. rewrite Hm2, <- app_assoc. reflexivity.
Qed.

(** The agent path: the message is appended to the history; the reply
    is appended when [process_query] returns one. *)
Lemma agent_turn_records env message sid w s :
  wf (sessions w) -> sessions w !! sid = Some s ->
  exists r w' s',
    agent_turn env message sid w = (r, w')
    /\ wf (sessions w') /\ sessions w' !! sid = Some s'
    /\ messages s' =
       messages s ++ user_message message
                     :: match r with
                        | Ok reply => [assistant_message reply]
                        | Raise _ => []
                        end.
Proof.
  intros Hwf Hs.
  destruct (assign_stored sid (append_message (user_message message)) w s)
    as (w1 & E1 & Hwf1 & Hs1 & _); [reflexivity|exact Hwf|exact Hs|].
  assert (H2 : holds sid (history_is (messages s ++ [user_message message]))
                 (snd (process_query env message sid w1))).
  { apply stable_process_query.
    - intros _. apply history_is_query.
    - split; [exact Hwf1|]. eexists. split; [exact Hs1|reflexivity]. }
  destruct (process_query env message sid w1) as [[r|e] w2] eqn:E2; simpl in H2;
    destruct H2 as [Hwf2 (s2 & Hs2 & Hm2)].
  - destruct (assign_stored sid (append_message (assistant_message r)) w2 s2)
      as (w3 & E3 & Hwf3 & Hs3 & _); [reflexivity|exact Hwf2|exact Hs2|].
    exists (Ok r), w3. eexists. split; [|split; [exact Hwf3|split; [exact Hs3|]]].
    + unfold agent_turn.
      rewrite (bind_ok _ _ _ _ _ E1), (bind_ok _ _ _ _ _ E2), (bind_ok _ _ _ _ _ E3),
        (bind_ok _ _ _ _ _ (save_stored sid w3 _ Hwf3 Hs3)).
      reflexivity.
    + simpl. rewrite Hm2, <- app_assoc. reflexivity.
  - exists (Raise e), w2, s2. split; [|split; [exact Hwf2|split; [exact Hs2|]]].
    + unfold agent_turn.
      rewrite (bind_ok _ _ _ _ _ E1), (bind_raise _ _ _ _ _ E2). reflexivity.
    + rewrite Hm2. reflexivity.
Qed.

(** X5: What one turn of [process_message] does to the history of its
    session: the reply is always returned; on the greeting path and on
    the agent path the user's message and the reply are appended, in
    this order; when the agent path fails altogether the reply is the
    apology and only the user's message has been appended. *)
Theorem turn_extends_history t w :
  wf (sessions w) ->
  let old := messages (session_at (t_env t) (t_sid t) w) in
  exists reply s',
    fst (turn t w) = Ok reply
    /\ sessions (step t w) !! t_sid t = Some s'
    /\ (messages s' = old ++ [user_message (t_message t); assistant_message reply]
        \/ (greets t w = false /\ reply = apology
            /\ messages s' = old ++ [user_message (t_message t)])).
Proof.
  intros Hwf old. unfold step. rewrite process_message_path.
  destruct t as [env message sid email phone language]. simpl in *.
  destruct (receive_effect env sid email phone language w Hwf) as (w1 & Hr & Hwf1 & Hs1 & _).
  assert (Hold : messages (with_hints email phone language (session_at env sid w)) = old).
  { unfold with_hints. repeat (match goal with |- context [if ?b then _ else _] => destruct b end);
      reflexivity. }
  destruct (greets _ w) eqn:Hg.
  - unfold via_greeting_path, try_except, bind. simpl. rewrite Hr.
    destruct (greeting_turn_records env message sid w1 _ Hwf1 Hs1)
      as (g & w2 & s2 & -> & _ & Hs2 & Hm2).
    exists g, s2. simpl. split; [reflexivity|]. split; [exact Hs2|].
    left. now rewrite Hm2, Hold.
  - unfold via_agent_path, try_except, bind. simpl. rewrite Hr.
    destruct (agent_turn_records env message sid w1 _ Hwf1 Hs1)
      as (r & w2 & s2 & -> & _ & Hs2 & Hm2).
    destruct r as [r|e]; simpl.
    + exists r, s2. split; [reflexivity|]. split; [exact Hs2|].
      left. now rewrite Hm2, Hold.
    + exists apology, s2. split; [reflexivity|]. split; [exact Hs2|].
      right. now rewrite Hm2, Hold.
Qed.

(** A turn about a broken laptop on a session with an empty history. *)
Lemma turn_extends_history_witness :
  wf (sessions hardware_world)
  /\ exists reply s',
       fst (turn laptop_turn hardware_world) = Ok reply
       /\ sessions (step laptop_turn hardware_world) !! "s1" = Some s'
       /\ (messages s' = [user_message "my laptop is broken"; assistant_message reply]
           \/ (greets laptop_turn hardware_world = false /\ reply = apology
               /\ messages s' = [user_message "my laptop is broken"])).
Proof.
  assert (H : wf (sessions hardware_world)) by (apply wf_insert; [reflexivity|apply wf_empty]).
  split; [exact H|]. exact (turn_extends_history laptop_turn hardware_world H).
Defined.

End TurnFacts.

(** ** What a turn does to the memory *)


Module MemoryTurnFacts.
Import PyStr PyExc SessionManager Runtime Replies Chains Judgements RuntimeFacts.
Import OrchestratorFacts Calls Updates StableFacts MemoryJudgements MemoryFacts Turns.
Import Properties GreetingFacts TurnFacts.
Import Scenarios Samples AgentPath.
Import MEAgentOrchestrator.

Lemma try_ok {A} (m : M A) (h : string -> M A) w a w' :
  m w = (Ok a, w') -> try_except m h w = (Ok a, w').
Proof. intros E. unfold try_except. now rewrite E. Qed.

Lemma try_raise {A} (m : M A) (h : string -> M A) w e w' :
  m w = (Raise e, w') -> try_except m h w = h e w'.
Proof. intros E. unfold try_except. now rewrite E. Qed.

Lemma fallback_same_employee q s s' it et :
  employee_info s' = employee_info s ->
  generate_fallback_response q (Some s') it et = generate_fallback_response q (Some s) it et.
Proof.
  intros H. unfold generate_fallback_response, fallback_greeting. simpl. now rewrite H.
Qed.

Lemma agent_reply_as_same env q it s s' :
  employee_info s' = employee_info s -> agent_id s' = agent_id s ->
  agent_reply_as env q it s' = agent_reply_as env q it s.
Proof.
  intros He Ha. unfold agent_reply_as. rewrite He, Ha.
  destruct (if negb (truthy (agent_id s)) then _ else _); [|reflexivity].
  destruct (agent_executor_run env _ _ q); [reflexivity|].
  now apply fallback_same_employee.
Qed.


Lemma delegate_exact env q sid it w s m :
  stored sid s m w ->
  exists w' s' m',
    delegate env q sid it w = (agent_reply_as env q it s, w')
    /\ stored sid s' m' w'
    /\ employee_info s' = employee_info s
    /\ messages s' = messages s
    /\ SessionMemory.chat_history m'
       = SessionMemory.chat_history m
         ++ match agent_reply_as env q it s with Ok r => [ai r] | Raise _ => [] end.
Proof.
  intros (Hwf & Hs & Hm). unfold delegate, agent_reply_as. cbv zeta.
  assert (Es : the_session sid w = (Ok s, w)) by (unfold the_session; now rewrite Hs).
  rewrite (bind_ok _ _ _ _ _ Es).
  set (agent := if mem it agents then it else default_agent).
  (* the agent look-up *)
  assert (H1 : match (if negb (truthy (agent_id s))
                      then find_agent_by_specialization env it else Ok None) with
               | Raise e =>
                   (if negb (truthy (agent_id s))
                    then bind (lift (find_agent_by_specialization env it))
                           (fun agent_info =>
                              if truthy_dict agent_info
                              then assign sid (set_agent_id (agent_info ≫= (.!! "agent_id")))
                              else ret tt)
                    else ret tt) w = (Raise e, w)
               | Ok _ =>
                   exists w1 s1,
                     (if negb (truthy (agent_id s))
                      then bind (lift (find_agent_by_specialization env it))
                             (fun agent_info =>
                                if truthy_dict agent_info
                                then assign sid (set_agent_id (agent_info ≫= (.!! "agent_id")))
                                else ret tt)
                      else ret tt) w = (Ok tt, w1)
                     /\ stored sid s1 m w1
                     /\ employee_info s1 = employee_info s /\ messages s1 = messages s
               end).
  { destruct (negb (truthy (agent_id s))).
    - unfold bind, lift. destruct (find_agent_by_specialization env it) as [info|e]; [|reflexivity].
      destruct (truthy_dict info).
      + destruct (assign_stored sid (set_agent_id (info ≫= (.!! "agent_id"))) w s)
          as (w1 & E1 & Hwf1 & Hs1 & Hm1); [reflexivity|exact Hwf|exact Hs|].
        exists w1, (set_agent_id (info ≫= (.!! "agent_id")) s).
        split; [exact E1|]. split; [|split; reflexivity].
        split; [exact Hwf1|]. split; [exact Hs1|]. now rewrite Hm1.
      + exists w, s. repeat split; assumption.
    - exists w, s. repeat split; assumption. }
  destruct (if negb (truthy (agent_id s)) then find_agent_by_specialization env it else Ok None)
    as [info|e].
  2:{ rewrite (bind_raise _ _ _ _ _ H1). exists w, s, m.
      split; [reflexivity|]. split; [repeat split; assumption|].
      split; [reflexivity|]. split; [reflexivity|]. now rewrite app_nil_r. }
  destruct H1 as (w1 & s1 & E1 & (Hwf1 & Hs1 & Hm1) & He1 & Hmsg1).
  rewrite (bind_ok _ _ _ _ _ E1).
  (* the agent *)
  assert (E2 : Agents.process env agent q (Some sid) w1
               = (match agent_executor_run env agent
                          (if truthy_dict (employee_info s) then employee_info s else None) q with
                  | Ok response => Ok response
                  | Raise _ => generate_fallback_response q (Some s) (Some agent) None
                  end, w1)).
  { unfold Agents.process, Agents.the_optional_session, bind, the_session, ret, lift.
    rewrite Hs1. simpl. rewrite He1.
    destruct (agent_executor_run env agent _ q); [reflexivity|].
    now rewrite (fallback_same_employee q s s1). }
  destruct (match agent_executor_run env agent _ q with
            | Ok response => Ok response
            | Raise _ => generate_fallback_response q (Some s) (Some agent) None
            end) as [response|e].
  2:{ rewrite (bind_raise _ _ _ _ _ E2). exists w1, s1, m.
      split; [reflexivity|]. split; [repeat split; assumption|].
      split; [exact He1|]. split; [exact Hmsg1|]. now rewrite app_nil_r. }
  rewrite (bind_ok _ _ _ _ _ E2).
  unfold bind at 1, on_memory at 1.
  set (w3 := {| sessions := sessions w1;
                session_memories := alter (SessionMemory.add_ai_message response (now env))
                                      sid (session_memories w1) |}).
  assert (Es3 : the_session sid w3 = (Ok s1, w3)).
  { unfold the_session. simpl. now rewrite Hs1. }
  rewrite (bind_ok _ _ _ _ _ Es3).
  match goal with
  | |- context [bind ?k _ w3] => assert (E4 : k w3 = (Ok tt, w3))
  end.
  { destruct (truthy (employee_id s1) && truthy (agent_id s1)); [|reflexivity].
    unfold try_except, lift.
    destruct (log_conversation_to_db env _ _ _ _ _ _) as [[]|]; reflexivity. }
  rewrite (bind_ok _ _ _ _ _ E4).
  exists w3, s1, (SessionMemory.add_ai_message response (now env) m).
  split; [reflexivity|]. split.
  { split; [exact Hwf1|]. split; [exact Hs1|]. simpl. now rewrite lookup_alter_eq, Hm1. }
  split; [exact He1|]. split; [exact Hmsg1|]. reflexivity.
Qed.

Lemma classify_step_exact env q sid w s m :
  stored sid s m w ->
  exists w' s' m',
    classify_step env q sid w = (Ok (issue_type_for env q s), w')
    /\ stored sid s' m' w'
    /\ employee_info s' = employee_info s /\ agent_id s' = agent_id s
    /\ messages s' = messages s
    /\ SessionMemory.chat_history m' = SessionMemory.chat_history m.
Proof.
  intros (Hwf & Hs & Hm). unfold classify_step, issue_type_for.
  assert (Es : the_session sid w = (Ok s, w)) by (unfold the_session; now rewrite Hs).
  rewrite (bind_ok _ _ _ _ _ Es).
  destruct (unclassified s).
  - set (it := classify_issue_type env q).
    destruct (assign_stored sid (set_issue_type (Some it)) w s)
      as (w1 & E1 & Hwf1 & Hs1 & Hm1); [reflexivity|exact Hwf|exact Hs|].
    rewrite (bind_ok _ _ _ _ _ E1). unfold bind, on_memory, ret.
    eexists _, _, _. split; [reflexivity|]. split.
    { split; [exact Hwf1|]. split; [exact Hs1|]. simpl.
      now rewrite lookup_alter_eq, Hm1, Hm. }
    repeat split.
  - exists w, s, m. repeat split; assumption.
Qed.

Lemma process_query_exact env q sid w s :
  wf (sessions w) -> sessions w !! sid = Some s ->
  let h := history_of (session_memories w !! sid) in
  exists w' s',
    wf (sessions w') /\ sessions w' !! sid = Some s' /\ messages s' = messages s
    /\ match agent_reply env q s with
       | Ok reply =>
           process_query env q sid w = (Ok reply, w')
           /\ history_of (session_memories w' !! sid) = h ++ [human q; ai reply]
       | Raise _ =>
           process_query env q sid w = (generate_fallback_response q (Some s) None None, w')
           /\ history_of (session_memories w' !! sid) = h ++ [human q]
       end.
Proof.
  intros Hwf Hs h.
  assert (H2 : exists w2 m2,
             bind (get_or_create_memory env sid)
                  (fun _ => on_memory sid (SessionMemory.add_user_message q (now env))) w
             = (Ok tt, w2)
             /\ stored sid s m2 w2
             /\ SessionMemory.chat_history m2 = h ++ [human q]).
  { unfold bind, get_or_create_memory, on_memory, stored. subst h.
    destruct (session_memories w !! sid) as [m|] eqn:Em; simpl;
      eexists _, _; (split; [reflexivity|]); simpl;
      rewrite ?lookup_alter_eq, ?lookup_insert_eq, ?Em; simpl;
      (split; [split; [exact Hwf|split; [exact Hs|reflexivity]]|reflexivity]). }
  destruct H2 as (w2 & m2 & E2 & H2 & Hh2).
  assert (Ebody : forall (k : M string),
             bind (get_or_create_memory env sid)
               (fun _ => bind (on_memory sid (SessionMemory.add_user_message q (now env)))
                           (fun _ => k)) w
             = k w2).
  { intros k. revert E2. unfold bind.
    destruct (get_or_create_memory env sid w) as [[[]|e] w1]; [|discriminate].
    destruct (on_memory sid _ w1) as [[[]|e] w2']; [|discriminate].
    now intros [= ->]. }
  destruct (classify_step_exact env q sid w2 s m2 H2)
    as (w3 & s3 & m3 & E3 & H3 & He3 & Ha3 & Hmsg3 & Hh3).
  destruct (delegate_exact env q sid (issue_type_for env q s) w3 s3 m3 H3)
    as (w4 & s4 & m4 & E4 & (Hwf4 & Hs4 & Hm4) & He4 & Hmsg4 & Hh4).
  rewrite (agent_reply_as_same env q _ s s3 He3 Ha3) in E4, Hh4.
  fold (agent_reply env q s) in E4, Hh4.
  exists w4, s4. split; [exact Hwf4|]. split; [exact Hs4|].
  split; [now rewrite Hmsg4, Hmsg3|].
  unfold process_query.
  destruct (agent_reply env q s) as [reply|e].
  - split.
    + apply try_ok. rewrite Ebody, (bind_ok _ _ _ _ _ E3). exact E4.
    + rewrite Hm4. simpl. rewrite Hh4, Hh3, Hh2, <- app_assoc. reflexivity.
  - split.
    + rewrite (try_raise _ _ w e w4).
      2:{ rewrite Ebody, (bind_ok _ _ _ _ _ E3). exact E4. }
      unfold fallback, bind, the_session, lift. rewrite Hs4.
      f_equal. apply fallback_same_employee. now rewrite He4, He3.
    + rewrite Hm4. simpl. now rewrite Hh4, Hh3, Hh2, app_nil_r.
Qed.

(** X6: What one turn of [process_message] does to the chat history of the
    session's memory.  On the greeting path nothing is added: the
    message and the greeting go to the session's history only.  On the
    agent path the user's message is added, and after it the reply
    exactly when the agent gave one: the executor's answer, or the
    agent's own fallback text when the executor raised.  When the agent
    gave none (the agent look-up raised, or the agent's fallback did)
    the reply is the fallback text of [process_query] or the apology,
    and it is not added. *)
Theorem turn_extends_memory t w :
  wf (sessions w) ->
  let s := with_hints (t_email t) (t_phone t) (t_language t)
             (session_at (t_env t) (t_sid t) w) in
  let h := history_of (session_memories w !! t_sid t) in
  let h' := history_of (session_memories (step t w) !! t_sid t) in
  if greets t w then h' = h
  else match agent_reply (t_env t) (t_message t) s with
       | Ok reply =>
           fst (turn t w) = Ok reply
           /\ h' = h ++ [human (t_message t); ai reply]
       | Raise _ =>
           fst (turn t w) = Ok (reply_without_agent (t_message t) s)
           /\ h' = h ++ [human (t_message t)]
       end.
Proof.
  intros Hwf s h h'. subst h'. unfold step. rewrite process_message_path.
  destruct t as [env message sid email phone language]. simpl in *.
  destruct (receive_effect env sid email phone language w Hwf) as (w1 & Hr & Hwf1 & Hs1 & Hm1).
  fold s in Hs1.
  destruct (greets _ w) eqn:Hg.
  - unfold via_greeting_path, try_except, bind. simpl. rewrite Hr.
    assert (H : mholds sid (fun o => history_of o = h)
                  (snd (greeting_turn env message sid w1))).
    { apply (mstable_greeting_turn sid sid); try (intros; assumption).
      unfold mholds. now rewrite Hm1. }
    destruct (greeting_turn env message sid w1) as [[g|e] w2]; exact H.
  - unfold via_agent_path. simpl.
    destruct (assign_stored sid (append_message (user_message message)) w1 s)
      as (w2 & E2 & Hwf2 & Hs2 & Hm2); [reflexivity|exact Hwf1|exact Hs1|].
    destruct (process_query_exact env message sid w2 _ Hwf2 Hs2)
      as (w3 & s3 & Hwf3 & Hs3 & _ & H3).
    rewrite Hm2, Hm1 in H3. fold h in H3.
    assert (Hsame : forall it et,
               generate_fallback_response message
                 (Some (append_message (user_message message) s)) it et
               = generate_fallback_response message (Some s) it et).
    { intros. now apply fallback_same_employee. }
    assert (Hreply : agent_reply env message (append_message (user_message message) s)
                     = agent_reply env message s).
    { unfold agent_reply. apply agent_reply_as_same; reflexivity. }
    rewrite Hreply, Hsame in H3.
    unfold agent_turn. unfold reply_without_agent.
    destruct (agent_reply env message s) as [reply|e]; destruct H3 as [E3 Hh3].
    + destruct (assign_stored sid (append_message (assistant_message reply)) w3 s3)
        as (w4 & E4 & Hwf4 & Hs4 & Hm4); [reflexivity|exact Hwf3|exact Hs3|].
      rewrite (try_ok _ _ w reply w4).
      2:{ rewrite (bind_ok _ _ _ _ _ Hr), (bind_ok _ _ _ _ _ E2), (bind_ok _ _ _ _ _ E3),
            (bind_ok _ _ _ _ _ E4), (bind_ok _ _ _ _ _ (save_stored sid w4 _ Hwf4 Hs4)).
          reflexivity. }
      simpl. rewrite Hm4. now split.
    + destruct (generate_fallback_response message (Some s) None None) as [text|e'].
      * destruct (assign_stored sid (append_message (assistant_message text)) w3 s3)
          as (w4 & E4 & Hwf4 & Hs4 & Hm4); [reflexivity|exact Hwf3|exact Hs3|].
        rewrite (try_ok _ _ w text w4).
        2:{ rewrite (bind_ok _ _ _ _ _ Hr), (bind_ok _ _ _ _ _ E2), (bind_ok _ _ _ _ _ E3),
              (bind_ok _ _ _ _ _ E4), (bind_ok _ _ _ _ _ (save_stored sid w4 _ Hwf4 Hs4)).
            reflexivity. }
        simpl. rewrite Hm4. now split.
      * rewrite (try_raise _ _ w e' w3).
        2:{ rewrite (bind_ok _ _ _ _ _ Hr), (bind_ok _ _ _ _ _ E2),
              (bind_raise _ _ _ _ _ E3). reflexivity. }
        simpl. now split.
Qed.

(** The turn about a broken laptop, on a session classified as Hardware
    whose memory is empty: with every collaborator up, with the model
    down, and with every collaborator down. *)
Lemma turn_extends_memory_witness :
  let after t := history_of (session_memories (step t hardware_world) !! "s1") in
  let hardware_text :=
    "Hello, " +:+ fallback_body "my laptop is broken" (Some "Hardware") in
  let general_text := "Hello, " +:+ fallback_body "my laptop is broken" None in
  wf (sessions hardware_world)
  /\ (fst (turn laptop_turn hardware_world) = Ok "Let me help."
      /\ after laptop_turn = [human "my laptop is broken"; ai "Let me help."])
  /\ (fst (turn model_down_turn hardware_world) = Ok hardware_text
      /\ after model_down_turn = [human "my laptop is broken"; ai hardware_text])
  /\ (fst (turn outage_turn hardware_world) = Ok general_text
      /\ after outage_turn = [human "my laptop is broken"]).
Proof.
  assert (H : wf (sessions hardware_world)) by (apply wf_insert; [reflexivity|apply wf_empty]).
  cbv zeta. split; [exact H|]. split; [|split].
  - exact (turn_extends_memory laptop_turn hardware_world H).
  - exact (turn_extends_memory model_down_turn hardware_world H).
  - exact (turn_extends_memory outage_turn hardware_world H).
Defined.

End MemoryTurnFacts.

(** ** What calls keep of a session *)


Module SettledFacts.
Import PyStr PyExc SessionManager Runtime Replies Chains Judgements RuntimeFacts.
Import OrchestratorFacts Calls Updates StableFacts MemoryJudgements MemoryFacts Turns.
Import Properties GreetingFacts TurnFacts.
Import Scenarios Samples.
Import MEAgentOrchestrator.

Lemma settled_refl s : settled s s.
Proof. repeat split. Qed.

Lemma settled_query s : stable_under query_assigns (fun o => exists s', o = Some s' /\ settled s s').
Proof.
  intros s1 f (s1' & [= <-] & H1) Hf s0 (s2 & [= <-] & H0).
  eexists. split; [reflexivity|].
  destruct H1 as (_ & _ & _ & _ & He1 & Ha1 & _).
  destruct H0 as (? & ? & ? & ? & He & Ha & Hl).
  destruct Hf as [v Hg | v Hg | v Hg | v Hg | v Hg]; simpl;
    (split; [assumption|]); (split; [assumption|]); (split; [assumption|]);
    (split; [assumption|]); (split; [|split]); try assumption;
    intros Ht; exfalso.
  - destruct (He1 Ht) as (E & _). rewrite E, Ht in Hg. discriminate.
  - destruct (He1 Ht) as (E & _). rewrite E, Ht in Hg. discriminate.
  - destruct (He1 Ht) as (E & _). rewrite E, Ht in Hg. discriminate.
  - rewrite (Ha1 Ht), Ht in Hg. discriminate.
Qed.

Lemma settled_record s :
  stable_under record_assigns (fun o => exists s', o = Some s' /\ settled s s').
Proof.
  intros s1 f _ Hf s0 (s2 & [= <-] & H0).
  eexists. split; [reflexivity|]. destruct Hf; exact H0.
Qed.

Lemma settled_receive s :
  stable_under receive_assigns (fun o => exists s', o = Some s' /\ settled s s').
Proof.
  intros s1 f (s1' & [= <-] & H1) Hf s0 (s2 & [= <-] & H0).
  eexists. split; [reflexivity|].
  destruct H1 as (_ & _ & _ & _ & _ & _ & Hl1).
  destruct H0 as (? & ? & ? & ? & He & Ha & Hl).
  destruct Hf as [v | v | v Hg]; simpl;
    (split; [assumption|]); (split; [assumption|]); (split; [assumption|]);
    (split; [assumption|]); (split; [|split]); try assumption.
  intros Hn. exfalso. rewrite (Hl1 Hn) in Hg. contradiction.
Qed.

(** X7: What is settled stays: whatever calls are made, for whatever
    session, a stored session keeps its ids and its two timestamps; the
    employee it was identified as, with the record and the devices, once
    [employee_id] is set; the agent id once it is set; and the language
    once it has one. *)
Theorem settled_attributes_stay sid calls w s :
  wf (sessions w) -> sessions w !! sid = Some s ->
  exists s', sessions (run_calls calls w) !! sid = Some s' /\ settled s s'.
Proof.
  intros Hwf Hs.
  assert (H : holds sid (fun o => exists s', o = Some s' /\ settled s s') (run_calls calls w)).
  { apply stable_run_calls.
    - apply settled_query.
    - apply settled_record.
    - apply settled_receive.
    - intros uuid now (s' & [=] & _).
    - split; [exact Hwf|]. exists s. split; [exact Hs|apply settled_refl]. }
  exact (proj2 H).
Qed.

(** Four calls for the session s1: its ids and timestamps are those of
    the stored session. *)
Lemma settled_attributes_stay_witness :
  wf (sessions hardware_world)
  /\ sessions hardware_world !! "s1" = Some hardware_session
  /\ exists s', sessions (run_calls calls_for_s1 hardware_world) !! "s1" = Some s'
                /\ settled hardware_session s'.
Proof.
  assert (H : wf (sessions hardware_world)) by (apply wf_insert; [reflexivity|apply wf_empty]).
  split; [exact H|]. split; [reflexivity|].
  apply (settled_attributes_stay "s1" calls_for_s1 hardware_world hardware_session H).
  reflexivity.
Defined.

Lemma different_id (sid : string) : String "x" sid <> sid.
Proof.
  intros E. apply (f_equal String.length) in E. simpl in E. lia.
Qed.

Lemma other_call_keeps_session sid (v : option Session) c :
  call_session c <> Some sid -> preserves sid (fun o => o = v) (run_call c).
Proof.
  intros Hc.
  destruct c as [env message sid' email phone language | env query sid'
                | env sid' | env query session]; simpl in *.
  - assert (Hne : sid' <> sid) by congruence.
    apply stable_process_message; intros E; contradiction.
  - assert (Hne : sid' <> sid) by congruence.
    apply stable_process_query; intros E; contradiction.
  - assert (Hne : sid' <> sid) by congruence.
    apply stable_get_initial_greeting; intros E; contradiction.
  - destruct session as [sid'|].
    + assert (Hne : sid' <> sid) by congruence.
      apply (stable_agent_orchestrator_query sid sid'); [intros E; contradiction|now right].
    + apply (stable_agent_orchestrator_query sid (String "x" sid)); [|now left].
      intros E. now apply different_id in E.
Qed.

Lemma other_call_keeps_memory sid (v : option SessionMemory.t) c :
  call_session c <> Some sid -> mpreserves sid (fun o => o = v) (run_call c).
Proof.
  intros Hc.
  destruct c as [env message sid' email phone language | env query sid'
                | env sid' | env query session]; simpl in *.
  - assert (Hne : sid' <> sid) by congruence.
    apply (mstable_process_message sid sid'); intros E; contradiction.
  - assert (Hne : sid' <> sid) by congruence.
    apply (mstable_process_query sid sid'); intros E; contradiction.
  - assert (Hne : sid' <> sid) by congruence.
    apply (mstable_get_initial_greeting sid sid'); intros E; contradiction.
  - apply mstable_agent_orchestrator_query.
Qed.

(** X8: Calls made for other sessions leave a session and its memory as they
    are. *)
Theorem other_sessions_untouched sid calls w :
  wf (sessions w) ->
  (forall c, In c calls -> call_session c <> Some sid) ->
  sessions (run_calls calls w) !! sid = sessions w !! sid
  /\ session_memories (run_calls calls w) !! sid = session_memories w !! sid.
Proof.
  revert w. induction calls as [|c cs IH]; intros w Hwf Hcs; simpl; [now split|].
  assert (Hc : call_session c <> Some sid) by (apply Hcs; now left).
  destruct (other_call_keeps_session sid (sessions w !! sid) c Hc w) as [Hwf1 Hs1];
    [now split|].
  pose proof (other_call_keeps_memory sid (session_memories w !! sid) c Hc w eq_refl) as Hm1.
  unfold mholds in Hm1.
  destruct (IH (snd (run_call c w)) Hwf1) as [Hs Hm].
  { intros c' Hin. apply Hcs. now right. }
  split; [now rewrite Hs | now rewrite Hm].
Qed.

(** Three calls for the session s2, one of them without a session id,
    leave the session s1 as stored and without a memory. *)
Lemma other_sessions_untouched_witness :
  wf (sessions hardware_world)
  /\ (forall c, In c calls_for_s2 -> call_session c <> Some "s1")
  /\ sessions (run_calls calls_for_s2 hardware_world) !! "s1" = Some hardware_session
  /\ session_memories (run_calls calls_for_s2 hardware_world) !! "s1" = None.
Proof.
  assert (H : wf (sessions hardware_world)) by (apply wf_insert; [reflexivity|apply wf_empty]).
  assert (Hc : forall c, In c calls_for_s2 -> call_session c <> Some "s1")
    by (intros c [<-|[<-|[<-|[]]]]; simpl; discriminate).
  split; [exact H|]. split; [exact Hc|].
  exact (other_sessions_untouched "s1" calls_for_s2 hardware_world H Hc).
Defined.

Lemma contact_is_query e n l : stable_under query_assigns (contact_is e n l).
Proof.
  intros s f _ Hf s0 (s1 & [= <-] & H).
  destruct Hf; (eexists; split; [reflexivity|exact H]).
Qed.

Lemma contact_is_record e n l : stable_under record_assigns (contact_is e n l).
Proof.
  intros s f _ Hf s0 (s1 & [= <-] & H).
  destruct Hf; (eexists; split; [reflexivity|exact H]).
Qed.

(** X9: The contact hints of a turn replace what the session had: an e-mail
    or a phone number given with the message (not empty) is what the
    session holds afterwards, whatever it held before; without one the
    stored value stays.  The language is taken only by a session that
    has none. *)
Theorem contact_hints_replace t w :
  wf (sessions w) ->
  let s0 := session_at (t_env t) (t_sid t) w in
  exists s',
    sessions (step t w) !! t_sid t = Some s'
    /\ customer_email s' = (if truthy (t_email t) then t_email t else customer_email s0)
    /\ customer_number s' = (if truthy (t_phone t) then t_phone t else customer_number s0)
    /\ language s' = (if truthy (t_language t) && bool_decide (language s0 = None)
                      then t_language t else language s0).
Proof.
  intros Hwf s0. destruct t as [env message sid email phone lang]. simpl in *.
  destruct (receive_effect env sid email phone lang w Hwf) as (w1 & Hr & Hwf1 & Hs1 & _).
  fold s0 in Hs1. set (s1 := with_hints email phone lang s0) in *.
  assert (H1 : holds sid (contact_is (customer_email s1) (customer_number s1) (language s1)) w1).
  { split; [exact Hwf1|]. exists s1. repeat split. exact Hs1. }
  assert (H2 : holds sid (contact_is (customer_email s1) (customer_number s1) (language s1))
                 (step {| t_env := env; t_message := message; t_sid := sid;
                          t_email := email; t_phone := phone; t_language := lang |} w)).
  { unfold step, turn, process_message, try_except. simpl.
    rewrite (bind_ok _ _ _ _ _ Hr). unfold bind, the_session. rewrite Hs1.
    match goal with
    | |- holds _ _ (snd (let (_, _) := ?m w1 in _)) =>
        assert (Hm : preserves sid (contact_is (customer_email s1) (customer_number s1)
                                      (language s1)) m);
          [|specialize (Hm w1 H1); destruct (m w1) as [[r|e] w2]; exact Hm]
    end.
    destruct (takes_greeting_path s1 message).
    - apply stable_greeting_turn.
      + intros _. apply contact_is_query.
      + intros _. apply contact_is_record.
      + intros _ s2 (s3 & [= <-] & H). eexists. split; [reflexivity|exact H].
    - apply stable_agent_turn.
      + intros _. apply contact_is_query.
      + intros _. apply contact_is_record. }
  destruct H2 as [_ (s' & Hs' & He & Hn & Hl)].
  exists s'. split; [exact Hs'|]. rewrite He, Hn, Hl. subst s1. unfold with_hints.
  destruct (truthy email), (truthy phone); simpl;
    match goal with |- context [if ?b then _ else _] => destruct b end;
    repeat split.
Qed.

(** A turn with an e-mail address and a language but no phone number. *)
Lemma contact_hints_replace_witness :
  wf (sessions mail_world)
  /\ exists s',
       sessions (step laptop_turn mail_world) !! "s1" = Some s'
       /\ customer_email s' = Some "ada@example.com"
       /\ customer_number s' = None
       /\ language s' = Some "english".
Proof.
  assert (H : wf (sessions mail_world)) by (apply wf_insert; [reflexivity|apply wf_empty]).
  split; [exact H|]. exact (contact_hints_replace laptop_turn mail_world H).
Defined.

End SettledFacts.

(** ** Identifying the employee *)


Module IdentificationFacts.
Import PyStr PyExc SessionManager Runtime Replies Judgements RuntimeFacts.
Import MemoryJudgements Turns TurnFacts.
Import Scenarios Samples.
Import MEAgentOrchestrator.

Lemma greeting_changes_what_identification_changes env sid w :
  snd (get_initial_greeting env sid w) = snd (identify_employee env sid w).
Proof.
  unfold get_initial_greeting, try_except. unfold bind at 1.
  destruct (identify_employee env sid w) as [[[]|e] w1]; [|reflexivity].
  unfold bind, the_session. simpl.
  destruct (sessions w1 !! sid) as [s1|]; [|reflexivity].
  destruct (truthy_dict (employee_info s1)).
  - unfold lift, ret. destruct (split_first _); [|reflexivity].
    destruct (greeting_chain_new env); reflexivity.
  - unfold lift. destruct (generate_initial_greeting _ _); reflexivity.
Qed.

(** X10: Identifying the employee.  For a session without an employee id,
    when a look-up by the session's e-mail or phone number finds an
    employee and the devices are fetched, [get_initial_greeting] leaves
    the employee's id, record and devices in the session, and in the
    session's memory: every field of the record is in [user_info],
    beside the fields [user_info] had under other keys, the devices
    replace [device_info], and the chat history and the issue data are
    as they were. *)
Theorem identification_is_recorded env sid w s employee found_devices :
  sessions w !! sid = Some s ->
  truthy (employee_id s) = false ->
  look_up env s = Ok (Some employee) ->
  employee <> ∅ ->
  get_employee_devices env employee = Ok found_devices ->
  let w' := snd (get_initial_greeting env sid w) in
  let old := session_memories w !! sid in
  exists s' m',
    sessions w' !! sid = Some s'
    /\ employee_id s' = employee !! "employee_id"
    /\ employee_info s' = Some employee
    /\ devices s' = found_devices
    /\ session_memories w' !! sid = Some m'
    /\ (forall k v, employee !! k = Some v ->
          SessionMemory.user_info (SessionMemory.session_data m') !! k = Some v)
    /\ (forall k, employee !! k = None ->
          SessionMemory.user_info (SessionMemory.session_data m') !! k
          = old ≫= (fun m => SessionMemory.user_info (SessionMemory.session_data m) !! k))
    /\ SessionMemory.device_info (SessionMemory.session_data m') = found_devices
    /\ SessionMemory.chat_history m' = history_of old
    /\ SessionMemory.issue_data (SessionMemory.session_data m')
       = default ∅ (SessionMemory.issue_data <$> (SessionMemory.session_data <$> old)).
Proof.
  intros Hs Hid Hlook Hne Hdev w' old.
  assert (Htruthy : truthy_dict (Some employee) = true).
  { simpl. apply negb_true_iff, bool_decide_eq_false. exact Hne. }
  assert (Hcontact : truthy (customer_email s) || truthy (customer_number s) = true).
  { unfold look_up in Hlook. destruct (truthy (customer_email s)); [reflexivity|].
    simpl in *. destruct (truthy (customer_number s)); [reflexivity|]. discriminate. }
  assert (Hw' : w' =
            {| sessions :=
                 alter (set_devices found_devices) sid
                   (alter (set_employee_info (Some employee)) sid
                      (alter (set_employee_id (employee !! "employee_id")) sid (sessions w)));
               session_memories :=
                 alter (SessionMemory.add_system_context
                          (employee_context employee found_devices) (now env)) sid
                   (match old with
                    | Some _ => session_memories w
                    | None => <[sid := SessionMemory.init sid "buffer" 10 None (now env)]>
                                (session_memories w)
                    end) |}).
  { subst w' old. rewrite greeting_changes_what_identification_changes.
    unfold identify_employee. unfold bind at 1. unfold the_session at 1.
    rewrite Hs, Hid, Hcontact. cbn [negb andb].
    assert (Hrest : forall (k : option Dict -> M unit),
               bind (if truthy (customer_email s)
                     then lift (find_employee_by_contact env "email"
                                  (default "" (customer_email s)))
                     else ret None)
                 (fun e =>
                    bind (if negb (truthy_dict e) && truthy (customer_number s)
                          then lift (find_employee_by_contact env "phone"
                                       (default "" (customer_number s)))
                          else ret e) k) w
               = k (Some employee) w).
    { intros k. unfold look_up in Hlook. unfold bind, lift, ret.
      destruct (truthy (customer_email s)).
      - destruct (find_employee_by_contact env "email" _) as [e1|x1]; [|discriminate].
        destruct (negb (truthy_dict e1) && truthy (customer_number s)).
        + now rewrite Hlook.
        + now injection Hlook as ->.
      - simpl in *. destruct (truthy (customer_number s)); [|discriminate].
        now rewrite Hlook. }
    rewrite Hrest, Htruthy. clear Hrest.
    unfold bind, assign, lift, get_or_create_memory, on_memory. simpl.
    rewrite Hdev. simpl.
    destruct (session_memories w !! sid); reflexivity. }
  rewrite Hw'. clear Hw' w'. simpl.
  rewrite !lookup_alter_eq, Hs. simpl.
  destruct old as [m|] eqn:Em; subst old; simpl;
    rewrite ?lookup_insert_eq, ?Em; simpl;
    eexists _, _; (split; [reflexivity|]); (split; [reflexivity|]);
    (split; [reflexivity|]); (split; [reflexivity|]); (split; [reflexivity|]); simpl;
    (split; [intros k v Hk; now apply lookup_union_Some_l|]);
    (split; [intros k Hk; rewrite lookup_union_r by exact Hk; try reflexivity;
             apply lookup_empty|]);
    repeat split.
Qed.

(** The session came with an e-mail address; the look-up finds Ada and
    her laptop. *)
Lemma identification_is_recorded_witness :
  sessions mail_world !! "s1" = Some mail_session
  /\ truthy (employee_id mail_session) = false
  /\ look_up env_ada mail_session = Ok (Some ada)
  /\ ada <> ∅
  /\ get_employee_devices env_ada ada = Ok [ada_laptop]
  /\ exists s' m',
       sessions (snd (get_initial_greeting env_ada "s1" mail_world)) !! "s1" = Some s'
       /\ employee_id s' = Some "E42"
       /\ employee_info s' = Some ada
       /\ devices s' = [ada_laptop]
       /\ session_memories (snd (get_initial_greeting env_ada "s1" mail_world)) !! "s1" = Some m'
       /\ SessionMemory.user_info (SessionMemory.session_data m') !! "name" = Some "Ada Lovelace"
       /\ SessionMemory.device_info (SessionMemory.session_data m') = [ada_laptop]
       /\ SessionMemory.chat_history m' = [].
Proof.
  assert (Hne : ada <> ∅).
  { intros E. apply (f_equal (fun d : Dict => d !! "name")) in E. vm_compute in E. discriminate E. }
  split; [reflexivity|]. split; [reflexivity|]. split; [reflexivity|].
  split; [exact Hne|]. split; [reflexivity|].
  destruct (identification_is_recorded env_ada "s1" mail_world mail_session ada [ada_laptop]
              eq_refl eq_refl eq_refl Hne eq_refl)
    as (s' & m' & Hs & Hid & Hinfo & Hdev & Hm & Hfields & _ & Hdevices & Hhist & _).
  exists s', m'. repeat split; try assumption.
  apply Hfields. reflexivity.
Defined.

End IdentificationFacts.

(** ** The replies that need no model call *)


Module ReplyFacts.
Import PyStr PyExc SessionManager Runtime Replies Texts.
Import Judgements RuntimeFacts Scenarios Samples.
Import PyStrFacts BoundaryFacts.

Lemma lstrip_blank s : lstrip s = "" <-> blank s = true.
Proof.
  induction s as [|c s IH]; simpl; [tauto|].
  destruct (is_space c); simpl; [exact IH|]. split; discriminate.
Qed.

Lemma split_first_blank s : blank s = true -> split_first s = None.
Proof. intros H. unfold split_first. apply lstrip_blank in H. now rewrite H. Qed.

Lemma split_first_word s : blank s = false -> split_first s = Some (first_name s).
Proof.
  intros H. unfold split_first, first_name.
  destruct (lstrip s) eqn:E; [|reflexivity].
  apply lstrip_blank in E. congruence.
Qed.

Lemma fallback_greeting_spec o :
  let name := employee_name o in
  fallback_greeting o =
    if nonempty name
    then if blank name then Raise "IndexError" else Ok ("Hi " +:+ first_name name +:+ ", ")
    else Ok "Hello, ".
Proof.
  unfold employee_name, fallback_greeting, dict_get.
  destruct (o ≫= employee_info) as [d|] eqn:Ed; [|reflexivity].
  change (default ∅ (Some d)) with d. change (Some d ≫= (.!! "name")) with (d !! "name").
  unfold truthy_dict.
  destruct (d !! "name") as [n|] eqn:En; simpl.
  - assert (Hd : bool_decide (d = ∅) = false).
    { apply bool_decide_eq_false. intros ->. rewrite lookup_empty in En. discriminate. }
    rewrite Hd. simpl. destruct (nonempty n) eqn:Hn; [|reflexivity].
    destruct (blank n) eqn:Hb.
    + now rewrite split_first_blank.
    + now rewrite split_first_word.
  - now rewrite andb_false_r.
Qed.

Lemma fallback_body_nonempty m it : fallback_body m it <> "".
Proof.
  unfold fallback_body.
  repeat (match goal with |- context [if ?b then _ else _] => destruct b end);
    discriminate.
Qed.

Lemma nonempty_spec s : nonempty s = true <-> s <> "".
Proof. destruct s; simpl; split; congruence. Qed.

Lemma blank_nonempty s : blank s = false -> nonempty s = true.
Proof. destruct s; [discriminate|reflexivity]. Qed.

(** X13: The fallback reply.  It is raised as an [IndexError] exactly when
    the employee's name is white space only; otherwise it is a text that
    starts with "Hi <first name>, " when a name is known and with
    "Hello, " when none is, followed by a text that is not empty.  It
    does not depend on the case of the message, and on a timeout it
    depends on neither the message nor the issue type. *)
Theorem fallback_reply_shape user_message session issue_type error_type :
  let name := employee_name session in
  let reply := generate_fallback_response user_message session issue_type error_type in
  (reply = Raise "IndexError" <-> name <> "" /\ blank name = true)
  /\ (forall r, reply = Ok r ->
        exists body,
          body <> ""
          /\ r = (if nonempty name then "Hi " +:+ first_name name +:+ ", " else "Hello, ")
                 +:+ body)
  /\ generate_fallback_response (lower user_message) session issue_type error_type = reply
  /\ (error_type = Some "timeout" ->
      forall message' issue_type',
        generate_fallback_response message' session issue_type' error_type = reply).
Proof.
  intros name reply. subst reply. unfold generate_fallback_response.
  rewrite (fallback_greeting_spec session). fold name.
  split; [|split; [|split]].
  - destruct (nonempty name) eqn:Hn.
    + apply nonempty_spec in Hn. destruct (blank name).
      * split; [now split|reflexivity].
      * split; [|intros [_ [=]]]. destruct (bool_decide _); discriminate.
    + split; [destruct (bool_decide _); discriminate|].
      intros [Hne _]. apply nonempty_spec in Hne. congruence.
  - intros r. destruct (nonempty name) eqn:Hn.
    + destruct (blank name); [discriminate|].
      destruct (bool_decide _); intros [= <-]; eexists; (split; [|reflexivity]);
        [discriminate|apply fallback_body_nonempty].
    + destruct (bool_decide _); intros [= <-]; eexists; (split; [|reflexivity]);
        [discriminate|apply fallback_body_nonempty].
  - now rewrite lower_idem.
  - intros -> message' issue_type'. reflexivity.
Qed.

Lemma generate_initial_greeting_raises hour s :
  generate_initial_greeting hour s = Raise "IndexError"
  <-> truthy_dict (employee_info s) = true /\ blank (employee_name (Some s)) = true.
Proof.
  unfold generate_initial_greeting, employee_name. simpl.
  destruct (truthy_dict (employee_info s)); [|split; [discriminate|intros [[=] _]]].
  destruct (blank (dict_get (default ∅ (employee_info s)) "name" "")) eqn:Hb.
  - rewrite (split_first_blank _ Hb). now split.
  - rewrite (split_first_word _ Hb). split; [|intros [_ [=]]].
    destruct (nonempty _); discriminate.
Qed.

(** X12: A greeting for an employee whose record has no usable name (no
    name, an empty one, or white space only).  The generator raises an
    [IndexError] exactly then.  [get_initial_greeting] of the agent
    orchestrator lets the exception out; that of the main orchestrator,
    for a session whose employee is already identified, answers with its
    fixed greeting.  Neither changes anything. *)
Theorem nameless_employee_greeting env sid w s :
  sessions w !! sid = Some s ->
  truthy_dict (employee_info s) = true ->
  blank (employee_name (Some s)) = true ->
  generate_initial_greeting (hour env) s = Raise "IndexError"
  /\ AgentOrchestratorGreeting.get_initial_greeting env sid w = (Raise "IndexError", w)
  /\ (truthy (employee_id s) = true ->
      MEAgentOrchestrator.get_initial_greeting env sid w
      = (Ok MEAgentOrchestrator.default_greeting, w)).
Proof.
  intros Hs Hi Hb.
  assert (Hg : generate_initial_greeting (hour env) s = Raise "IndexError")
    by (apply generate_initial_greeting_raises; now split).
  split; [exact Hg|]. split.
  - unfold AgentOrchestratorGreeting.get_initial_greeting, bind, the_session, lift.
    now rewrite Hs, Hg.
  - intros He.
    unfold MEAgentOrchestrator.get_initial_greeting, MEAgentOrchestrator.identify_employee,
      try_except, bind, the_session, lift, ret.
    rewrite Hs, He. simpl. rewrite Hs, Hi.
    unfold employee_name in Hb. simpl in Hb. rewrite (split_first_blank _ Hb). reflexivity.
Qed.

(** An employee record with a department and no name. *)
Lemma nameless_employee_greeting_witness :
  sessions nameless_world !! "s1" = Some nameless_session
  /\ truthy_dict (employee_info nameless_session) = true
  /\ blank (employee_name (Some nameless_session)) = true
  /\ generate_initial_greeting 9 nameless_session = Raise "IndexError"
  /\ AgentOrchestratorGreeting.get_initial_greeting (env_up "Hello!") "s1" nameless_world
     = (Raise "IndexError", nameless_world)
  /\ (truthy (employee_id nameless_session) = true ->
      MEAgentOrchestrator.get_initial_greeting (env_up "Hello!") "s1" nameless_world
      = (Ok MEAgentOrchestrator.default_greeting, nameless_world)).
Proof.
  split; [reflexivity|]. split; [vm_compute; reflexivity|]. split; [vm_compute; reflexivity|].
  apply (nameless_employee_greeting (env_up "Hello!") "s1" nameless_world nameless_session);
    vm_compute; reflexivity.
Defined.

(** X11: A greeting when the employee cannot be found: for a session without
    an employee record, when the look-ups find nobody or fail,
    [get_initial_greeting] answers with one of its two generic
    greetings and changes nothing. *)
Theorem lookup_miss_greeting env sid w s :
  sessions w !! sid = Some s ->
  truthy_dict (employee_info s) = false ->
  (forall kind value e,
      find_employee_by_contact env kind value = Ok e -> truthy_dict e = false) ->
  exists greeting,
    MEAgentOrchestrator.get_initial_greeting env sid w = (Ok greeting, w)
    /\ (greeting = MEAgentOrchestrator.default_greeting
        \/ greeting = time_greeting (hour env)
                      +:+ "! I'm ME.ai Assistant, your IT support specialist. How can I help you today?").
Proof.
  intros Hs Hi Hfind.
  assert (Hgen : generate_initial_greeting (hour env) s
                 = Ok (time_greeting (hour env)
                       +:+ "! I'm ME.ai Assistant, your IT support specialist. How can I help you today?")).
  { unfold generate_initial_greeting. now rewrite Hi. }
  unfold MEAgentOrchestrator.get_initial_greeting, MEAgentOrchestrator.identify_employee,
    try_except, bind, the_session, lift, ret.
  rewrite Hs.
  destruct (negb (truthy (employee_id s))
            && (truthy (customer_email s) || truthy (customer_number s))); simpl.
  2:{ rewrite Hs, Hi, Hgen. eexists. split; [reflexivity|now right]. }
  destruct (truthy (customer_email s)); simpl.
  - destruct (find_employee_by_contact env "email" _) as [e1|x1] eqn:E1; simpl.
    2:{ eexists. split; [reflexivity|now left]. }
    rewrite (Hfind _ _ _ E1). simpl.
    destruct (truthy (customer_number s)); simpl.
    + destruct (find_employee_by_contact env "phone" _) as [e2|x2] eqn:E2; simpl.
      2:{ eexists. split; [reflexivity|now left]. }
      rewrite (Hfind _ _ _ E2). simpl.
      rewrite Hs, Hi, Hgen. eexists. split; [reflexivity|now right].
    + rewrite (Hfind _ _ _ E1). simpl.
      rewrite Hs, Hi, Hgen. eexists. split; [reflexivity|now right].
  - destruct (truthy (customer_number s)); simpl.
    + destruct (find_employee_by_contact env "phone" _) as [e2|x2] eqn:E2; simpl.
      2:{ eexists. split; [reflexivity|now left]. }
      rewrite (Hfind _ _ _ E2). simpl.
      rewrite Hs, Hi, Hgen. eexists. split; [reflexivity|now right].
    + rewrite Hs, Hi, Hgen. eexists. split; [reflexivity|now right].
Qed.

(** The look-up by e-mail answers that there is no such employee. *)
Lemma lookup_miss_greeting_witness :
  sessions mail_world !! "s1" = Some mail_session
  /\ truthy_dict (employee_info mail_session) = false
  /\ (forall kind value e,
        find_employee_by_contact (env_up "Hello!") kind value = Ok e -> truthy_dict e = false)
  /\ exists greeting,
       MEAgentOrchestrator.get_initial_greeting (env_up "Hello!") "s1" mail_world
       = (Ok greeting, mail_world)
       /\ (greeting = MEAgentOrchestrator.default_greeting
           \/ greeting = time_greeting 9
                +:+ "! I'm ME.ai Assistant, your IT support specialist. How can I help you today?").
Proof.
  assert (H : forall kind value e,
             find_employee_by_contact (env_up "Hello!") kind value = Ok e
             -> truthy_dict e = false)
    by (intros kind value e [= <-]; reflexivity).
  split; [reflexivity|]. split; [reflexivity|]. split; [exact H|].
  exact (lookup_miss_greeting (env_up "Hello!") "s1" mail_world mail_session
           eq_refl eq_refl H).
Defined.

End ReplyFacts.

(** ** The request to the chat API *)


Module AiResponseFacts.
Import PyStr PyExc PyText SessionManager Replies AiResponse.

Lemma lastn_length {A} n (l : list A) : List.length (lastn n l) <= n.
Proof. unfold lastn. rewrite length_skipn. lia. Qed.

Lemma lastn_snoc {A} n (l : list A) x : lastn (S n) (l ++ [x]) = lastn n l ++ [x].
Proof.
  unfold lastn. rewrite length_app. simpl.
  replace (List.length l + 1 - S n) with (List.length l - n) by lia.
  rewrite skipn_app.
  replace (List.length l - n - List.length l) with 0 by lia. reflexivity.
Qed.

Lemma lastn_sublist {A} n (l : list A) : lastn n l `sublist_of` l.
Proof. unfold lastn. apply sublist_drop. Qed.

Lemma last_snoc_inv {A} (l : list A) x : last l = Some x -> exists l', l = l' ++ [x].
Proof.
  intros H. destruct (last_Some l x) as [(l' & ->) _]; [exact H|]. now exists l'.
Qed.

Lemma from_user_or_assistant_spec m :
  from_user_or_assistant m = true -> role m = "user" \/ role m = "assistant".
Proof.
  unfold from_user_or_assistant, mem. simpl. rewrite orb_false_r.
  intros H. apply orb_true_iff in H. destruct H as [H|H]; apply String.eqb_eq in H; auto.
Qed.

Lemma window_shape n k (l : list Message) :
  List.length (lastn n (List.filter from_user_or_assistant (lastn k l))) <= n
  /\ lastn n (List.filter from_user_or_assistant (lastn k l)) `sublist_of` l
  /\ Forall (fun m => role m = "user" \/ role m = "assistant")
       (lastn n (List.filter from_user_or_assistant (lastn k l))).
Proof.
  split; [apply lastn_length|]. split.
  - etransitivity; [apply lastn_sublist|].
    etransitivity; [|apply (lastn_sublist k)].
    clear. induction (lastn k l) as [|x xs IH]; simpl; [constructor|].
    destruct (from_user_or_assistant x); [now apply sublist_skip|now apply sublist_cons].
  - apply Forall_forall. intros m Hin. apply from_user_or_assistant_spec.
    assert (Hin' : m ∈ List.filter from_user_or_assistant (lastn k l)).
    { eapply elem_of_sublist; [exact Hin|apply lastn_sublist]. }
    apply list_elem_of_In, filter_In in Hin'. tauto.
Qed.

(** X14: The request sent to the chat API: the system prompt, then at most
    six messages of the session, all from the user or the assistant and
    in the order of the session, then the message being answered, once:
    it is added when the session does not end with it, and it is the
    last of the six otherwise. *)
Theorem request_ends_with_the_message prompt user_message session :
  exists history,
    request_messages prompt user_message session
    = {| role := "system"; content := prompt |}
      :: history ++ [{| role := "user"; content := user_message |}]
    /\ List.length history <= 6
    /\ history `sublist_of` messages session
    /\ Forall (fun m => role m = "user" \/ role m = "assistant") history.
Proof.
  unfold request_messages, history_messages, not_in_session.
  destruct (last (messages session)) as [m|] eqn:El.
  2:{ eexists. split; [reflexivity|]. apply window_shape. }
  destruct (negb (role m =? "user")%string || negb (content m =? user_message)%string) eqn:Em.
  { eexists. split; [reflexivity|]. apply window_shape. }
  apply orb_false_iff in Em. destruct Em as [Hr Hc].
  apply negb_false_iff, String.eqb_eq in Hr, Hc.
  destruct (last_snoc_inv _ _ El) as (l' & El').
  assert (Hm : m = {| role := "user"; content := user_message |})
    by (destruct m; simpl in *; congruence).
  rewrite El'. change 10 with (S 9). rewrite lastn_snoc, List.filter_app. simpl.
  assert (Hf : from_user_or_assistant m = true) by (now rewrite Hm).
  rewrite Hf. change 6 with (S 5). rewrite lastn_snoc, app_nil_r, <- Hm.
  exists (lastn 5 (List.filter from_user_or_assistant (lastn 9 l'))).
  split; [reflexivity|].
  destruct (window_shape 5 9 l') as (Hlen & Hsub & Hall).
  split; [lia|]. split; [|exact Hall].
  etransitivity; [exact Hsub|]. now apply sublist_inserts_r.
Qed.

End AiResponseFacts.

(** ** Classification by the orchestrators *)


Module ClassificationFacts.
Import PyStr PyExc SessionManager Runtime Chains Texts.

Lemma classify_issue_range m : In (ResponseGenerator.classify_issue m) categories.
Proof.
  unfold ResponseGenerator.classify_issue, ResponseGenerator.pick_category, categories.
  repeat match goal with
         | |- context [if ?b then _ else _] => destruct b
         end; simpl; tauto.
Qed.

(** X15: Classification never fails and falls back to General.  The main
    orchestrator reads the category from the model's answer alone: it is
    one of the four categories, and General when the model call raises
    or the answer has no category line, whatever the query says.  The
    agent orchestrator asks the model only when the keyword classifier
    says General, and keeps the keyword classifier's answer when the
    model call raises. *)
Theorem classification_falls_back_to_general :
  (forall env query,
      In (MEAgentOrchestrator.classify_issue_type env query) categories)
  /\ (forall env query e,
         issue_chain_run env ("User: " +:+ query) = Raise e ->
         MEAgentOrchestrator.classify_issue_type env query = "General")
  /\ (forall env query answer,
         issue_chain_run env ("User: " +:+ query) = Ok answer ->
         contains "CATEGORY:" answer = false ->
         MEAgentOrchestrator.classify_issue_type env query = "General")
  /\ (forall env query,
         In (AgentOrchestrator.classify_issue_type env query) categories)
  /\ (forall env query,
         ResponseGenerator.classify_issue query <> "General" ->
         AgentOrchestrator.classify_issue_type env query
         = ResponseGenerator.classify_issue query)
  /\ (forall env query e,
         classifier_chain_run env query = Raise e ->
         AgentOrchestrator.classify_issue_type env query
         = ResponseGenerator.classify_issue query).
Proof.
  split; [|split; [|split; [|split; [|split]]]].
  - intros env query. unfold MEAgentOrchestrator.classify_issue_type, categories.
    repeat match goal with
           | |- context [if ?b then _ else _] => destruct b
           end; simpl; tauto.
  - intros env query e H.
    unfold MEAgentOrchestrator.classify_issue_type, classify_issue_detailed.
    now rewrite H.
  - intros env query answer H Hc.
    unfold MEAgentOrchestrator.classify_issue_type, classify_issue_detailed.
    rewrite H. cbn [category]. unfold field_of. now rewrite Hc.
  - intros env query. unfold AgentOrchestrator.classify_issue_type.
    destruct (String.eqb _ "General") eqn:E; [|apply classify_issue_range].
    destruct (classifier_chain_run env query); unfold categories;
      repeat match goal with
             | |- context [if ?b then _ else _] => destruct b
             end; simpl; tauto.
  - intros env query H. unfold AgentOrchestrator.classify_issue_type.
    apply String.eqb_neq in H. now rewrite H.
  - intros env query e H. unfold AgentOrchestrator.classify_issue_type. rewrite H.
    destruct (String.eqb _ "General") eqn:E; [|reflexivity].
    apply String.eqb_eq in E. now rewrite E.
Qed.

End ClassificationFacts.

(** ** Parsing the answer of the classification model *)


Module ParseFacts.
Import PyStr PyExc Runtime Chains Texts Scenarios Samples.

Lemma startswith_app w s t : startswith w s = true -> startswith w (s +:+ t) = true.
Proof.
  revert s. induction w as [|a w IH]; intros s; [reflexivity|].
  destruct s as [|c s]; simpl; [discriminate|].
  intros H. apply andb_true_iff in H. destruct H as [-> H]. simpl. now apply IH.
Qed.

(** A word without the character [b] that starts in [s] and is followed
    by [b] ends in [s]. *)
Lemma startswith_barrier w b s t :
  occurs b w = false -> startswith w (s +:+ String b t) = startswith w s.
Proof.
  revert s. induction w as [|a w IH]; intros s Hb; [reflexivity|].
  simpl in Hb. apply orb_false_iff in Hb. destruct Hb as [Hab Hw].
  destruct s as [|c s]; simpl.
  - rewrite Ascii.eqb_sym, Hab. reflexivity.
  - rewrite IH by exact Hw. reflexivity.
Qed.

Lemma contains_cons w c s : contains w (String c s) = false -> contains w s = false.
Proof. simpl. intros H. apply orb_false_iff in H. tauto. Qed.

Lemma contains_startswith w s : contains w s = false -> startswith w s = false.
Proof. destruct s; simpl; intros H; apply orb_false_iff in H; tauto. Qed.

Lemma before_cons w c s :
  before w (String c s)
  = if startswith w (String c s) then EmptyString else String c (before w s).
Proof. reflexivity. Qed.

Lemma after_cons w c s :
  after w (String c s)
  = if startswith w (String c s) then Some (drop (String.length w) (String c s))
    else after w s.
Proof. reflexivity. Qed.

Lemma before_barrier w b s t :
  occurs b w = false -> contains w s = false ->
  before w (s +:+ String b t) = s +:+ before w (String b t).
Proof.
  intros Hb. induction s as [|c s IH]; intros Hs; [reflexivity|].
  pose proof (contains_startswith _ _ Hs) as Hst.
  change (String c s +:+ String b t) with (String c (s +:+ String b t)).
  rewrite before_cons.
  change (String c (s +:+ String b t)) with (String c s +:+ String b t).
  rewrite (startswith_barrier w b (String c s) t Hb), Hst.
  rewrite IH by (now apply contains_cons in Hs). reflexivity.
Qed.

Lemma after_barrier w b s t :
  occurs b w = false -> contains w s = false ->
  after w (s +:+ String b t) = after w (String b t).
Proof.
  intros Hb. induction s as [|c s IH]; intros Hs; [reflexivity|].
  pose proof (contains_startswith _ _ Hs) as Hst.
  change (String c s +:+ String b t) with (String c (s +:+ String b t)).
  rewrite after_cons.
  change (String c (s +:+ String b t)) with (String c s +:+ String b t).
  rewrite (startswith_barrier w b (String c s) t Hb), Hst.
  apply IH. now apply contains_cons in Hs.
Qed.

Lemma contains_app_l w s t : contains w s = true -> contains w (s +:+ t) = true.
Proof.
  induction s as [|c s IH]; simpl.
  - rewrite orb_false_r. destruct w; [|discriminate]. intros _. now destruct t.
  - intros H. apply orb_true_iff in H. destruct H as [H|H].
    + change (String c (s +:+ t)) with (String c s +:+ t).
      now rewrite (startswith_app _ _ _ H).
    + rewrite (IH H). apply orb_true_r.
Qed.

Lemma contains_eq w s :
  contains w s
  = startswith w s || match s with EmptyString => false | String _ s' => contains w s' end.
Proof. destruct s; reflexivity. Qed.

(** A longer label occurs only where its ending occurs. *)
Lemma startswith_suffix a w s : startswith (a +:+ w) s = true -> contains w s = true.
Proof.
  revert s. induction a as [|x a IH]; intros s.
  - change ("" +:+ w) with w. intros H. rewrite contains_eq, H. reflexivity.
  - change (String x a +:+ w) with (String x (a +:+ w)).
    destruct s as [|c s]; [discriminate|]. simpl startswith.
    intros H. apply andb_true_iff in H. destruct H as [_ H].
    apply IH in H. rewrite contains_eq, H. apply orb_true_r.
Qed.

Lemma contains_suffix a w s : contains w s = false -> contains (a +:+ w) s = false.
Proof.
  induction s as [|c s IH]; intros H; rewrite contains_eq; apply orb_false_iff; split.
  - destruct (startswith (a +:+ w) "") eqn:E; [|reflexivity].
    apply startswith_suffix in E. congruence.
  - reflexivity.
  - destruct (startswith (a +:+ w) (String c s)) eqn:E; [|reflexivity].
    apply startswith_suffix in E. congruence.
  - apply IH. now apply contains_cons in H.
Qed.

Lemma before_newline_stop s t :
  contains newline s = false -> before newline (s +:+ String (ascii_of_nat 10) t) = s.
Proof.
  induction s as [|c s IH]; intros Hs; [reflexivity|].
  pose proof (contains_startswith _ _ Hs) as Hst.
  change (String c s +:+ String (ascii_of_nat 10) t)
    with (String c (s +:+ String (ascii_of_nat 10) t)).
  rewrite before_cons.
  assert (Hc : startswith newline (String c (s +:+ String (ascii_of_nat 10) t)) = false).
  { revert Hst. unfold newline. simpl. now rewrite !andb_true_r. }
  rewrite Hc, IH by (now apply contains_cons in Hs). reflexivity.
Qed.

(** The text of a field: what stands between its label and the end of
    the line. *)
Lemma field_line k key v t :
  Ascii.eqb k " " = false -> occurs (ascii_of_nat 10) (String k key) = false ->
  contains newline v = false -> contains (String k key) v = false ->
  strip (before newline
           (before (String k key) (String " " v +:+ String (ascii_of_nat 10) t)))
  = strip v.
Proof.
  intros Hk Hn Hv Hkv.
  assert (Hk10 : Ascii.eqb k (ascii_of_nat 10) = false).
  { simpl in Hn. apply orb_false_iff in Hn. destruct Hn as [Hn _].
    now rewrite Ascii.eqb_sym. }
  rewrite before_barrier; [|exact Hn|].
  2:{ rewrite contains_eq, Hkv, orb_false_r. simpl. now rewrite Hk. }
  rewrite before_cons. simpl startswith. rewrite Hk10. simpl andb. cbv iota.
  rewrite before_newline_stop.
  - reflexivity.
  - rewrite contains_eq, Hv, orb_false_r. reflexivity.
Qed.

Lemma one_line_spec v :
  one_line v = true ->
  contains newline v = false /\ contains "CATEGORY:" v = false
  /\ contains "SUBCATEGORY:" v = false /\ contains "PRIORITY:" v = false.
Proof.
  unfold one_line. intros H.
  apply andb_true_iff in H. destruct H as [H Hp].
  apply andb_true_iff in H. destruct H as [Hn Hc].
  apply negb_true_iff in Hn, Hc, Hp.
  repeat split; try assumption.
  exact (contains_suffix "SUB" "CATEGORY:" v Hc).
Qed.

Lemma after_contains key s rest : after key s = Some rest -> contains key s = true.
Proof.
  induction s as [|c s IH]; rewrite contains_eq.
  - simpl. destruct (startswith key ""); [reflexivity|discriminate].
  - rewrite after_cons. destruct (startswith key (String c s)); [reflexivity|].
    intros H. now rewrite (IH H).
Qed.

Lemma field_of_after key default result rest :
  after key result = Some rest ->
  field_of key default result = strip (before newline (before key rest)).
Proof.
  intros H. unfold field_of. now rewrite (after_contains _ _ _ H), H.
Qed.

(** X16: An answer in the format of the prompt is parsed into its fields:
    each field is the text of its line, stripped. *)
Theorem formatted_answer_is_parsed env conversation c s p r :
  issue_chain_run env conversation = Ok (formatted c s p r) ->
  one_line c = true -> one_line s = true -> one_line p = true ->
  classify_issue_detailed env conversation
  = {| category := strip c; subcategory := strip s; priority := strip p;
       full_response := formatted c s p r |}.
Proof.
  intros Hrun Hc Hs Hp.
  apply one_line_spec in Hc, Hs, Hp.
  destruct Hc as (Hcn & Hcc & Hcs & Hcp).
  destruct Hs as (Hsn & Hsc & Hss & Hsp).
  destruct Hp as (Hpn & Hpc & Hps & Hpp).
  unfold classify_issue_detailed. rewrite Hrun.
  set (tp := "REASONING: " +:+ r).
  set (ts := "PRIORITY: " +:+ p +:+ String (ascii_of_nat 10) tp).
  set (tc := "SUBCATEGORY: " +:+ s +:+ String (ascii_of_nat 10) ts).
  assert (Ef : formatted c s p r = "CATEGORY: " +:+ c +:+ String (ascii_of_nat 10) tc)
    by reflexivity.
  rewrite Ef.
  assert (Ac : after "CATEGORY:" ("CATEGORY: " +:+ c +:+ String (ascii_of_nat 10) tc)
               = Some (String " " c +:+ String (ascii_of_nat 10) tc)) by reflexivity.
  assert (As : after "SUBCATEGORY:" ("CATEGORY: " +:+ c +:+ String (ascii_of_nat 10) tc)
               = Some (String " " s +:+ String (ascii_of_nat 10) ts)).
  { change (after "SUBCATEGORY:" (c +:+ String (ascii_of_nat 10) tc)
            = Some (String " " s +:+ String (ascii_of_nat 10) ts)).
    rewrite after_barrier by (reflexivity || assumption). reflexivity. }
  assert (Ap : after "PRIORITY:" ("CATEGORY: " +:+ c +:+ String (ascii_of_nat 10) tc)
               = Some (String " " p +:+ String (ascii_of_nat 10) tp)).
  { change (after "PRIORITY:" (c +:+ String (ascii_of_nat 10) tc)
            = Some (String " " p +:+ String (ascii_of_nat 10) tp)).
    rewrite after_barrier by (reflexivity || assumption).
    change (after "PRIORITY:" (s +:+ String (ascii_of_nat 10) ts)
            = Some (String " " p +:+ String (ascii_of_nat 10) tp)).
    rewrite after_barrier by (reflexivity || assumption). reflexivity. }
  rewrite (field_of_after _ _ _ _ Ac), (field_of_after _ _ _ _ As),
    (field_of_after _ _ _ _ Ap).
  rewrite !field_line by (reflexivity || assumption).
  reflexivity.
Qed.

(** An answer with the four lines of the prompt. *)
Lemma formatted_answer_is_parsed_witness :
  issue_chain_run env_formatted "my laptop does not charge"
  = Ok (formatted "Hardware" "Laptop battery" "High" "The battery does not charge.")
  /\ one_line "Hardware" = true /\ one_line "Laptop battery" = true /\ one_line "High" = true
  /\ classify_issue_detailed env_formatted "my laptop does not charge"
     = {| category := "Hardware"; subcategory := "Laptop battery"; priority := "High";
          full_response :=
            formatted "Hardware" "Laptop battery" "High" "The battery does not charge." |}.
Proof.
  repeat (split; [reflexivity|]).
  apply (formatted_answer_is_parsed env_formatted "my laptop does not charge"
           "Hardware" "Laptop battery" "High" "The battery does not charge.");
    reflexivity.
Defined.

End ParseFacts.

(** ** The categories of the ontology classifier *)


Module OntologyFacts.
Import PyStr PyNum Neo4jITSMManager.
Local Open Scope Z_scope.

Lemma matching_contains keywords issue_lower kw :
  In kw (matching keywords issue_lower) -> In kw keywords /\ contains kw issue_lower = true.
Proof. unfold matching. intros H. now apply filter_In in H. Qed.

(** X17: The category of the ontology classifier is the one whose keyword
    count is strictly above the three others, and General when there is
    no such category: on a tie for the first place as well as when
    nothing matched.  The primary keywords are the keywords of the
    winning category found in the lower-cased text, as many as its
    count; General has none. *)
Theorem ontology_category_is_the_strict_maximum text :
  let c := get_issue_classification text in
  let hw := hw_count text in
  let sw := sw_count text in
  let net := net_count text in
  let sec := sec_count text in
  (category c = "Password" <-> hw < sec /\ sw < sec /\ net < sec)
  /\ (category c = "Hardware" <-> sw < hw /\ net < hw /\ sec < hw)
  /\ (category c = "Software" <-> hw < sw /\ net < sw /\ sec < sw)
  /\ (category c = "Network" <-> hw < net /\ sw < net /\ sec < net)
  /\ (category c = "General" <->
      ~ (hw < sec /\ sw < sec /\ net < sec) /\ ~ (sw < hw /\ net < hw /\ sec < hw)
      /\ ~ (hw < sw /\ net < sw /\ sec < sw) /\ ~ (hw < net /\ sw < net /\ sec < net))
  /\ (forall kw, In kw (primary_keywords c) -> contains kw (lower text) = true)
  /\ Z.of_nat (List.length (primary_keywords c))
     = (if String.eqb (category c) "General" then 0 else max_count text).
Proof.
  cbv zeta. unfold get_issue_classification, max_count, hw_count, sw_count, net_count,
    sec_count, max3, max4, count.
  pose proof (matching_contains hardware_keywords (lower text)) as Hh.
  pose proof (matching_contains software_keywords (lower text)) as Hs.
  pose proof (matching_contains network_keywords (lower text)) as Hn.
  pose proof (matching_contains security_keywords (lower text)) as Hc.
  set (mh := matching hardware_keywords (lower text)) in *.
  set (ms := matching software_keywords (lower text)) in *.
  set (mn := matching network_keywords (lower text)) in *.
  set (mc := matching security_keywords (lower text)) in *.
  clearbody mh ms mn mc.
  set (hw := Z.of_nat (List.length mh)).
  set (sw := Z.of_nat (List.length ms)).
  set (net := Z.of_nat (List.length mn)).
  set (sec := Z.of_nat (List.length mc)).
  destruct (Z.max (Z.max hw sw) net <? sec) eqn:E1;
    [|destruct (Z.max (Z.max sw net) sec <? hw) eqn:E2;
      [|destruct (Z.max (Z.max hw net) sec <? sw) eqn:E3;
        [|destruct (Z.max (Z.max hw sw) sec <? net) eqn:E4]]];
    cbn [category primary_keywords];
    repeat match goal with
           | H : (_ <? _) = true |- _ => apply Z.ltb_lt in H
           | H : (_ <? _) = false |- _ => apply Z.ltb_ge in H
           end;
    (repeat split);
    try discriminate; try (intros; lia);
    try (intros kw Hkw;
         first [now apply Hh in Hkw | now apply Hs in Hkw
               | now apply Hn in Hkw | now apply Hc in Hkw]);
    try (intros kw []);
    try (change (String.eqb _ _) with false; cbv iota; subst hw sw net sec; lia);
    try (change (String.eqb _ _) with true; cbv iota; reflexivity).
Qed.

End OntologyFacts.

(** ** Looking employees and agents up *)


Module DbServiceFacts.
Import PyStr PyExc PyText SessionManager DbService Searches DirectorySamples.

Lemma startswith_nil s : startswith "" s = true.
Proof. reflexivity. Qed.

Lemma contains_nil s : contains "" s = true.
Proof. destruct s; reflexivity. Qed.

Lemma startswith_refl s : startswith s s = true.
Proof. induction s as [|c s IH]; simpl; [reflexivity|]. now rewrite Ascii.eqb_refl. Qed.

Lemma contains_refl s : contains s s = true.
Proof. destruct s; simpl; [reflexivity|]. now rewrite Ascii.eqb_refl, startswith_refl. Qed.

Ltac all_fail :=
  repeat first [solve [constructor] | constructor; [vm_compute; reflexivity|]].

Lemma find_first_such {A} (p : A -> bool) (l : list A) (x : A) :
  List.find p l = Some x <-> first_such p l x.
Proof.
  induction l as [|y l IH]; simpl.
  - split; [discriminate|]. intros (b & a & E & _). now destruct b.
  - destruct (p y) eqn:Ey.
    + split.
      * intros [= <-]. exists [], l. repeat split; [exact Ey|constructor].
      * intros (b & a & E & Hx & Hb). destruct b as [|z b]; simpl in E.
        { now injection E as <- _. }
        injection E as <- _. apply Forall_cons in Hb. destruct Hb as [Hz _]. congruence.
    + rewrite IH. split.
      * intros (b & a & -> & Hx & Hb). exists (y :: b), a.
        repeat split; [exact Hx|now constructor].
      * intros (b & a & E & Hx & Hb). destruct b as [|z b]; simpl in E.
        { injection E as <- _. congruence. }
        injection E as <- ->. apply Forall_cons in Hb. destruct Hb as [_ Hb].
        now exists b, a.
Qed.

Lemma find_none_iff {A} (p : A -> bool) (l : list A) :
  List.find p l = None <-> Forall (fun y => p y = false) l.
Proof.
  rewrite Forall_forall. split.
  - intros H y Hy. apply list_elem_of_In in Hy. exact (find_none _ _ H y Hy).
  - intros H. destruct (List.find p l) as [y|] eqn:E; [|reflexivity].
    apply find_some in E. destruct E as [Hin Hp].
    apply list_elem_of_In in Hin. rewrite (H y Hin) in Hp. discriminate.
Qed.

Lemma two_loops {A} (p q : A -> bool) (l : list A) :
  let found := match List.find p l with Some x => Some x | None => List.find q l end in
  (forall x, found = Some x <-> first_of_two p q l x)
  /\ (found = None <->
      Forall (fun y => p y = false) l /\ Forall (fun y => q y = false) l).
Proof.
  cbv zeta. unfold first_of_two. destruct (List.find p l) as [y|] eqn:Ep.
  - split.
    + intros x. split.
      * intros [= <-]. left. now apply find_first_such.
      * intros [H|[H _]].
        -- apply find_first_such in H. congruence.
        -- apply find_none_iff in H. congruence.
    + split; [discriminate|]. intros [H _]. apply find_none_iff in H. congruence.
  - pose proof (proj1 (find_none_iff p l) Ep) as Hp. split.
    + intros x. rewrite find_first_such. split.
      * intros H. right. now split.
      * intros [H|[_ H]]; [|exact H].
        apply find_first_such in H. congruence.
    + rewrite find_none_iff. tauto.
Qed.

Lemma first_such_ext {A} (p q : A -> bool) (l : list A) (x : A) :
  (forall y, In y l -> p y = q y) -> first_such p l x <-> first_such q l x.
Proof.
  intros H. rewrite <- !find_first_such.
  replace (List.find q l) with (List.find p l); [reflexivity|].
  induction l as [|y l IH]; simpl; [reflexivity|].
  rewrite <- (H y) by now left. destruct (p y); [reflexivity|].
  apply IH. intros z Hz. apply H. now right.
Qed.

(** X18: Looking an employee up by phone.  The answer is the first
    employee who passes the exact test, and when nobody does the first
    who passes the partial test; nobody only when no employee passes
    either.  The partial test accepts any fragment: somebody is found as
    soon as the normalized value occurs in the normalized number of an
    employee, or an employee's number has no digit in it.  A value
    without digit and without plus sign finds the first employee whose
    number has none either, and otherwise the first employee with a
    phone number. *)
Theorem phone_lookup_accepts_fragments contact_value employees :
  let normalized_search := normalize contact_value in
  let alternative_search :=
    if startswith "+" normalized_search then Some (remove_plus normalized_search) else None in
  let exact := exact_phone normalized_search alternative_search in
  let partial := partial_phone normalized_search in
  let found := find_by_phone contact_value employees in
  (forall token employee,
      find_employee_by_contact token (Response 200 employees) employee "phone" contact_value
      = if truthy token then found else None)
  /\ (forall e, found = Some e <-> first_of_two exact partial employees e)
  /\ (found = None <->
      Forall (fun e => exact e = false) employees
      /\ Forall (fun e => partial e = false) employees)
  /\ ((exists e, In e employees /\ truthy (e !! "phone") = true
                 /\ (contains normalized_search (normalize (field e "phone")) = true
                     \/ normalize (field e "phone") = "")) ->
      found <> None)
  /\ (normalized_search = "" ->
      forall e,
        found = Some e <->
        first_of_two
          (fun x => truthy (x !! "phone") && String.eqb (normalize (field x "phone")) "")
          (fun x => truthy (x !! "phone")) employees e).
Proof.
  intros ns alt exact partial found. subst found. unfold find_by_phone.
  fold ns. fold alt. fold exact. fold partial.
  destruct (two_loops exact partial employees) as [Hsome Hnone].
  split; [|split; [|split; [|split]]].
  - intros token employee. unfold find_employee_by_contact, find_by_phone.
    destruct (truthy token); reflexivity.
  - exact Hsome.
  - exact Hnone.
  - intros (e & Hin & Hp & Hc) Hn. apply Hnone in Hn. destruct Hn as [_ Hn].
    rewrite Forall_forall in Hn. apply list_elem_of_In in Hin.
    specialize (Hn e Hin). unfold partial, partial_phone in Hn.
    rewrite Hp in Hn. destruct Hc as [Hc|Hc].
    + rewrite Hc in Hn. discriminate.
    + rewrite Hc, contains_nil, orb_true_r in Hn. discriminate.
  - intros Hns e. rewrite Hsome. unfold first_of_two.
    assert (He : forall x, exact x
                 = truthy (x !! "phone") && String.eqb (normalize (field x "phone")) "").
    { intros x. unfold exact, exact_phone, alt. rewrite Hns. simpl.
      now rewrite orb_false_r. }
    assert (Hp : forall x, partial x = truthy (x !! "phone")).
    { intros x. unfold partial, partial_phone. rewrite Hns, contains_nil. simpl.
      apply andb_true_r. }
    rewrite (first_such_ext exact _ employees e (fun y _ => He y)).
    rewrite (first_such_ext partial _ employees e (fun y _ => Hp y)).
    assert (Hall : Forall (fun y => exact y = false) employees
                   <-> Forall (fun y => truthy (y !! "phone")
                                        && String.eqb (normalize (field y "phone")) "" = false)
                         employees).
    { rewrite !Forall_forall. split; intros H y Hy; specialize (H y Hy); now rewrite He in *. }
    rewrite Hall. reflexivity.
Qed.

(** A value without digits finds the second employee, whose number has
    none, before the first; a lone plus sign finds nobody among
    employees with digits. *)
Lemma phone_lookup_accepts_fragments_witness :
  normalize "abc" = ""
  /\ find_by_phone "abc" directory = Some with_extension
  /\ normalize "+" = "+"
  /\ find_by_phone "+" [with_number; with_address] = None.
Proof.
  split; [vm_compute; reflexivity|]. split; [|split; [vm_compute; reflexivity|]].
  - apply (proj2 (proj2 (proj2 (proj2 (phone_lookup_accepts_fragments "abc" directory))))
             eq_refl with_extension).
    left. exists [with_number], [with_address].
    split; [reflexivity|]. split; [vm_compute; reflexivity|]. all_fail.
  - apply (proj1 (proj2 (proj2 (phone_lookup_accepts_fragments "+"
                                  [with_number; with_address])))).
    split; all_fail.
Defined.

(** X19: Looking an employee up by e-mail.  The answer is the first
    employee whose address is the value searched for, up to case, and
    when there is none the first whose address contains it; nobody only
    when no address contains it.  The empty value finds the first
    employee with an address. *)
Theorem email_lookup_accepts_fragments contact_value employees :
  let found := find_by_email contact_value employees in
  (forall token employee,
      find_employee_by_contact token (Response 200 employees) employee "email" contact_value
      = if truthy token then found else None)
  /\ (forall e, found = Some e <->
        first_of_two (exact_email contact_value) (partial_email contact_value) employees e)
  /\ (found = None <->
      Forall (fun e => partial_email contact_value e = false) employees)
  /\ (contact_value = "" ->
      forall e, found = Some e <-> first_such (fun x => truthy (x !! "email")) employees e).
Proof.
  intros found. subst found. unfold find_by_email.
  assert (Hpq : forall e, exact_email contact_value e = true ->
                          partial_email contact_value e = true).
  { intros e. unfold exact_email, partial_email. intros H.
    apply andb_true_iff in H. destruct H as [-> H].
    apply String.eqb_eq in H. rewrite H. simpl. apply contains_refl. }
  destruct (two_loops (exact_email contact_value) (partial_email contact_value) employees)
    as [Hsome Hnone].
  split; [|split; [|split]].
  - intros token employee. unfold find_employee_by_contact, find_by_email.
    destruct (truthy token); reflexivity.
  - exact Hsome.
  - rewrite Hnone. split; [tauto|]. intros H. split; [|exact H].
    rewrite Forall_forall in *. intros y Hy. specialize (H y Hy).
    destruct (exact_email contact_value y) eqn:E; [|reflexivity].
    apply Hpq in E. congruence.
  - intros -> e. rewrite Hsome. unfold first_of_two.
    assert (He : forall x, exact_email "" x = false).
    { intros x. unfold exact_email, field, truthy.
      destruct (x !! "email") as [[|c s]|]; reflexivity. }
    assert (Hp : forall x, partial_email "" x = truthy (x !! "email")).
    { intros x. unfold partial_email. simpl. rewrite contains_nil. apply andb_true_r. }
    rewrite (first_such_ext (partial_email "") _ employees e (fun y _ => Hp y)).
    split.
    + intros [(b & a & _ & Hx & _)|[_ H]]; [|exact H]. now rewrite He in Hx.
    + intros H. right. split; [|exact H]. apply Forall_forall. intros y _. apply He.
Qed.

(** The empty value and a fragment in capitals both find the only
    employee with an address, the third of the list. *)
Lemma email_lookup_accepts_fragments_witness :
  find_by_email "" directory = Some with_address
  /\ find_by_email "EXAMPLE" directory = Some with_address.
Proof.
  split.
  - apply (proj2 (proj2 (proj2 (email_lookup_accepts_fragments "" directory)))
             eq_refl with_address).
    exists [with_number; with_extension], []. split; [reflexivity|].
    split; [vm_compute; reflexivity|]. all_fail.
  - apply (proj1 (proj2 (email_lookup_accepts_fragments "EXAMPLE" directory)) with_address).
    right. split; [all_fail|].
    exists [with_number; with_extension], []. split; [reflexivity|].
    split; [vm_compute; reflexivity|]. all_fail.
Defined.

(** X20: Looking an agent up by specialization.  The answer is the first
    active agent with the specialization asked for, and when there is
    none the first active agent, whatever its specialization; nobody
    only when no agent is active, or without a token. *)
Theorem agent_lookup_falls_back_to_any_active token agents specialization :
  let found := find_agent_by_specialization token (Response 200 agents) specialization in
  (truthy token = false -> found = None)
  /\ (truthy token = true ->
      (forall a, found = Some a <->
         first_of_two (specialized specialization) active agents a)
      /\ (found = None <-> Forall (fun a => a !! "status" <> Some "Active") agents))
  /\ (forall a, found = Some a -> In a agents /\ a !! "status" = Some "Active")
  /\ (forall a, found = Some a -> a !! "specialization" <> Some specialization ->
        Forall (fun x => x !! "status" = Some "Active" ->
                         x !! "specialization" <> Some specialization) agents).
Proof.
  intros found. subst found. unfold find_agent_by_specialization.
  assert (Hpq : forall a, specialized specialization a = true -> active a = true).
  { intros a H. unfold specialized in H. apply andb_true_iff in H. tauto. }
  destruct (two_loops (specialized specialization) active agents) as [Hsome Hnone].
  assert (Hactive : forall a, active a = true <-> a !! "status" = Some "Active").
  { intros a. unfold active. apply bool_decide_eq_true. }
  destruct (truthy token); simpl.
  - split; [discriminate|]. split; [intros _; split|split].
    + exact Hsome.
    + rewrite Hnone. split.
      * intros [_ H]. rewrite Forall_forall in *. intros a Ha. specialize (H a Ha).
        rewrite <- Hactive. now rewrite H.
      * intros H.
        assert (Ha : Forall (fun y => active y = false) agents).
        { rewrite Forall_forall in *. intros a Ha. specialize (H a Ha).
          destruct (active a) eqn:E; [|reflexivity]. now apply Hactive in E. }
        split; [|exact Ha]. rewrite Forall_forall in *. intros a Hin.
        destruct (specialized specialization a) eqn:E; [|reflexivity].
        apply Hpq in E. rewrite (Ha a Hin) in E. discriminate.
    + intros a Ha. apply Hsome in Ha.
      destruct Ha as [(b & c & -> & Hx & _)|[_ (b & c & -> & Hx & _)]].
      * split; [apply in_elt|]. now apply Hactive, Hpq.
      * split; [apply in_elt|]. now apply Hactive.
    + intros a Ha Hs. apply Hsome in Ha.
      destruct Ha as [(b & c & _ & Hx & _)|[Hall _]].
      * unfold specialized in Hx. apply andb_true_iff in Hx. destruct Hx as [_ Hx].
        now apply bool_decide_eq_true in Hx.
      * rewrite Forall_forall in *. intros x Hx Hact Hspec. specialize (Hall x Hx).
        unfold specialized in Hall. apply Hactive in Hact. rewrite Hact in Hall.
        simpl in Hall. apply bool_decide_eq_false in Hall. contradiction.
  - split; [reflexivity|]. split; [discriminate|]. split; discriminate.
Qed.

(** With no active Password agent the first active agent answers; with
    an active Software agent, that one, although it comes later. *)
Lemma agent_lookup_falls_back_to_any_active_witness :
  find_agent_by_specialization (Some "token") (Response 200 staff) "Password"
  = Some network_agent
  /\ find_agent_by_specialization (Some "token") (Response 200 staff) "Software"
     = Some software_agent.
Proof.
  split.
  - apply (proj1 (proj1 (proj2 (agent_lookup_falls_back_to_any_active
                                  (Some "token") staff "Password")) eq_refl) network_agent).
    right. split; [all_fail|].
    exists [retired], [software_agent]. split; [reflexivity|].
    split; [vm_compute; reflexivity|]. all_fail.
  - apply (proj1 (proj1 (proj2 (agent_lookup_falls_back_to_any_active
                                  (Some "token") staff "Software")) eq_refl) software_agent).
    left. exists [retired; network_agent], []. split; [reflexivity|].
    split; [vm_compute; reflexivity|]. all_fail.
Defined.

End DbServiceFacts.

(** ** The input of the troubleshooting tool *)


Module HardwareAgentFacts.
Import PyStr PyText Chains HardwareAgent Texts ReplyFacts.

Lemma split_on_cons sep s : exists part parts, split_on sep s = part :: parts.
Proof.
  induction s as [|c s (part & parts & IH)]; simpl; [now eexists _, _|].
  destruct (Ascii.eqb c sep); [now eexists _, _|]. rewrite IH. now eexists _, _.
Qed.

Lemma split_on_length sep s : List.length (split_on sep s) = S (occurrences sep s).
Proof.
  induction s as [|c s IH]; simpl; [reflexivity|].
  destruct (Ascii.eqb c sep); simpl; [now rewrite IH|].
  destruct (split_on_cons sep s) as (part & parts & E). rewrite E in *. simpl in *. exact IH.
Qed.

Lemma split_on_free sep s : occurrences sep s = 0 -> split_on sep s = [s].
Proof.
  induction s as [|c s IH]; simpl; [reflexivity|].
  destruct (Ascii.eqb c sep); [discriminate|]. simpl. intros H. now rewrite IH.
Qed.

Lemma split_on_pair sep a b :
  occurrences sep a = 0 -> occurrences sep b = 0 ->
  split_on sep (a +:+ String sep b) = [a; b].
Proof.
  intros Ha Hb. induction a as [|c a IH]; simpl in *.
  - rewrite Ascii.eqb_refl. now rewrite split_on_free.
  - destruct (Ascii.eqb c sep); [discriminate|]. simpl in Ha. now rewrite IH.
Qed.

Lemma strip_blank s : blank s = true -> strip s = "".
Proof. intros H. unfold strip. apply lstrip_blank in H. now rewrite H. Qed.

(** X21: The input of the troubleshooting tool.  Without a semicolon, or with
    more than one, the answer is the complaint about the format.  With
    one, the answer depends on the two parts only up to case and
    surrounding white space; an unknown device type is reported as
    such; and for a known device type an issue left blank is answered
    with the steps of the first issue of the table. *)
Theorem troubleshooting_input_format :
  (forall input_str,
      occurrences ";" input_str <> 1 -> troubleshoot_hardware input_str = invalid_format)
  /\ (forall a b a' b',
         occurrences ";" a = 0 -> occurrences ";" b = 0 ->
         occurrences ";" a' = 0 -> occurrences ";" b' = 0 ->
         lower (strip a) = lower (strip a') -> lower (strip b) = lower (strip b') ->
         troubleshoot_hardware (a +:+ ";" +:+ b) = troubleshoot_hardware (a' +:+ ";" +:+ b'))
  /\ (forall a b,
         occurrences ";" a = 0 -> occurrences ";" b = 0 ->
         lookup (lower (strip a)) troubleshooting_steps = None ->
         troubleshoot_hardware (a +:+ ";" +:+ b)
         = "No troubleshooting information available for device type: " +:+ lower (strip a))
  /\ (forall a b device_issues,
         occurrences ";" a = 0 -> occurrences ";" b = 0 -> blank b = true ->
         lookup (lower (strip a)) troubleshooting_steps = Some device_issues ->
         exists known_issue steps rest,
           device_issues = (known_issue, steps) :: rest
           /\ troubleshoot_hardware (a +:+ ";" +:+ b)
              = "Troubleshooting steps for " +:+ lower (strip a) +:+ " - " +:+ known_issue
                +:+ ":" +:+ newline +:+ steps).
Proof.
  split; [|split; [|split]].
  - intros input_str H. unfold troubleshoot_hardware.
    pose proof (split_on_length ";" input_str) as Hl.
    destruct (split_on ";" input_str) as [|p0 [|p1 [|p2 ps]]]; try reflexivity.
    simpl in Hl. congruence.
  - intros a b a' b' Ha Hb Ha' Hb' Ea Eb. unfold troubleshoot_hardware.
    change (a +:+ ";" +:+ b) with (a +:+ String ";" b).
    change (a' +:+ ";" +:+ b') with (a' +:+ String ";" b').
    rewrite !split_on_pair by assumption. now rewrite Ea, Eb.
  - intros a b Ha Hb Hl. unfold troubleshoot_hardware.
    change (a +:+ ";" +:+ b) with (a +:+ String ";" b).
    rewrite split_on_pair by assumption. now rewrite Hl.
  - intros a b device_issues Ha Hb Hbl Hl. unfold troubleshoot_hardware.
    change (a +:+ ";" +:+ b) with (a +:+ String ";" b).
    rewrite split_on_pair by assumption. rewrite Hl, (strip_blank b Hbl).
    change (lower "") with "".
    revert Hl. generalize (lower (strip a)). intros d.
    unfold troubleshooting_steps. simpl.
    repeat (destruct (d =? _)%string);
      intros [= <-]; eexists _, _, _; (split; reflexivity).
Qed.

End HardwareAgentFacts.

(** ** The keywords of a query *)


Module KeywordFacts.
Import PyStr PyText MEAIEnhancedOrchestrator PyStrFacts GuardFacts.

Lemma unseen_spec seen words :
  NoDup (unseen seen words)
  /\ forall w, In w (unseen seen words) -> In w words /\ ~ In w seen.
Proof.
  revert seen. induction words as [|x xs IH]; intros seen; simpl.
  - split; [constructor|intros w []].
  - destruct (mem x seen) eqn:E.
    + destruct (IH seen) as [Hn Hin]. split; [exact Hn|].
      intros w Hw. destruct (Hin w Hw). tauto.
    + destruct (IH (x :: seen)) as [Hn Hin].
      assert (Hx : ~ In x seen).
      { intros H. apply mem_In in H. congruence. }
      split.
      * constructor; [|exact Hn]. intros H. apply list_elem_of_In in H.
        destruct (Hin x H) as [_ H']. apply H'. now left.
      * intros w [<- | Hw]; [tauto|]. destruct (Hin w Hw) as [H1 H2].
        split; [tauto|]. intros H. apply H2. now right.
Qed.

Lemma keep_lower p s :
  (forall c, p (lower_char c) = p c) -> lower (keep p s) = keep p (lower s).
Proof.
  intros Hp. induction s as [|c s IH]; simpl; [reflexivity|].
  rewrite Hp. destruct (p c); simpl; now rewrite IH.
Qed.

Lemma is_punctuation_lower c : is_punctuation (lower_char c) = is_punctuation c.
Proof.
  assert (H : forallb (fun n => Bool.eqb (is_punctuation (lower_char (ascii_of_N n)))
                                   (is_punctuation (ascii_of_N n)))
                (List.map N.of_nat (seq 0 256)) = true) by (vm_compute; reflexivity).
  rewrite forallb_forall in H.
  specialize (H (N_of_ascii c)). rewrite ascii_N_embedding in H.
  apply eqb_prop, H. apply in_map_iff. exists (N.to_nat (N_of_ascii c)).
  split; [apply N2Nat.id|]. apply in_seq.
  pose proof (N_ascii_bounded c). lia.
Qed.

Lemma keep_all p s : forallb p (list_ascii_of_string (keep p s)) = true.
Proof.
  induction s as [|c s IH]; simpl; [reflexivity|].
  destruct (p c) eqn:E; simpl; [now rewrite E|exact IH].
Qed.

(** X22: The keywords taken from a query: at most ten, all different, in
    lower case and free of punctuation.  Each comes from a word of the
    query of more than two characters that is not a common word, by
    lower-casing it and removing the punctuation. *)
Theorem keywords_are_few_and_distinct text :
  let keywords := extract_keywords text in
  List.length keywords <= 10
  /\ NoDup keywords
  /\ forall k, In k keywords ->
       lower k = k
       /\ forallb (fun c => negb (is_punctuation c)) (list_ascii_of_string k) = true
       /\ exists word,
            In word (split text) /\ 2 < String.length word
            /\ ~ In (lower word) common_words
            /\ k = remove_punctuation (lower word).
Proof.
  cbv zeta. unfold extract_keywords.
  set (kept := List.filter _ (split text)).
  destruct (unseen_spec [] (List.map remove_punctuation (List.map lower kept))) as [Hn Hin].
  split; [apply firstn_le_length|]. split.
  - rewrite <- (firstn_skipn 10) in Hn. apply NoDup_app in Hn. tauto.
  - intros k Hk.
    assert (Hk' : In k (unseen [] (List.map remove_punctuation (List.map lower kept)))).
    { rewrite <- (firstn_skipn 10). apply in_or_app. now left. }
    apply Hin in Hk'. destruct Hk' as [Hk' _]. clear Hk. rename Hk' into Hk.
    apply in_map_iff in Hk. destruct Hk as (w' & <- & Hw').
    apply in_map_iff in Hw'. destruct Hw' as (word & <- & Hword).
    split; [|split].
    + unfold remove_punctuation. rewrite keep_lower.
      * now rewrite lower_idem.
      * intros c. now rewrite is_punctuation_lower.
    + apply keep_all.
    + exists word. subst kept. apply filter_In in Hword. destruct Hword as [Hin' Hf].
      apply andb_true_iff in Hf. destruct Hf as [Hc Hl].
      split; [exact Hin'|]. split; [now apply Nat.ltb_lt in Hl|]. split; [|reflexivity].
      intros H. apply mem_In in H. rewrite H in Hc. discriminate.
Qed.

End KeywordFacts.

(** ** The enhanced orchestrator *)


Module EnhancedFacts.
Import PyStr PyExc SessionManager Runtime Replies Judgements RuntimeFacts.
Import OrchestratorFacts Calls Updates StableFacts Turns TurnFacts.
Import Properties GreetingFacts StickyFacts.
Import Scenarios Samples.
Import MEAgentOrchestrator.

Lemma get_user_profile_reads x sid w : snd (MEAIEnhancedOrchestrator.get_user_profile x sid w) = w.
Proof.
  unfold MEAIEnhancedOrchestrator.get_user_profile, bind, the_session, lift, ret.
  destruct (sessions w !! sid) as [s|]; simpl; [|reflexivity].
  destruct (truthy (customer_email s)); simpl.
  - destruct (MEAIEnhancedOrchestrator.get_profile_by_email x _) as [p|e]; simpl; [|reflexivity].
    destruct (negb (truthy_dict p) && truthy (customer_number s)); reflexivity.
  - destruct (truthy (customer_number s)); reflexivity.
Qed.

Lemma enhanced_get_initial_greeting_eq x env sid w :
  MEAIEnhancedOrchestrator.get_initial_greeting x env sid w
  = MEAgentOrchestrator.get_initial_greeting env sid w.
Proof.
  unfold MEAIEnhancedOrchestrator.get_initial_greeting, try_except. unfold bind at 1.
  pose proof (get_user_profile_reads x sid w) as Hw.
  destruct (MEAIEnhancedOrchestrator.get_user_profile x sid w) as [[p|e] w']; simpl in Hw; subst w';
    [|reflexivity].
  destruct (truthy_dict p); [reflexivity|].
  pose proof (get_initial_greeting_total env sid w) as Ht.
  destruct (MEAgentOrchestrator.get_initial_greeting env sid w) as [[g|e] w'];
    [reflexivity|discriminate].
Qed.

(** X23: The greeting of the enhanced orchestrator is the greeting of the
    main orchestrator, in the reply and in what it changes: a profile
    that is found is not used, since the call that would read its
    preferences raises and the [except] branch greets as the base does. *)
Theorem enhanced_greeting_is_the_base_greeting x env sid w :
  MEAIEnhancedOrchestrator.get_initial_greeting x env sid w
  = MEAgentOrchestrator.get_initial_greeting env sid w.
Proof. apply enhanced_get_initial_greeting_eq. Qed.

Lemma enhanced_greeting_turn x env message sid w :
  MEAIEnhancedOrchestrator.greeting_turn x env message sid w = greeting_turn env message sid w.
Proof.
  unfold MEAIEnhancedOrchestrator.greeting_turn, greeting_turn. unfold bind at 1 6.
  now rewrite enhanced_get_initial_greeting_eq.
Qed.

(** X24: [process_message] of the enhanced orchestrator keeps nothing of a
    session.  The store of the base orchestrator is as it was after the
    call; and a greeting-like message is answered as the main
    orchestrator answers the first message of a session, whatever was
    said before under this session id. *)
Theorem enhanced_process_message_forgets_the_session x env message sid email phone w :
  sessions (snd (MEAIEnhancedOrchestrator.process_message x env message sid email phone w))
  = sessions w
  /\ (is_greeting message = true ->
      fst (MEAIEnhancedOrchestrator.process_message x env message sid email phone w)
      = fst (MEAgentOrchestrator.process_message env message sid email phone None
               {| sessions := ∅; session_memories := session_memories w |})).
Proof.
  unfold MEAIEnhancedOrchestrator.process_message, try_except,
    MEAIEnhancedOrchestrator.with_new_session_manager.
  set (w0 := {| sessions := ∅; session_memories := session_memories w |}).
  split.
  - match goal with
    | |- context [let '(_, _) := ?m w0 in _] => destruct (m w0) as [[r|e] w']
    end; reflexivity.
  - intros Hg. unfold MEAgentOrchestrator.process_message, try_except.
    destruct (receive_effect env sid email phone None w0) as (w1 & Hr & Hwf1 & Hs1 & _);
      [apply wf_empty|].
    rewrite !(bind_ok _ _ _ _ _ Hr).
    assert (Es : the_session sid w1
                 = (Ok (with_hints email phone None (session_at env sid w0)), w1)).
    { unfold the_session. now rewrite Hs1. }
    rewrite !(bind_ok _ _ _ _ _ Es).
    assert (Hp : takes_greeting_path (with_hints email phone None (session_at env sid w0))
                   message = true).
    { unfold takes_greeting_path. rewrite Hg, andb_true_r.
      unfold with_hints, session_at, w0. simpl. rewrite lookup_empty. simpl.
      destruct (truthy email), (truthy phone); reflexivity. }
    rewrite Hp, enhanced_greeting_turn.
    destruct (greeting_turn env message sid w1) as [[g|e] w2]; reflexivity.
Qed.

(** X25: [process_query] of the enhanced orchestrator stores the category of
    this query whatever the session held: when the profile look-ups
    answer and the ontology classifier finds a specific category, that
    category is the session's [issue_type] after the call, also when
    the session was classified otherwise before. *)
Theorem enhanced_query_overwrites_category x env query sid w s :
  wf (sessions w) -> sessions w !! sid = Some s ->
  (forall v, is_ok (MEAIEnhancedOrchestrator.get_profile_by_email x v) = true) ->
  (forall v, is_ok (MEAIEnhancedOrchestrator.get_profile_by_phone x v) = true) ->
  let t := Neo4jITSMManager.agent_category (Neo4jITSMManager.get_issue_classification query) in
  specific t ->
  classified_as t
    (sessions (snd (MEAIEnhancedOrchestrator.process_query x env query sid w)) !! sid).
Proof.
  intros Hwf Hs He Hp t Ht.
  assert (Hprofile : exists p, MEAIEnhancedOrchestrator.get_user_profile x sid w = (Ok p, w)).
  { unfold MEAIEnhancedOrchestrator.get_user_profile, bind, the_session, lift, ret.
    rewrite Hs.
    destruct (truthy (customer_email s)); simpl.
    - specialize (He (default "" (customer_email s))).
      destruct (MEAIEnhancedOrchestrator.get_profile_by_email x _) as [p|e]; [|discriminate].
      simpl. destruct (negb (truthy_dict p) && truthy (customer_number s)).
      + specialize (Hp (default "" (customer_number s))).
        destruct (MEAIEnhancedOrchestrator.get_profile_by_phone x _) as [p'|e];
          [|discriminate]. now eexists.
      + now eexists.
    - destruct (truthy (customer_number s)); simpl.
      + specialize (Hp (default "" (customer_number s))).
        destruct (MEAIEnhancedOrchestrator.get_profile_by_phone x _) as [p'|e];
          [|discriminate]. now eexists.
      + now eexists. }
  destruct Hprofile as (p & Eprofile).
  unfold MEAIEnhancedOrchestrator.process_query. cbv zeta. fold t.
  destruct (assign_stored sid (set_issue_type (Some t)) w s) as (w1 & E1 & Hwf1 & Hs1 & _);
    [reflexivity|exact Hwf|exact Hs|].
  assert (H1 : holds sid (classified_as t) w1).
  { split; [exact Hwf1|]. eexists. split; [exact Hs1|reflexivity]. }
  assert (Hext : forall sid', sid' = sid -> forall s1 s2,
             issue_type s1 = issue_type s2 -> greeted s1 = greeted s2 ->
             classified_as t (Some s1) -> classified_as t (Some s2))
    by (intros; eauto using classified_as_ext).
  unfold try_except. rewrite (bind_ok _ _ _ _ _ Eprofile), (bind_ok _ _ _ _ _ E1).
  match goal with
  | |- context [let '(_, _) := ?m w1 in _] =>
      assert (H2 : holds sid (classified_as t) (snd (m w1)));
        [|destruct (m w1) as [[r|e] w2]; simpl in H2]
  end.
  { match goal with
    | |- holds _ _ (snd (?m w1)) =>
        assert (Hm : preserves sid (classified_as t) m); [|exact (Hm w1 H1)]
    end.
    pres. }
  - exact (proj2 H2).
  - exact (proj2 (call_keeps_category sid t (ProcessQuery env query sid) Ht w2 H2)).
Qed.

(** A session classified as Hardware receives a query the ontology
    classifier takes for Software. *)
Lemma enhanced_query_overwrites_category_witness :
  wf (sessions hardware_world)
  /\ sessions hardware_world !! "s1" = Some hardware_session
  /\ (forall v, is_ok (MEAIEnhancedOrchestrator.get_profile_by_email no_profiles v) = true)
  /\ (forall v, is_ok (MEAIEnhancedOrchestrator.get_profile_by_phone no_profiles v) = true)
  /\ specific "Software"
  /\ classified_as "Software"
       (sessions (snd (MEAIEnhancedOrchestrator.process_query no_profiles (env_up "Let me help.")
                         "the application crashes after the update" "s1" hardware_world))
          !! "s1").
Proof.
  assert (H : wf (sessions hardware_world)) by (apply wf_insert; [reflexivity|apply wf_empty]).
  assert (Hs : specific "Software") by (vm_compute; auto).
  split; [exact H|]. split; [reflexivity|].
  split; [intros v; reflexivity|]. split; [intros v; reflexivity|].
  split; [exact Hs|].
  apply (enhanced_query_overwrites_category no_profiles (env_up "Let me help.")
           "the application crashes after the update" "s1" hardware_world hardware_session H
           eq_refl (fun v => eq_refl) (fun v => eq_refl)).
  exact Hs.
Defined.

End EnhancedFacts.

(** ** Letter case beyond Latin-1 *)

Module UnicodeFacts.
Import PyUnicode ResponseGeneratorUnicode UnicodeSamples.

Lemma in_codes_below (k : N) (n : nat) :
  (k < N.of_nat n)%N -> In k (List.map N.of_nat (seq 0 n)).
Proof.
  intros H. apply in_map_iff. exists (N.to_nat k). split; [apply N2Nat.id|].
  apply in_seq. lia.
Qed.

Lemma lower_code_high n : (384 <= n)%N -> lower_code n = [n].
Proof.
  intros H. unfold lower_code.
  replace (n <=? 90)%N with false by (symmetry; apply N.leb_gt; lia).
  replace (n <=? 222)%N with false by (symmetry; apply N.leb_gt; lia).
  replace (n =? 304)%N with false by (symmetry; apply N.eqb_neq; lia).
  replace (n =? 376)%N with false by (symmetry; apply N.eqb_neq; lia).
  replace (n <=? 311)%N with false by (symmetry; apply N.leb_gt; lia).
  replace (n <=? 375)%N with false by (symmetry; apply N.leb_gt; lia).
  replace (n <=? 328)%N with false by (symmetry; apply N.leb_gt; lia).
  replace (n <=? 382)%N with false by (symmetry; apply N.leb_gt; lia).
  now rewrite !andb_false_r.
Qed.

(** A property of every code point, checked on the code points below
    U+0180 one by one and read off the definitions above them. *)
Lemma by_cases_on_code (P : N -> bool) :
  forallb P (List.map N.of_nat (seq 0 384)) = true ->
  (forall n, (384 <= n)%N -> P n = true) ->
  forall n, P n = true.
Proof.
  intros Hlow Hhigh n. destruct (N.lt_ge_cases n 384) as [H|H]; [|now apply Hhigh].
  rewrite forallb_forall in Hlow. apply Hlow. now apply (in_codes_below n 384).
Qed.

Lemma eqb_eq a b : eqb a b = true <-> a = b.
Proof.
  revert b. induction a as [|x a IH]; intros [|y b]; simpl; split; try discriminate;
    try reflexivity.
  - intros H. apply andb_true_iff in H. destruct H as [Hx Hl].
    apply N.eqb_eq in Hx. apply IH in Hl. now subst.
  - intros [= -> ->]. rewrite N.eqb_refl. now apply IH.
Qed.

Lemma lower_app a b : lower (a ++ b) = lower a ++ lower b.
Proof. apply flat_map_app. Qed.

Lemma lower_code_idem n : lower (lower_code n) = lower_code n.
Proof.
  apply eqb_eq.
  apply (by_cases_on_code (fun n => eqb (lower (lower_code n)) (lower_code n))).
  - vm_compute. reflexivity.
  - intros k Hk. rewrite (lower_code_high k Hk). unfold lower. simpl.
    rewrite (lower_code_high k Hk). simpl. now rewrite N.eqb_refl.
Qed.

Lemma lower_idem_codes m : lower (lower m) = lower m.
Proof.
  induction m as [|n m IH]; [reflexivity|].
  change (lower (n :: m)) with (lower_code n ++ lower m).
  now rewrite lower_app, lower_code_idem, IH.
Qed.

Lemma modelled_lower_code n : modelled (lower_code n) = modelled_code n.
Proof.
  apply eqb_prop.
  apply (by_cases_on_code (fun n => Bool.eqb (modelled (lower_code n)) (modelled_code n))).
  - vm_compute. reflexivity.
  - intros k Hk. rewrite (lower_code_high k Hk). simpl. rewrite andb_true_r.
    apply eqb_reflx.
Qed.

Lemma modelled_app a b : modelled (a ++ b) = modelled a && modelled b.
Proof. apply forallb_app. Qed.

Lemma modelled_lower m : modelled (lower m) = modelled m.
Proof.
  induction m as [|n m IH]; [reflexivity|].
  change (lower (n :: m)) with (lower_code n ++ lower m).
  rewrite modelled_app, modelled_lower_code, IH. reflexivity.
Qed.

(** Lower-casing is the same whether it is done before or after the
    call, provided it leaves the stripped length on the same side of
    the threshold. *)
Lemma classify_issue_lower_codes m :
  (len (strip (lower m)) <? 10)%Z = (len (strip m) <? 10)%Z ->
  classify_issue (lower m) = classify_issue m.
Proof.
  intros H. unfold classify_issue, too_short_or_greeting.
  now rewrite modelled_lower, H, lower_idem_codes.
Qed.

Lemma classify_issue_modelled m :
  modelled m = true -> exists c, classify_issue m = Some c.
Proof. intros H. unfold classify_issue. rewrite H. now eexists. Qed.

(** The lower case of one code point other than U+0130. *)
Definition lower1 (n : N) : N := hd n (lower_code n).

Lemma lower_code_single n :
  n <> 304%N -> lower_code n = [lower1 n] /\ is_space (lower1 n) = is_space n.
Proof.
  intros Hn.
  assert (H : ((n =? 304)%N
               || (eqb (lower_code n) [lower1 n]
                   && Bool.eqb (is_space (lower1 n)) (is_space n))) = true).
  { apply (by_cases_on_code
             (fun n => (n =? 304)%N
                       || (eqb (lower_code n) [lower1 n]
                           && Bool.eqb (is_space (lower1 n)) (is_space n)))).
    - vm_compute. reflexivity.
    - intros k Hk. unfold lower1. rewrite (lower_code_high k Hk). simpl.
      rewrite N.eqb_refl, eqb_reflx. apply orb_true_r. }
  apply orb_true_iff in H. destruct H as [H|H]; [apply N.eqb_eq in H; contradiction|].
  apply andb_true_iff in H. destruct H as [H1 H2].
  split; [now apply eqb_eq|now apply eqb_prop].
Qed.

Lemma lower_map m : ~ In 304%N m -> lower m = List.map lower1 m.
Proof.
  induction m as [|n m IH]; intros H; [reflexivity|].
  change (lower (n :: m)) with (lower_code n ++ lower m).
  destruct (lower_code_single n) as [-> _]; [intros ->; apply H; now left|].
  rewrite IH; [reflexivity|]. intros Hin. apply H. now right.
Qed.

Lemma lstrip_map f m :
  Forall (fun n => is_space (f n) = is_space n) m ->
  lstrip (List.map f m) = List.map f (lstrip m).
Proof.
  induction 1 as [|n m Hn _ IH]; simpl; [reflexivity|].
  rewrite Hn. destruct (is_space n); [exact IH|reflexivity].
Qed.

Lemma rstrip_map f m :
  Forall (fun n => is_space (f n) = is_space n) m ->
  rstrip (List.map f m) = List.map f (rstrip m).
Proof.
  induction 1 as [|n m Hn _ IH]; simpl; [reflexivity|].
  rewrite IH, Hn. destruct (rstrip m); simpl; [|reflexivity].
  destruct (is_space n); reflexivity.
Qed.

Lemma Forall_lstrip (P : N -> Prop) m : Forall P m -> Forall P (lstrip m).
Proof.
  induction 1 as [|n m Hn Hm IH]; simpl; [constructor|].
  destruct (is_space n); [exact IH|now constructor].
Qed.

Lemma len_strip_lower_codes m : ~ In 304%N m -> len (strip (lower m)) = len (strip m).
Proof.
  intros H. rewrite (lower_map m H). unfold len, strip.
  assert (Hf : Forall (fun n => is_space (lower1 n) = is_space n) m).
  { apply Forall_forall. intros n Hn. apply list_elem_of_In in Hn.
    apply lower_code_single. intros ->. contradiction. }
  rewrite (lstrip_map _ _ Hf), (rstrip_map _ _ (Forall_lstrip _ _ Hf)).
  now rewrite length_map.
Qed.

(** *** The strings of [PyStr] among the strings of code points *)

Lemma code_eqb a b : (PyStr.code a =? PyStr.code b)%N = Ascii.eqb a b.
Proof.
  unfold PyStr.code. destruct (Ascii.eqb_spec a b) as [->|Hne].
  - apply N.eqb_refl.
  - apply N.eqb_neq. intros E. apply Hne.
    rewrite <- (ascii_N_embedding a), <- (ascii_N_embedding b). now rewrite E.
Qed.

Lemma lower_code_char c : lower_code (PyStr.code c) = [PyStr.code (PyStr.lower_char c)].
Proof.
  assert (H : forallb (fun n => eqb (lower_code (PyStr.code (ascii_of_N n)))
                                  [PyStr.code (PyStr.lower_char (ascii_of_N n))])
                (List.map N.of_nat (seq 0 256)) = true) by (vm_compute; reflexivity).
  rewrite forallb_forall in H.
  specialize (H (N_of_ascii c)). rewrite ascii_N_embedding in H.
  apply eqb_eq, H. apply in_codes_below.
  pose proof (N_ascii_bounded c). lia.
Qed.

Lemma of_string_cons c s : of_string (String c s) = PyStr.code c :: of_string s.
Proof. reflexivity. Qed.

Lemma of_string_lower s : lower (of_string s) = of_string (PyStr.lower s).
Proof.
  induction s as [|c s IH]; [reflexivity|].
  simpl PyStr.lower. rewrite !of_string_cons.
  change (lower (PyStr.code c :: of_string s))
    with (lower_code (PyStr.code c) ++ lower (of_string s)).
  now rewrite lower_code_char, IH.
Qed.

Lemma of_string_lstrip s : lstrip (of_string s) = of_string (PyStr.lstrip s).
Proof.
  induction s as [|c s IH]; [reflexivity|].
  rewrite of_string_cons. simpl.
  change (is_space (PyStr.code c)) with (PyStr.is_space c).
  destruct (PyStr.is_space c); [exact IH|reflexivity].
Qed.

Lemma of_string_rstrip s : rstrip (of_string s) = of_string (PyStr.rstrip s).
Proof.
  induction s as [|c s IH]; [reflexivity|].
  rewrite of_string_cons. simpl. rewrite IH.
  change (is_space (PyStr.code c)) with (PyStr.is_space c).
  destruct (PyStr.rstrip s); simpl; [|reflexivity].
  destruct (PyStr.is_space c); reflexivity.
Qed.

Lemma of_string_strip s : strip (of_string s) = of_string (PyStr.strip s).
Proof. unfold strip, PyStr.strip. now rewrite of_string_lstrip, of_string_rstrip. Qed.

Lemma of_string_len s : len (of_string s) = PyStr.len s.
Proof.
  unfold len, PyStr.len, of_string. rewrite length_map. f_equal.
  induction s as [|c s IH]; simpl; [reflexivity|now rewrite IH].
Qed.

Lemma of_string_startswith w s :
  startswith (of_string w) (of_string s) = PyStr.startswith w s.
Proof.
  revert s. induction w as [|a w IH]; intros [|b s]; try reflexivity.
  rewrite !of_string_cons. simpl. now rewrite code_eqb, IH.
Qed.

Lemma of_string_contains w s :
  contains (of_string w) (of_string s) = PyStr.contains w s.
Proof.
  induction s as [|b s IH].
  - simpl. change [] with (of_string ""). now rewrite of_string_startswith.
  - rewrite of_string_cons. simpl. rewrite <- of_string_cons.
    now rewrite of_string_startswith, IH.
Qed.

Lemma of_string_eqb a b : eqb (of_string a) (of_string b) = String.eqb a b.
Proof.
  revert b. induction a as [|x a IH]; intros [|y b]; try reflexivity.
  rewrite !of_string_cons. simpl. now rewrite code_eqb, IH.
Qed.

Lemma of_string_mem s l : mem (of_string s) (List.map of_string l) = PyStr.mem s l.
Proof.
  unfold mem, PyStr.mem. induction l as [|x l IH]; simpl; [reflexivity|].
  now rewrite of_string_eqb, IH.
Qed.

Lemma of_string_modelled s : modelled (of_string s) = true.
Proof.
  induction s as [|c s IH]; [reflexivity|].
  rewrite of_string_cons. simpl. rewrite IH, andb_true_r.
  unfold modelled_code. apply orb_true_iff. left. apply N.ltb_lt.
  pose proof (N_ascii_bounded c). unfold PyStr.code. lia.
Qed.

Lemma of_string_count_matches keywords s :
  count_matches keywords (of_string s) = ResponseGenerator.count_matches keywords s.
Proof.
  unfold count_matches, ResponseGenerator.count_matches.
  generalize 0%Z. induction keywords as [|k ks IH]; intros z; simpl; [reflexivity|].
  now rewrite of_string_lower, of_string_contains, IH.
Qed.

(** On a string of [PyStr] the two models of [classify_issue] agree. *)
Lemma classify_issue_of_string s :
  classify_issue (of_string s) = Some (ResponseGenerator.classify_issue s).
Proof.
  unfold classify_issue, ResponseGenerator.classify_issue,
    too_short_or_greeting, ResponseGenerator.too_short_or_greeting,
    ResponseGenerator.hardware_count, ResponseGenerator.password_count,
    ResponseGenerator.password_raw_count, ResponseGenerator.software_count.
  rewrite of_string_modelled, of_string_strip, of_string_len, !of_string_lower,
    of_string_mem, !of_string_count_matches.
  reflexivity.
Qed.

(** C10 (as amended): lower-casing the message does not change the
    category as long as it leaves the stripped length on the same side
    of the threshold of the guard.  It does when the message has no
    capital I with a dot above, the one modelled code point whose lower
    case is longer; so it does on every string of [PyStr], where the
    two models of [classify_issue] agree. *)
Theorem classify_issue_case_insensitive_when_length_kept :
  (forall m,
      modelled m = true ->
      (len (strip (lower m)) <? 10)%Z = (len (strip m) <? 10)%Z ->
      exists c, classify_issue m = Some c /\ classify_issue (lower m) = Some c)
  /\ (forall m,
         modelled m = true -> ~ In 304%N m ->
         len (strip (lower m)) = len (strip m)
         /\ exists c, classify_issue m = Some c /\ classify_issue (lower m) = Some c)
  /\ (forall s : string,
         classify_issue (of_string s) = Some (ResponseGenerator.classify_issue s)
         /\ lower (of_string s) = of_string (PyStr.lower s)
         /\ ResponseGenerator.classify_issue s
            = ResponseGenerator.classify_issue (PyStr.lower s)).
Proof.
  assert (H1 : forall m,
             modelled m = true ->
             (len (strip (lower m)) <? 10)%Z = (len (strip m) <? 10)%Z ->
             exists c, classify_issue m = Some c /\ classify_issue (lower m) = Some c).
  { intros m Hm Hlen. destruct (classify_issue_modelled m Hm) as (c & Hc).
    exists c. split; [exact Hc|]. now rewrite classify_issue_lower_codes. }
  split; [exact H1|]. split.
  - intros m Hm Hi. pose proof (len_strip_lower_codes m Hi) as Hlen.
    split; [exact Hlen|]. apply H1; [exact Hm|now rewrite Hlen].
  - intros s. split; [apply classify_issue_of_string|].
    split; [apply of_string_lower|].
    symmetry. apply ClassifierFacts.classify_issue_lower.
Qed.

(** "İstanbul laptop" has fifteen code points and its lower case sixteen:
    both are classified, and as Hardware. *)
Lemma classify_issue_case_insensitive_when_length_kept_witness :
  modelled istanbul_laptop = true
  /\ (len (strip (lower istanbul_laptop)) <? 10)%Z = (len (strip istanbul_laptop) <? 10)%Z
  /\ len (strip istanbul_laptop) = 15%Z /\ len (strip (lower istanbul_laptop)) = 16%Z
  /\ exists c, classify_issue istanbul_laptop = Some c
               /\ classify_issue (lower istanbul_laptop) = Some c.
Proof.
  split; [reflexivity|]. split; [reflexivity|]. split; [reflexivity|]. split; [reflexivity|].
  apply (proj1 classify_issue_case_insensitive_when_length_kept); reflexivity.
Defined.

(** C10 (as stated) fails: "İ laptops" has nine code points and stops at
    the guard; its lower case has ten, passes the guard and has the
    keyword "laptop". *)
Lemma lower_case_changes_the_category :
  modelled dotted_laptops = true
  /\ len (strip dotted_laptops) = 9%Z
  /\ lower dotted_laptops = 105%N :: 775%N :: of_string " laptops"
  /\ len (strip (lower dotted_laptops)) = 10%Z
  /\ classify_issue dotted_laptops = Some "General"
  /\ classify_issue (lower dotted_laptops) = Some "Hardware"
  /\ classify_issue dotted_laptops <> classify_issue (lower dotted_laptops).
Proof.
  repeat split; try (vm_compute; reflexivity).
  vm_compute. discriminate.
Qed.

End UnicodeFacts.
